(** * Operator implementation selection of the GPU plugin (clDNN / intel_gpu)

    A shallow embedding of the format descriptor helpers ([format]), of the
    per-operator [create] / [clone] functions of the OpenCL implementations
    (quantize, concatenation, activation, extract_image_patches,
    space_to_batch, convert_color, non_max_suppression) and of the weights
    canonicalisation done by the oneDNN convolution descriptor builder.

    Conventions.
    - [size_t] is [N]; arithmetic that the source performs in [size_t] is
      written with its reduction modulo [2^64].  [unsigned] is a 32-bit
      value, [int64_t] a [Z] in the signed 64-bit range.
    - A C++ call either returns, throws, or has no defined behaviour
      (indexing outside a container): type [outcome].
    - The kernel selector is an external collaborator.  Code that calls it
      is a [prog]: a tree whose [CallSelector] node carries the request and
      the continuation that receives the ranked candidates. *)

From Stdlib Require Import ZArith NArith String Ascii List Lia Bool DecimalString.
From stdpp Require Import base option list gmap strings.

Local Open Scope string_scope.

(** ** Outcomes of a C++ call *)

Inductive exception : Type :=
| invalid_argument (what : string)
| ie_exception (what : string)
| cldnn_error (instance_id condition_id additional_message : string).

Inductive outcome (A : Type) : Type :=
| Returns (a : A)
| Throws (e : exception)
| Undefined.

Arguments Returns {A} a.
Arguments Throws {A} e.
Arguments Undefined {A}.

Definition obind {A B} (x : outcome A) (k : A -> outcome B) : outcome B :=
  match x with
  | Returns a => k a
  | Throws e => Throws e
  | Undefined => Undefined
  end.

Notation "'let*' x := c 'in' k" := (obind c (fun x => k))
  (at level 10, x pattern, c at level 100, k at level 200).

(** [v[i]] on a [std::vector]: defined only inside the vector. *)
Definition vector_at {A} (v : list A) (i : N) : outcome A :=
  match v !! N.to_nat i with
  | Some a => Returns a
  | None => Undefined
  end.

(** ** Machine integers *)

Definition size_t_modulus : N := 2 ^ 64.
Definition size_t_add (a b : N) : N := ((a + b) mod size_t_modulus)%N.
Definition size_t_sub (a b : N) : N :=
  Z.to_N ((Z.of_N a - Z.of_N b) mod Z.of_N size_t_modulus).

Definition size_t_mul (a b : N) : N := ((a * b) mod size_t_modulus)%N.

(** [static_cast<size_t>] of a signed integer. *)
Definition to_size_t (z : Z) : N := Z.to_N (z mod Z.of_N size_t_modulus).

(** [static_cast<int64_t>] of a [size_t]. *)
Definition to_int64 (n : N) : Z :=
  let z := (Z.of_N n mod 2 ^ 64)%Z in
  if (z <? 2 ^ 63)%Z then z else (z - 2 ^ 64)%Z.

(** Conversion of an integer to [unsigned]. *)
Definition to_unsigned (z : Z) : N := Z.to_N (z mod 2 ^ 32).

(** ** Strings *)

(** [std::string::npos]. *)
Definition npos : N := (size_t_modulus - 1)%N.

Fixpoint find_from (c : ascii) (s : string) (pos : nat) : option nat :=
  match s with
  | EmptyString => None
  | String a s' => if Ascii.eqb a c then Some pos else find_from c s' (S pos)
  end.

(** [s.find_first_of(c)] for a single character [c]. *)
Definition find_first_of (s : string) (c : ascii) : N :=
  match find_from c s 0 with
  | Some i => N.of_nat i
  | None => npos
  end.

(** [s[idx]] on a [const std::string]: the character at [idx], the
    terminating null character at [idx == size()], nothing beyond. *)
Definition string_at (s : string) (idx : N) : option ascii :=
  match String.get (N.to_nat idx) s with
  | Some c => Some c
  | None => if (idx =? N.of_nat (String.length s))%N then Some Ascii.zero else None
  end.

Fixpoint chars (s : string) : list ascii :=
  match s with
  | EmptyString => []
  | String a s' => a :: chars s'
  end.

(** ** Format descriptors *)

Module format.

(** [format::type], in declaration order; [format_num] counts the formats
    and [any] is the value [-1]. *)
Inductive type : Set :=
  | bfyx | bfzyx | bfwzyx | yxfb | byxf | fyxb | b_fs_yx_fsv2 | b_fs_zyx_fsv2
  | b_fs_yx_fsv4 | b_fs_zyx_fsv4 | b_fs_yx_fsv16 | b_fs_yx_fsv32
  | b_fs_zyx_fsv16 | b_fs_zyx_fsv32 | bs_fs_yx_bsv16_fsv32
  | bs_fs_zyx_bsv16_fsv32 | bs_fs_zyx_bsv16_fsv16 | bs_fs_yx_bsv16_fsv16
  | bs_fs_yx_bsv4_fsv4 | bs_fs_yx_bsv8_fsv4 | bs_fs_zyx_bsv8_fsv4
  | bs_fs_yx_bsv8_fsv2 | bs_fs_zyx_bsv8_fsv2 | bs_fs_yx_bsv4_fsv2
  | bs_fs_zyx_bsv4_fsv4 | bs_fs_zyx_bsv4_fsv2 | bs_fs_yx_bsv32_fsv32
  | bs_fs_yx_bsv32_fsv16 | bs_fs_zyx_bsv32_fsv32 | bs_fs_zyx_bsv32_fsv16
  | fs_b_yx_fsv32 | bs_xs_xsv8_bsv8 | bs_xs_xsv8_bsv16 | bs_x_bsv16
  | b_fs_yx_32fp | winograd_2x3_s1_data | nv12 | image_2d_rgba | oiyx | ioyx
  | yxio | oizyx | iozyx | iyxo | oyxi | os_iyx_osv16 | o_is_yx_isv16
  | os_yxi_osv16 | os_is_yx_osv16_isv16 | os_is_zyx_osv32_isv16
  | os_is_zyx_osv64_isv16 | os_zyxi_osv16 | os_is_yx_isv16_osv16
  | os_is_zyx_isv16_osv16 | is_os_zyx_isv16_osv16 | is_os_yx_isv16_osv16
  | os_is_yx_isv8_osv16_isv2 | os_is_zyx_isv8_osv16_isv2 | os_iyx_osv32
  | os_iyx_osv64 | image_2d_weights_c4_fyx_b | image_2d_weights_c1_b_fyx
  | winograd_2x3_s1_weights | winograd_2x3_s1_fused_weights
  | winograd_6x3_s1_fused_weights | image_2d_weights_winograd_6x3_s1_fbxyb
  | image_2d_weights_winograd_6x3_s1_xfbyb | os_is_yx_isa8_osv8_isv4
  | os_is_zyx_isa8_osv8_isv4 | os_is_yx_isa8_osv16_isv4
  | os_is_zyx_isa8_osv16_isv4 | os_is_yx_isa8_osv8_isv4_swizzled_by_4
  | os_is_yx_osa4_isa8_osv8_isv4_swizzled_by_4
  | os_is_zyx_osa4_isa8_osv8_isv4_swizzled_by_4
  | os_is_yx_osa4_isa8_osv8_isv2 | os_is_zyx_osa4_isa8_osv8_isv2
  | os_is_zyx_osa4_isa8_osv8_isv4 | os_is_yx_osa4_isa8_osv8_isv4
  | os_is_yx_osa2_isa8_osv8_isv2 | os_is_zyx_osa2_isa8_osv8_isv2
  | os_is_yx_osa2_isa8_osv16_isv2 | os_is_yx_osa2_isa8_osv16_isv4
  | os_is_yx_isa8_osv8_isv2 | is_os_yx_isa8_osv8_isv2
  | os_is_zyx_isa8_osv8_isv2 | is_os_zyx_isa8_osv8_isv2
  | is_os_yx_isa2_osa8_isv8_osv2 | is_os_yx_isa4_osa8_isv8_osv4
  | is_os_yx_osa4_isa8_osv8_isv4 | is_o_yx_isv32
  | is_o32_yx_isv32_swizzled_by_4 | os_is_y_x8_osv8_isv4
  | os_is_y_x8_osv8_isv4_swizzled_by_4 | os_is_yx_osv16_isv4
  | os_is_yx_osv8_isv4 | os_is_zyx_osv8_isv4 | os_is_yx_osv8_isv2
  | os_is_zyx_osv8_isv2 | os_is_zyx_osv16_isv16
  | os_is_yx_osv32_isv4_swizzled_by_2 | os_is_yx_osv32_isv4
  | os_is_zyx_osv32_isv4 | os_is_yx_osv32_isv32p | lstm_weights_dio
  | os_is_osv32_isv32_swizzled_by_4 | os_iyx_osv32__ai32
  | iy_xs_os_xsv2_osv8__ao32 | iy_xs_os_xsv2_osv16__ao32
  | i_yxs_os_yxsv2_osv16 | os_i_yxs_osv4_yxsv4 | os_i_osv16__ai8
  | os_i_osv8__ai8 | goiyx | gioyx | gyxio | goizyx | giozyx | g_os_iyx_osv16
  | g_os_iyx_osv32 | gs_oiyx_gsv16 | gs_oizyx_gsv16 | gs_oiyx_gsv32
  | gs_oizyx_gsv32 | g_is_os_zyx_isv16_osv16 | g_os_is_yx_osv16_isv4
  | g_os_is_zyx_osv16_isv16 | g_is_os_yx_isv16_osv16
  | g_os_is_yx_isa8_osv8_isv2 | g_os_is_zyx_isv8_osv16_isv2
  | g_os_is_yx_isv8_osv16_isv2 | g_os_is_zyx_isv16_osv16
  | g_os_zyx_is_osv16_isv4 | g_os_zyx_is_osv16_isv16
  | g_os_zyx_is_osv16_isv32 | g_os_zyx_is_osv32_isv4
  | g_os_zyx_is_osv32_isv16 | g_os_zyx_is_osv32_isv32
  | g_os_is_yx_isv16_osv16 | g_os_is_yx_osv8_isv2 | g_os_is_yx_osv8_isv4
  | gs_oi_yxs_gsv4_yxsv4 | gs_oi_yxs_gsv16_yxsv4 | gs_oi_yxs_gsv32_yxsv4
  | gi_yxs_os_yxsv2_osv16 | giy_xs_os_xsv2_osv8__ao32
  | giy_xs_os_xsv2_osv16__ao32 | g_os_is_yx_osa2_isa8_osv8_isv2
  | g_os_is_yx_osa4_isa8_osv8_isv4 | g_os_is_yx_osa4_isa8_osv8_isv2
  | g_os_is_yx_osa2_isa8_osv16_isv2 | g_os_is_yx_osa2_isa8_osv16_isv4
  | g_os_is_zyx_osa4_isa8_osv8_isv2 | g_os_is_zyx_osa4_isa8_osv8_isv4
  | format_num | any.

Record format_traits : Type := {
  str : string;
  batch_num : N;
  feature_num : N;
  spatial_num : N;
  group_num : N;
  _order : list N;
  order : string;
  internal_order : string;
  block_sizes : list (N * Z)
}.

(** The static table behind [format::traits(fmt)]. *)
Class Traits := traits : type -> format_traits.

Section Static.
Context `{Traits}.

Definition dimension (fmt : type) : N :=
  N.of_nat (String.length (order (traits fmt))).

Definition is_grouped (fmt : type) : bool :=
  negb (group_num (traits fmt) =? 0)%N.

Definition is_blocked (fmt : type) : bool :=
  negb (match block_sizes (traits fmt) with [] => true | _ => false end).

Definition is_simple_data_format (fmt : type) : bool :=
  match fmt with
  | yxfb | byxf | bfyx | fyxb | bfzyx | bfwzyx => true
  | _ => false
  end.

Definition get_default_format (rank : N) (is_weights is_grouped : bool) : type :=
  let default_fmt := bfyx in
  if is_weights then
    if is_grouped then
      if (rank =? 5)%N then goiyx
      else if (rank =? 6)%N then goizyx
      else default_fmt
    else
      if (rank =? 4)%N then oiyx
      else if (rank =? 5)%N then oizyx
      else default_fmt
  else
    if (rank =? 5)%N then bfzyx
    else if (rank =? 6)%N then bfwzyx
    else default_fmt.

(** [format::internal_to_external] of the format whose value is [fmt]. *)
Definition internal_to_external (fmt : type) (idx : N) : outcome N :=
  match string_at (internal_order (traits fmt)) idx with
  | None => Undefined
  | Some c =>
      let index := find_first_of (order (traits fmt)) c in
      if (index =? npos)%N
      then Throws (invalid_argument
                     "Internal dimension index does not map to external index.")
      else Returns index
  end.

(** [format_traits::batch_chars()] and the like, and the tests built on
    them. *)
Definition batch_chars : string := "bno".
Definition feature_chars : string := "fic".
Definition spatial_chars : string := "xyzhsw".
Definition group_chars : string := "g".

Definition is_batch_char (c : ascii) : bool :=
  negb (find_first_of batch_chars c =? npos)%N.
Definition is_feature_char (c : ascii) : bool :=
  negb (find_first_of feature_chars c =? npos)%N.
Definition is_spatial_char (c : ascii) : bool :=
  negb (find_first_of spatial_chars c =? npos)%N.
Definition is_group_char (c : ascii) : bool :=
  negb (find_first_of group_chars c =? npos)%N.

Definition is_winograd (fmt : type) : bool :=
  match fmt with
  | winograd_2x3_s1_data | winograd_2x3_s1_weights
  | winograd_2x3_s1_fused_weights | winograd_6x3_s1_fused_weights
  | image_2d_weights_winograd_6x3_s1_fbxyb
  | image_2d_weights_winograd_6x3_s1_xfbyb => true
  | _ => false
  end.

Definition is_image_2d (fmt : type) : bool :=
  match fmt with
  | image_2d_weights_c4_fyx_b | image_2d_weights_c1_b_fyx
  | image_2d_weights_winograd_6x3_s1_fbxyb
  | image_2d_weights_winograd_6x3_s1_xfbyb
  | nv12 | image_2d_rgba => true
  | _ => false
  end.

Definition is_image (fmt : type) : bool := is_image_2d fmt.

Definition is_nv12 (fmt : type) : bool :=
  match fmt with nv12 => true | _ => false end.

(** [s.find_first_of(set)] for a C string [set]: the first position of [s]
    that holds one of the characters of [set]. *)
Fixpoint find_any_from (set : list ascii) (s : string) (pos : nat) : option nat :=
  match s with
  | EmptyString => None
  | String a s' =>
      if existsb (Ascii.eqb a) set then Some pos else find_any_from set s' (S pos)
  end.

Definition find_first_of_set (s set : string) : N :=
  match find_any_from (chars set) s 0 with
  | Some i => N.of_nat i
  | None => npos
  end.

Definition is_weights_format (fmt : type) : bool :=
  let internal_order := internal_order (traits fmt) in
  let weights_chars := ["o"; "i"] in
  existsb (fun c => negb (find_first_of_set internal_order c =? npos)%N)
          weights_chars.

(** The combinations of (rank, is_weights, is_grouped) for which
    [get_default_format] is documented, with the documented result. *)
Definition documented_table : list (N * bool * bool * type) :=
  [ (4%N, false, false, bfyx); (5%N, false, false, bfzyx);
    (6%N, false, false, bfwzyx); (5%N, true, true, goiyx);
    (6%N, true, true, goizyx); (4%N, true, false, oiyx);
    (5%N, true, false, oizyx) ].

Definition documented (rank : N) (is_weights is_grouped : bool) : bool :=
  existsb (fun '(r, w, g, _) =>
             (rank =? r)%N && Bool.eqb is_weights w && Bool.eqb is_grouped g)
          documented_table.

(** Modelled from the spec: the static table behind [format::traits] is
    not part of the sources.  Section 3 states its invariant:
    [internal_order] is a sub-permutation of the character set of [order];
    it may reorder or omit characters of [order] and never introduces a
    character that [order] lacks. *)
Definition sub_permutation (t : format_traits) : Prop :=
  NoDup (chars (internal_order t)) /\
  Forall (fun c => c ∈ chars (order t)) (chars (internal_order t)).

(** [std::string::max_size()] is below [npos]. *)
Definition representable (t : format_traits) : Prop :=
  (N.of_nat (String.length (order t)) < npos)%N.

(** The image of the valid physical indices under [internal_to_external]. *)
Definition external_indices (fmt : type) : list (outcome N) :=
  map (fun i => internal_to_external fmt (N.of_nat i))
      (seq 0 (String.length (internal_order (traits fmt)))).

End Static.
End format.

(** ** Tensors and layouts *)

(** [cldnn::tensor]: the extents by role ([value_type] is [int32_t]). *)
Record tensor : Type := {
  batch : list Z;
  feature : list Z;
  spatial : list Z;
  group : list Z
}.

(** [cldnn::layout], with the members the modelled code reads or writes. *)
Record layout : Type := {
  format : format.type;
  size : tensor
}.

Definition get_tensor (l : layout) : tensor := size l.

Definition set_tensor (l : layout) (t : tensor) : layout :=
  {| format := format l; size := t |}.

Definition set_format (l : layout) (f : format.type) : layout :=
  {| format := f; size := size l |}.

Definition set_spatial (t : tensor) (s : list Z) : tensor :=
  {| batch := batch t; feature := feature t; spatial := s; group := group t |}.

(** [kernel_impl_params]: the layouts of a node's inputs and output. *)
Record kernel_impl_params : Type := {
  input_layouts : list layout;
  output_layout : layout
}.

(** [get_input_layout(idx)] reads [input_layouts[idx]]. *)
Definition get_input_layout (p : kernel_impl_params) (idx : N) : outcome layout :=
  vector_at (input_layouts p) idx.

(** ** The kernel selector and its helper library *)

(** [kernel_selector::base_params]: the tensor descriptions of the inputs
    and outputs; [T] is the tensor description type and [F] stands for the
    members that the modelled code does not touch. *)
Record base_params (T F : Type) : Type := {
  inputs : list T;
  outputs : list T;
  fields : F
}.

Arguments inputs {T F} b.
Arguments outputs {T F} b.
Arguments fields {T F} b.

Definition set_inputs {T F} (p : base_params T F) (i : list T) : base_params T F :=
  {| inputs := i; outputs := outputs p; fields := fields p |}.

Definition set_outputs {T F} (p : base_params T F) (o : list T) : base_params T F :=
  {| inputs := inputs p; outputs := o; fields := fields p |}.

(** The types of the kernel selector and the helpers of
    [kernel_selector_helper.h], [layout] and the activation kernel base are
    collaborators of the modelled code: they are the members of this class. *)
Class KernelSelectorHelper : Type := {
  (** [kernel_selector::DataTensor] and its value-initialised value *)
  data_tensor : Type;
  default_data_tensor : data_tensor;
  convert_data_tensor : layout -> data_tensor;
  (** [kernel_selector::clKernelData] *)
  clKernelData : Type;
  (** [cldnn::program] and [get_default_optional_params<T>(program)] *)
  program : Type;
  optional_params : Type;
  get_default_optional_params : program -> optional_params;
  (** members of [base_params] that are only carried along *)
  base_fields : Type;
  (** [layout::get_rank], [layout::count], [layout::feature] *)
  get_rank : layout -> N;
  count : layout -> N;
  layout_feature : layout -> Z;
  (** scalars that are only copied *)
  float : Type;
  (** [convert_dim_vector] and its result type *)
  dim_tensor : Type;
  convert_dim_vector : tensor -> dim_tensor;
  (** activation descriptions *)
  activation_primitive : Type;
  activation_func : Type;
  base_activation_params : Type;
  function : base_activation_params -> activation_func;
  GetActivationAdditionalParamsNumber : activation_func -> N;
  convert_new_activation_func :
    activation_primitive -> list base_activation_params ->
    list base_activation_params
}.

Definition params_base `{KernelSelectorHelper} : Type :=
  base_params data_tensor base_fields.

(** [kernel_selector::kernel_data]; [kernels] is the member the modelled
    code reads.  The value [{}] has no kernels. *)
Record kernel_data `{KernelSelectorHelper} : Type := {
  kernels : list clKernelData
}.

Definition empty_kernel_data `{KernelSelectorHelper} : kernel_data :=
  {| kernels := [] |}.

(** ** Error macros *)

(** Modelled from the spec: the [CLDNN_ERROR_*] macros of
    [intel_gpu/runtime/error_handler.hpp] are not part of the sources.
    Per sections 4.2 and 7 a failed check is a fatal failure reported with
    the node identifier; the exception carries the identifier, the name of
    the checked condition and the message of the call site. *)
Definition CLDNN_ERROR_BOOL (instance_id condition_id : string)
    (condition : bool) (additional_message : string) : outcome unit :=
  if condition
  then Throws (cldnn_error instance_id condition_id additional_message)
  else Returns tt.

Definition CLDNN_ERROR_NOT_EQUAL (instance_id number_id : string) (number : N)
    (compare_to_id : string) (compare_to : N) (additional_message : string)
    : outcome unit :=
  if negb (number =? compare_to)%N
  then Throws (cldnn_error instance_id number_id additional_message)
  else Returns tt.

Definition CLDNN_ERROR_LESS_THAN (instance_id number_id : string) (number : N)
    (compare_to_id : string) (compare_to : N) (additional_message : string)
    : outcome unit :=
  if (number <? compare_to)%N
  then Throws (cldnn_error instance_id number_id additional_message)
  else Returns tt.

(** Modelled from the spec: the macros [IE_THROW] and [IE_ASSERT] of
    [ie_common.h] are not part of the sources.  Per section 7 an attribute
    that cannot be mapped is a fatal failure surfaced to the caller:
    [IE_THROW() << msg] throws an exception with the streamed message and
    [IE_ASSERT(cond)] throws when [cond] is false. *)
Definition IE_THROW {A} (msg : string) : outcome A := Throws (ie_exception msg).

Definition IE_ASSERT (cond : bool) : outcome unit :=
  if cond then Returns tt else Throws (ie_exception "AssertionFailed").

(** ** Programs that consult the kernel selector *)

Inductive prog (Req K A : Type) : Type :=
| Done (r : outcome A)
| CallSelector (req : Req) (k : list K -> prog Req K A).

Arguments Done {Req K A} r.
Arguments CallSelector {Req K A} req k.

Fixpoint pbind {Req K A B} (p : prog Req K A) (f : A -> prog Req K B)
  : prog Req K B :=
  match p with
  | Done (Returns a) => f a
  | Done (Throws e) => Done (Throws e)
  | Done Undefined => Done Undefined
  | CallSelector req k => CallSelector req (fun best => pbind (k best) f)
  end.

Notation "'step*' x := c 'in' k" := (pbind (Done c) (fun x => k))
  (at level 10, x pattern, c at level 100, k at level 200).

(** Running a program against a selector: the requests it received, in
    order, and the outcome. *)
Fixpoint run {Req K A} (GetBestKernels : Req -> list K) (p : prog Req K A)
  : list Req * outcome A :=
  match p with
  | Done r => ([], r)
  | CallSelector req k =>
      let '(trace, r) := run GetBestKernels (k (GetBestKernels req)) in
      (req :: trace, r)
  end.

(** [for (i = from; i < from + n; ++i) v.push_back(convert(layouts[i]))] *)
Fixpoint push_back_converted `{KernelSelectorHelper} (layouts : list layout)
    (from : N) (n : nat) (v : list data_tensor) : outcome (list data_tensor) :=
  match n with
  | O => Returns v
  | S n' =>
      let* l := vector_at layouts from in
      push_back_converted layouts (from + 1)%N n' (v ++ [convert_data_tensor l])
  end.

(** [v.resize(n)] *)
Definition resize {A} (v : list A) (n : N) (d : A) : list A :=
  take (N.to_nat n) v ++ replicate (N.to_nat n - length v) d.

(** [for (i = from; i < from + n; ++i) v[i] = convert(layouts[i])] *)
Fixpoint assign_converted `{KernelSelectorHelper} (layouts : list layout)
    (from : N) (n : nat) (v : list data_tensor) : outcome (list data_tensor) :=
  match n with
  | O => Returns v
  | S n' =>
      let* l := vector_at layouts from in
      if (from <? N.of_nat (length v))%N
      then assign_converted layouts (from + 1)%N n'
             (<[N.to_nat from := convert_data_tensor l]> v)
      else Undefined
  end.

(** ** Compiled implementations *)

(** Modelled from the spec: [typed_primitive_impl_ocl<T>] of
    [primitive_base.hpp] is not part of the sources.  Per section 3 a
    Compiled Implementation wraps exactly one candidate of the kernel
    selector; its constructor from [(arg, kd)] stores [kd] and its copy
    constructor copies it. *)
Record typed_primitive_impl_ocl `{KernelSelectorHelper} : Type := {
  _kernel_data : kernel_data
}.

(** ** Graph nodes and parameter records of the operators

    One module per operator: the node with the accessors the
    implementation reads, and the parameter records of the kernel
    selector with the members the implementation writes. *)

Module quantize.
Section Types.
Context `{KernelSelectorHelper}.

Record node : Type := {
  id : string;
  get_program : program;
  inputs_count : N;
  get_levels : Z;
  get_packed_binary_output : bool;
  get_scale_shift_opt : bool;
  get_need_post_scale : bool;
  get_need_post_shift : bool;
  get_need_pre_shift : bool;
  get_need_clamp : bool;
  get_need_min_clamp : bool;
  get_need_max_clamp : bool;
  get_per_tensor_input_range : bool;
  get_per_tensor_input_scale : bool;
  get_per_tensor_input_shift : bool;
  get_per_tensor_output_range : bool;
  get_per_tensor_output_scale : bool;
  get_per_tensor_output_shift : bool;
  get_input_lo_val : float;
  get_input_hi_val : float;
  get_input_scale_val : float;
  get_input_shift_val : float;
  get_output_lo_val : float;
  get_output_hi_val : float;
  get_output_scale_val : float;
  get_output_shift_val : float
}.

Record quantize_params : Type := {
  base : base_params data_tensor base_fields;
  levels : Z;
  packed_binary_output : bool;
  scale_shift_opt : bool;
  has_post_scale : bool;
  has_post_shift : bool;
  has_pre_shift : bool;
  has_clamp : bool;
  has_min_clamp : bool;
  has_max_clamp : bool;
  per_tensor_input_range : bool;
  per_tensor_input_scale : bool;
  per_tensor_input_shift : bool;
  per_tensor_output_range : bool;
  per_tensor_output_scale : bool;
  per_tensor_output_shift : bool;
  in_lo : float;
  in_hi : float;
  in_scale : float;
  in_shift : float;
  out_lo : float;
  out_hi : float;
  out_scale : float;
  out_shift : float
}.

End Types.
End quantize.

Module concatenation.

(** [kernel_selector::concat_axis] *)
Inductive concat_axis : Set := X | Y | Z | W | FEATURE | BATCH.

Section Types.
Context `{KernelSelectorHelper}.

Record primitive : Type := {
  axis : BinNums.Z
}.

Record node : Type := {
  id : string;
  get_program : program;
  inputs_count : N;
  can_be_optimized : bool;
  get_primitive : primitive
}.

Record concatenation_params : Type := {
  base : base_params data_tensor base_fields;
  params_axis : concat_axis
}.

Record concatenation_optional_params : Type := {
  optional_base : optional_params;
  kernelPerInput : bool
}.

End Types.
End concatenation.

Module activation.
Section Types.
Context `{KernelSelectorHelper}.

Record node : Type := {
  id : string;
  get_program : program;
  is_parameterized : bool;
  get_primitive : activation_primitive
}.

Record activation_params : Type := {
  base : base_params data_tensor base_fields;
  activations : list base_activation_params;
  inputActivationParams : list data_tensor
}.

End Types.
End activation.

Module extract_image_patches.
Section Types.
Context `{KernelSelectorHelper}.

Record primitive : Type := {
  sizes : list N;
  strides : list N;
  rates : list N;
  auto_pad : string
}.

Record node : Type := {
  id : string;
  get_program : program;
  get_primitive : primitive
}.

Record extract_image_patches_params : Type := {
  base : base_params data_tensor base_fields;
  params_sizes : list N;
  params_strides : list N;
  params_rates : list N;
  params_auto_pad : string
}.

End Types.
End extract_image_patches.

Module space_to_batch.
Section Types.
Context `{KernelSelectorHelper}.

Record primitive : Type := {
  block_shape : tensor;
  pads_begin : tensor;
  pads_end : tensor
}.

Record node : Type := {
  id : string;
  get_program : program;
  get_primitive : primitive
}.

Record space_to_batch_params : Type := {
  base : base_params data_tensor base_fields;
  params_block_shape : dim_tensor;
  params_pads_begin : dim_tensor;
  params_pads_end : dim_tensor
}.

End Types.
End space_to_batch.

Module convert_color.
Section Types.
Context `{KernelSelectorHelper}.

(** The colour formats and the memory type are enumerations; a
    [static_cast] between the two enumeration types keeps the value. *)
Record primitive : Type := {
  input_color_format : N;
  output_color_format : N;
  mem_type : N
}.

Record node : Type := {
  id : string;
  get_program : program;
  get_primitive : primitive
}.

Record convert_color_params : Type := {
  base : base_params data_tensor base_fields;
  params_input_color_format : N;
  params_output_color_format : N;
  params_mem_type : N
}.

End Types.
End convert_color.

Module non_max_suppression.

(** [kernel_selector::BoxEncodingType] *)
Inductive BoxEncodingType : Set := BOX_ENCODING_CORNER | BOX_ENCODING_CENTER.

Section Types.
Context `{KernelSelectorHelper}.

Record primitive : Type := {
  sort_result_descending : bool;
  center_point_box : bool
}.

(** The accessors of the dependencies ([input_scores()],
    [iou_threshold_node()], ...) are only used through
    [get_output_layout()]; the members below are those layouts. *)
Record node : Type := {
  id : string;
  get_program : program;
  get_primitive : primitive;
  input_scores : layout;
  has_num_select_per_class : bool;
  num_select_per_class_node : layout;
  has_iou_threshold : bool;
  iou_threshold_node : layout;
  has_score_threshold : bool;
  score_threshold_node : layout;
  has_soft_nms_sigma : bool;
  soft_nms_sigma_node : layout;
  has_second_output : bool;
  second_output_node : layout;
  has_third_output : bool;
  third_output_node : layout
}.

Record non_max_suppression_params : Type := {
  base : base_params data_tensor base_fields;
  params_has_num_select_per_class : bool;
  params_has_iou_threshold : bool;
  params_has_score_threshold : bool;
  params_has_soft_nms_sigma : bool;
  params_has_second_output : bool;
  params_has_third_output : bool;
  params_sort_result_descending : bool;
  box_encoding : BoxEncodingType
}.

End Types.
End non_max_suppression.

(** [get_default_params<T>] of [kernel_selector_helper.h], one member per
    parameter record [T]: the record before the operator's builder fills
    in its own members. *)
Class DefaultParams `{KernelSelectorHelper} : Type := {
  get_default_params_quantize :
    kernel_impl_params -> quantize.quantize_params;
  get_default_params_concatenation :
    kernel_impl_params -> concatenation.concatenation_params;
  get_default_params_activation :
    kernel_impl_params -> activation.activation_params;
  get_default_params_extract_image_patches :
    kernel_impl_params -> extract_image_patches.extract_image_patches_params;
  get_default_params_space_to_batch :
    kernel_impl_params -> space_to_batch.space_to_batch_params;
  get_default_params_convert_color :
    kernel_impl_params -> convert_color.convert_color_params;
  get_default_params_non_max_suppression :
    non_max_suppression.node -> non_max_suppression.non_max_suppression_params
}.

(** [program_node]: a node of any operator type; [is_type<T>] and [as<T>]
    are the tests and projections of this sum. *)
Inductive program_node `{KernelSelectorHelper} : Type :=
| quantize_node (n : quantize.node)
| concatenation_node (n : concatenation.node)
| activation_node (n : activation.node)
| extract_image_patches_node (n : extract_image_patches.node)
| space_to_batch_node (n : space_to_batch.node)
| convert_color_node (n : convert_color.node)
| non_max_suppression_node (n : non_max_suppression.node).

Definition vector_empty {A} (v : list A) : bool :=
  match v with [] => true | _ :: _ => false end.

(** The message and the continuation shared by every [create]: fail when
    the selector found nothing, otherwise build from [best_kernels[0]]. *)
Definition no_kernel_message : string :=
  "Cannot find a proper kernel with this arguments".

(** The outcome that section 4.2 prescribes once the selector has
    answered: a fatal failure naming the node when there is no candidate,
    and otherwise the implementation built from the candidate at index 0. *)
Definition select_first `{KernelSelectorHelper} {A} (node_id : string)
    (construct : kernel_data -> outcome A) (best_kernels : list kernel_data)
  : outcome A :=
  match best_kernels with
  | [] => Throws (cldnn_error node_id "Best_kernel.empty()" no_kernel_message)
  | best :: _ => construct best
  end.

(** ** concatenation (OpenCL implementation) *)

Module concatenation_impl.
Section Impl.
Context `{DefaultParams}.

(** [unsigned cldnn_axis = axis >= 0 ? axis : axis + static_cast<int64_t>(rank)]:
    the [int64_t] value is converted to the 32-bit [unsigned]; a wrapped
    64-bit sum converts to the same value as the exact sum. *)
Definition convert_axis (axis : Z) (rank : N) : outcome concatenation.concat_axis :=
  let cldnn_axis : N :=
    to_unsigned (if (axis >=? 0)%Z then axis else (axis + to_int64 rank)%Z) in
  if (rank <=? cldnn_axis)%N
  then IE_THROW "Concatenation axis exceeds number of dimensions"
  else
    let cldnn_axis : N :=
      if (2 <=? cldnn_axis)%N then
        let spatial_axis := to_unsigned (Z.of_N cldnn_axis - 2) in
        let spatial_size := size_t_sub (N.max rank 4) 2 in
        to_unsigned
          (Z.of_N (size_t_add (size_t_sub (size_t_sub spatial_size spatial_axis) 1) 2))
      else cldnn_axis in
    match cldnn_axis with
    | 0%N => Returns concatenation.BATCH
    | 1%N => Returns concatenation.FEATURE
    | 2%N => Returns concatenation.X
    | 3%N => Returns concatenation.Y
    | 4%N => Returns concatenation.Z
    | 5%N => Returns concatenation.W
    | _ => IE_THROW ("Unsupported concatenation axis: "
                     ++ DecimalString.NilZero.string_of_int (Z.to_int axis))
    end.

Record impl : Type := {
  parent : typed_primitive_impl_ocl;
  _can_be_optimized : bool
}.

(** The copy constructor, used by [clone]. *)
Definition copy (other : impl) : impl :=
  {| parent := {| _kernel_data := _kernel_data (parent other) |};
     _can_be_optimized := _can_be_optimized other |}.

(** [arg.is_type<concatenation>()] *)
Definition is_type (arg : program_node) : bool :=
  match arg with concatenation_node _ => true | _ => false end.

Definition set_node_params (this : impl) (arg : program_node) : outcome impl :=
  let* _ := IE_ASSERT (is_type arg) in
  match arg with
  | concatenation_node node =>
      Returns {| parent := parent this;
                 _can_be_optimized := concatenation.can_be_optimized node |}
  | _ => Undefined
  end.

(** [concatenation_impl(arg, kd)]; the flag has no value before
    [set_node_params] assigns it. *)
Definition construct (arg : concatenation.node) (kd : kernel_data) : outcome impl :=
  let this := {| parent := {| _kernel_data := kd |}; _can_be_optimized := false |} in
  let* _ :=
    if negb (concatenation.can_be_optimized arg)
    then CLDNN_ERROR_NOT_EQUAL (concatenation.id arg)
           "Input count" (concatenation.inputs_count arg)
           "kds size" (N.of_nat (length (kernels kd)))
           "Error - not enough kernels for concatenation"
    else Returns tt in
  set_node_params this (concatenation_node arg).

Definition request : Type :=
  concatenation.concatenation_params * concatenation.concatenation_optional_params.

Definition create (arg : concatenation.node) (impl_param : kernel_impl_params)
  : prog request kernel_data impl :=
  if concatenation.can_be_optimized arg then Done (construct arg empty_kernel_data)
  else
    let primitive := concatenation.get_primitive arg in
    let concat_params := get_default_params_concatenation impl_param in
    let concat_optional_params :=
      get_default_optional_params (concatenation.get_program arg) in
    let axis := concatenation.axis primitive in
    let resized :=
      resize (inputs (concatenation.base concat_params))
             (concatenation.inputs_count arg) default_data_tensor in
    step* assigned :=
      assign_converted (input_layouts impl_param) 0
        (N.to_nat (concatenation.inputs_count arg)) resized in
    step* converted := convert_axis axis (get_rank (output_layout impl_param)) in
    let concat_params :=
      {| concatenation.base := set_inputs (concatenation.base concat_params) assigned;
         concatenation.params_axis := converted |} in
    let concat_optional_params :=
      {| concatenation.optional_base := concat_optional_params;
         concatenation.kernelPerInput := true |} in
    CallSelector (concat_params, concat_optional_params) (fun best_kernels =>
      step* _ := CLDNN_ERROR_BOOL (concatenation.id arg) "Best_kernel.empty()"
                   (vector_empty best_kernels) no_kernel_message in
      step* best := vector_at best_kernels 0 in
      Done (construct arg best)).

End Impl.
End concatenation_impl.

(** ** quantize (OpenCL implementation) *)

Module quantize_impl.
Section Impl.
Context `{DefaultParams}.

(** [using parent::parent]: the implementation is its base. *)
Definition impl : Type := typed_primitive_impl_ocl.

Definition construct (arg : quantize.node) (kd : kernel_data) : outcome impl :=
  Returns {| _kernel_data := kd |}.

Definition copy (other : impl) : impl :=
  {| _kernel_data := _kernel_data other |}.

Definition request : Type := quantize.quantize_params * optional_params.

Definition create (arg : quantize.node) (impl_param : kernel_impl_params)
  : prog request kernel_data impl :=
  let quantize_params := get_default_params_quantize impl_param in
  let quantize_optional_params :=
    get_default_optional_params (quantize.get_program arg) in
  step* pushed :=
    push_back_converted (input_layouts impl_param) 1
      (N.to_nat (quantize.inputs_count arg - 1))
      (inputs (quantize.base quantize_params)) in
  let output_layout := output_layout impl_param in
  let quantize_params :=
    {| quantize.base :=
         set_outputs (set_inputs (quantize.base quantize_params) pushed)
                     [convert_data_tensor output_layout];
       quantize.levels := quantize.get_levels arg;
       quantize.packed_binary_output := quantize.get_packed_binary_output arg;
       quantize.scale_shift_opt := quantize.get_scale_shift_opt arg;
       quantize.has_post_scale := quantize.get_need_post_scale arg;
       quantize.has_post_shift := quantize.get_need_post_shift arg;
       quantize.has_pre_shift := quantize.get_need_pre_shift arg;
       quantize.has_clamp := quantize.get_need_clamp arg;
       quantize.has_min_clamp := quantize.get_need_min_clamp arg;
       quantize.has_max_clamp := quantize.get_need_max_clamp arg;
       quantize.per_tensor_input_range := quantize.get_per_tensor_input_range arg;
       quantize.per_tensor_input_scale := quantize.get_per_tensor_input_scale arg;
       quantize.per_tensor_input_shift := quantize.get_per_tensor_input_shift arg;
       quantize.per_tensor_output_range := quantize.get_per_tensor_output_range arg;
       quantize.per_tensor_output_scale := quantize.get_per_tensor_output_scale arg;
       quantize.per_tensor_output_shift := quantize.get_per_tensor_output_shift arg;
       quantize.in_lo := quantize.get_input_lo_val arg;
       quantize.in_hi := quantize.get_input_hi_val arg;
       quantize.in_scale := quantize.get_input_scale_val arg;
       quantize.in_shift := quantize.get_input_shift_val arg;
       quantize.out_lo := quantize.get_output_lo_val arg;
       quantize.out_hi := quantize.get_output_hi_val arg;
       quantize.out_scale := quantize.get_output_scale_val arg;
       quantize.out_shift := quantize.get_output_shift_val arg |} in
  CallSelector (quantize_params, quantize_optional_params) (fun best_kernels =>
    step* _ := CLDNN_ERROR_BOOL (quantize.id arg) "Best_kernel.empty()"
                 (vector_empty best_kernels) no_kernel_message in
    step* best := vector_at best_kernels 0 in
    Done (construct arg best)).

End Impl.
End quantize_impl.

(** ** activation (OpenCL implementation) *)

Module activation_impl.
Section Impl.
Context `{DefaultParams}.

Record impl : Type := {
  parent : typed_primitive_impl_ocl;
  _is_parameterized : bool
}.

Definition copy (other : impl) : impl :=
  {| parent := {| _kernel_data := _kernel_data (parent other) |};
     _is_parameterized := _is_parameterized other |}.

(** [arg.is_type<activation>()] *)
Definition is_type (arg : program_node) : bool :=
  match arg with activation_node _ => true | _ => false end.

Definition set_node_params (this : impl) (arg : program_node) : outcome impl :=
  let* _ := IE_ASSERT (is_type arg) in
  match arg with
  | activation_node node =>
      Returns {| parent := parent this;
                 _is_parameterized := activation.is_parameterized node |}
  | _ => Undefined
  end.

(** [activation_impl(arg, kd)]; the flag has no value before
    [set_node_params] assigns it. *)
Definition construct (arg : activation.node) (kd : kernel_data) : outcome impl :=
  let this := {| parent := {| _kernel_data := kd |}; _is_parameterized := false |} in
  set_node_params this (activation_node arg).

Definition request : Type := activation.activation_params * optional_params.

Definition create (arg : activation.node) (impl_param : kernel_impl_params)
  : prog request kernel_data impl :=
  let prim := activation.get_primitive arg in
  let activation_params := get_default_params_activation impl_param in
  let activation_optional_params :=
    get_default_optional_params (activation.get_program arg) in
  let converted :=
    convert_new_activation_func prim (activation.activations activation_params) in
  step* slopes :=
    (if activation.is_parameterized arg then
       let* slope_layout := vector_at (input_layouts impl_param) 1 in
       let output_layout := output_layout impl_param in
       let* first := vector_at converted 0 in
       let params_num := GetActivationAdditionalParamsNumber (function first) in
       let* _ := CLDNN_ERROR_LESS_THAN (activation.id arg)
                   "Slope layout size count" (count slope_layout)
                   "output_layout.feature() * params_num"
                   (size_t_mul (to_size_t (layout_feature output_layout)) params_num)
                   "Error - not enough data inside additional params buffer" in
       Returns (activation.inputActivationParams activation_params
                  ++ [convert_data_tensor slope_layout])%list
     else Returns (activation.inputActivationParams activation_params)) in
  let activation_params :=
    {| activation.base := activation.base activation_params;
       activation.activations := converted;
       activation.inputActivationParams := slopes |} in
  CallSelector (activation_params, activation_optional_params) (fun best_kernels =>
    step* _ := CLDNN_ERROR_BOOL (activation.id arg) "Best_kernel.empty()"
                 (vector_empty best_kernels) no_kernel_message in
    step* best := vector_at best_kernels 0 in
    Done (construct arg best)).

End Impl.
End activation_impl.

(** ** extract_image_patches, space_to_batch, convert_color *)

Module extract_image_patches_impl.
Section Impl.
Context `{DefaultParams}.

Definition impl : Type := typed_primitive_impl_ocl.

Definition construct (arg : extract_image_patches.node) (kd : kernel_data)
  : outcome impl := Returns {| _kernel_data := kd |}.

Definition copy (other : impl) : impl :=
  {| _kernel_data := _kernel_data other |}.

Definition request : Type :=
  extract_image_patches.extract_image_patches_params * optional_params.

Definition create (arg : extract_image_patches.node)
    (impl_param : kernel_impl_params) : prog request kernel_data impl :=
  let prim := extract_image_patches.get_primitive arg in
  let params := get_default_params_extract_image_patches impl_param in
  let optional_params :=
    get_default_optional_params (extract_image_patches.get_program arg) in
  let params :=
    {| extract_image_patches.base := extract_image_patches.base params;
       extract_image_patches.params_sizes := extract_image_patches.sizes prim;
       extract_image_patches.params_strides := extract_image_patches.strides prim;
       extract_image_patches.params_rates := extract_image_patches.rates prim;
       extract_image_patches.params_auto_pad := extract_image_patches.auto_pad prim |} in
  CallSelector (params, optional_params) (fun best_kernels =>
    step* _ := CLDNN_ERROR_BOOL (extract_image_patches.id arg) "Best_kernel.empty()"
                 (vector_empty best_kernels) no_kernel_message in
    step* best := vector_at best_kernels 0 in
    Done (construct arg best)).

End Impl.
End extract_image_patches_impl.

Module space_to_batch_impl.
Section Impl.
Context `{DefaultParams}.

Definition impl : Type := typed_primitive_impl_ocl.

Definition construct (arg : space_to_batch.node) (kd : kernel_data)
  : outcome impl := Returns {| _kernel_data := kd |}.

Definition copy (other : impl) : impl :=
  {| _kernel_data := _kernel_data other |}.

Definition request : Type := space_to_batch.space_to_batch_params * optional_params.

Definition create (arg : space_to_batch.node) (impl_param : kernel_impl_params)
  : prog request kernel_data impl :=
  let primitive := space_to_batch.get_primitive arg in
  let space_to_batch_params := get_default_params_space_to_batch impl_param in
  let space_to_batch_optional_params :=
    get_default_optional_params (space_to_batch.get_program arg) in
  let space_to_batch_params :=
    {| space_to_batch.base := space_to_batch.base space_to_batch_params;
       space_to_batch.params_block_shape :=
         convert_dim_vector (space_to_batch.block_shape primitive);
       space_to_batch.params_pads_begin :=
         convert_dim_vector (space_to_batch.pads_begin primitive);
       space_to_batch.params_pads_end :=
         convert_dim_vector (space_to_batch.pads_end primitive) |} in
  CallSelector (space_to_batch_params, space_to_batch_optional_params)
    (fun best_kernels =>
      step* _ := CLDNN_ERROR_BOOL (space_to_batch.id arg) "Best_kernel.empty()"
                   (vector_empty best_kernels) no_kernel_message in
      step* best := vector_at best_kernels 0 in
      Done (construct arg best)).

End Impl.
End space_to_batch_impl.

Module convert_color_impl.
Section Impl.
Context `{DefaultParams}.

Definition impl : Type := typed_primitive_impl_ocl.

Definition construct (arg : convert_color.node) (kd : kernel_data)
  : outcome impl := Returns {| _kernel_data := kd |}.

Definition copy (other : impl) : impl :=
  {| _kernel_data := _kernel_data other |}.

Definition request : Type := convert_color.convert_color_params * optional_params.

Definition create (arg : convert_color.node) (impl_param : kernel_impl_params)
  : prog request kernel_data impl :=
  let primitive := convert_color.get_primitive arg in
  let convert_color_params := get_default_params_convert_color impl_param in
  let convert_color_optional_params :=
    get_default_optional_params (convert_color.get_program arg) in
  step* pushed :=
    push_back_converted (input_layouts impl_param) 1
      (length (input_layouts impl_param) - 1)
      (inputs (convert_color.base convert_color_params)) in
  let convert_color_params :=
    {| convert_color.base := set_inputs (convert_color.base convert_color_params) pushed;
       convert_color.params_input_color_format :=
         convert_color.input_color_format primitive;
       convert_color.params_output_color_format :=
         convert_color.output_color_format primitive;
       convert_color.params_mem_type := convert_color.mem_type primitive |} in
  CallSelector (convert_color_params, convert_color_optional_params)
    (fun best_kernels =>
      step* _ := CLDNN_ERROR_BOOL (convert_color.id arg) "Best_kernel.empty()"
                   (vector_empty best_kernels) no_kernel_message in
      step* best := vector_at best_kernels 0 in
      Done (construct arg best)).

End Impl.
End convert_color_impl.

(** ** non_max_suppression (GPU implementation) *)

Module non_max_suppression_gpu.
Section Impl.
Context `{DefaultParams}.

(** [typed_primitive_gpu_impl<T>], the name of the implementation base in
    this file of the sources. *)
Definition typed_primitive_gpu_impl : Type := typed_primitive_impl_ocl.

Definition impl : Type := typed_primitive_gpu_impl.

Definition construct (arg : non_max_suppression.node) (kd : kernel_data)
  : outcome impl := Returns {| _kernel_data := kd |}.

Definition copy (other : impl) : impl :=
  {| _kernel_data := _kernel_data other |}.

Import non_max_suppression.

(** [params.inputs.push_back(t)] *)
Definition push_back_input (p : non_max_suppression_params) (t : data_tensor)
  : non_max_suppression_params :=
  {| base := set_inputs (base p) (inputs (base p) ++ [t]);
     params_has_num_select_per_class := params_has_num_select_per_class p;
     params_has_iou_threshold := params_has_iou_threshold p;
     params_has_score_threshold := params_has_score_threshold p;
     params_has_soft_nms_sigma := params_has_soft_nms_sigma p;
     params_has_second_output := params_has_second_output p;
     params_has_third_output := params_has_third_output p;
     params_sort_result_descending := params_sort_result_descending p;
     box_encoding := box_encoding p |}.

(** The members that [create] assigns. *)
Inductive member : Set :=
| m_has_num_select_per_class | m_has_iou_threshold | m_has_score_threshold
| m_has_soft_nms_sigma | m_has_second_output | m_has_third_output
| m_sort_result_descending.

Definition member_eqb (a b : member) : bool :=
  match a, b with
  | m_has_num_select_per_class, m_has_num_select_per_class
  | m_has_iou_threshold, m_has_iou_threshold
  | m_has_score_threshold, m_has_score_threshold
  | m_has_soft_nms_sigma, m_has_soft_nms_sigma
  | m_has_second_output, m_has_second_output
  | m_has_third_output, m_has_third_output
  | m_sort_result_descending, m_sort_result_descending => true
  | _, _ => false
  end.

(** [params.m = v] for a boolean member [m]. *)
Definition assign (p : non_max_suppression_params) (m : member) (v : bool)
  : non_max_suppression_params :=
  let pick m' old := if member_eqb m m' then v else old in
  {| base := base p;
     params_has_num_select_per_class :=
       pick m_has_num_select_per_class (params_has_num_select_per_class p);
     params_has_iou_threshold :=
       pick m_has_iou_threshold (params_has_iou_threshold p);
     params_has_score_threshold :=
       pick m_has_score_threshold (params_has_score_threshold p);
     params_has_soft_nms_sigma :=
       pick m_has_soft_nms_sigma (params_has_soft_nms_sigma p);
     params_has_second_output :=
       pick m_has_second_output (params_has_second_output p);
     params_has_third_output :=
       pick m_has_third_output (params_has_third_output p);
     params_sort_result_descending :=
       pick m_sort_result_descending (params_sort_result_descending p);
     box_encoding := box_encoding p |}.

Definition set_box_encoding (p : non_max_suppression_params) (e : BoxEncodingType)
  : non_max_suppression_params :=
  {| base := base p;
     params_has_num_select_per_class := params_has_num_select_per_class p;
     params_has_iou_threshold := params_has_iou_threshold p;
     params_has_score_threshold := params_has_score_threshold p;
     params_has_soft_nms_sigma := params_has_soft_nms_sigma p;
     params_has_second_output := params_has_second_output p;
     params_has_third_output := params_has_third_output p;
     params_sort_result_descending := params_sort_result_descending p;
     box_encoding := e |}.

(** The tensor description of an optional input, when it is present. *)
Definition optional_tensor (present : bool) (l : layout) : list data_tensor :=
  if present then [convert_data_tensor l] else [].

(** The parameter record that [create] hands to the kernel selector. *)
Definition create_params (arg : node) : non_max_suppression_params :=
  let params := get_default_params_non_max_suppression arg in
  let primitive := get_primitive arg in
  let params := push_back_input params (convert_data_tensor (input_scores arg)) in
  let params :=
    if has_num_select_per_class arg then
      assign (push_back_input params
                (convert_data_tensor (num_select_per_class_node arg)))
             m_has_num_select_per_class true
    else params in
  let params :=
    if has_iou_threshold arg then
      assign (push_back_input params
                (convert_data_tensor (iou_threshold_node arg)))
             m_has_iou_threshold true
    else params in
  let params :=
    if has_score_threshold arg then
      assign (push_back_input params
                (convert_data_tensor (score_threshold_node arg)))
             m_has_score_threshold true
    else params in
  let params :=
    if has_soft_nms_sigma arg then
      assign (push_back_input params
                (convert_data_tensor (soft_nms_sigma_node arg)))
             m_has_soft_nms_sigma true
    else params in
  let params :=
    if has_second_output arg then
      assign (push_back_input params
                (convert_data_tensor (second_output_node arg)))
             m_has_second_output true
    else params in
  let params :=
    if has_second_output arg then
      assign (push_back_input params
                (convert_data_tensor (third_output_node arg)))
             m_has_third_output true
    else params in
  let params :=
    assign params m_sort_result_descending (sort_result_descending primitive) in
  set_box_encoding params
    (if center_point_box primitive then BOX_ENCODING_CENTER else BOX_ENCODING_CORNER).

Definition request : Type := non_max_suppression_params * optional_params.

Definition create (arg : node) : prog request kernel_data impl :=
  let params := create_params arg in
  let optional_params := get_default_optional_params (get_program arg) in
  CallSelector (params, optional_params) (fun best_kernels =>
    step* _ := CLDNN_ERROR_BOOL (id arg) "Best_kernel.empty()"
                 (vector_empty best_kernels) no_kernel_message in
    step* best := vector_at best_kernels 0 in
    Done (construct arg best)).

End Impl.
End non_max_suppression_gpu.

(** ** Implementation objects and [clone]

    Implementations are objects owned through [std::unique_ptr]: the store
    maps an address to the object that lives there, tagged with its
    dynamic type. *)

Inductive primitive_impl `{KernelSelectorHelper} : Type :=
| quantize_object (o : quantize_impl.impl)
| concatenation_object (o : concatenation_impl.impl)
| activation_object (o : activation_impl.impl)
| extract_image_patches_object (o : extract_image_patches_impl.impl)
| space_to_batch_object (o : space_to_batch_impl.impl)
| convert_color_object (o : convert_color_impl.impl)
| non_max_suppression_object (o : non_max_suppression_gpu.impl).

Section Store.
Context `{KernelSelectorHelper}.

(** The copy constructor selected by the dynamic type. *)
Definition copy_construct (o : primitive_impl) : primitive_impl :=
  match o with
  | quantize_object o => quantize_object (quantize_impl.copy o)
  | concatenation_object o => concatenation_object (concatenation_impl.copy o)
  | activation_object o => activation_object (activation_impl.copy o)
  | extract_image_patches_object o =>
      extract_image_patches_object (extract_image_patches_impl.copy o)
  | space_to_batch_object o => space_to_batch_object (space_to_batch_impl.copy o)
  | convert_color_object o => convert_color_object (convert_color_impl.copy o)
  | non_max_suppression_object o =>
      non_max_suppression_object (non_max_suppression_gpu.copy o)
  end.

(** [make_unique<T>(o)]: a new object at an address not in use. *)
Definition make_unique (h : gmap positive primitive_impl) (o : primitive_impl)
  : gmap positive primitive_impl * positive :=
  let p := fresh (dom h) in (<[p := o]> h, p).

(** [this->clone()] *)
Definition clone (h : gmap positive primitive_impl) (this : positive)
  : outcome (gmap positive primitive_impl * positive) :=
  match h !! this with
  | Some o => Returns (make_unique h (copy_construct o))
  | None => Undefined
  end.

(** A call of a member function that may modify the object at [this]. *)
Definition call_mutating (h : gmap positive primitive_impl) (this : positive)
    (method : primitive_impl -> outcome primitive_impl)
  : outcome (gmap positive primitive_impl) :=
  match h !! this with
  | Some o => let* o' := method o in Returns (<[this := o']> h)
  | None => Undefined
  end.

(** [this->set_node_params(arg)] by dynamic type; the two classes below
    override it, and it is the only writer of their flags. *)
Definition set_node_params (arg : program_node) (o : primitive_impl)
  : outcome primitive_impl :=
  match o with
  | concatenation_object o =>
      let* o' := concatenation_impl.set_node_params o arg in
      Returns (concatenation_object o')
  | activation_object o =>
      let* o' := activation_impl.set_node_params o arg in
      Returns (activation_object o')
  | other => Returns other
  end.

(** The per-instance flag of an implementation object, if it has one. *)
Definition cached_flag (o : primitive_impl) : option bool :=
  match o with
  | concatenation_object o => Some (concatenation_impl._can_be_optimized o)
  | activation_object o => Some (activation_impl._is_parameterized o)
  | _ => None
  end.

End Store.

(** ** Weights layout of the oneDNN convolution descriptor *)

Module onednn.
Section Descriptor.
Context `{format.Traits} `{KernelSelectorHelper}.

(** [cldnn::convolution], with the member read below. *)
Record convolution : Type := {
  grouped_weights_shape : bool
}.

(** [std::swap(v[0], v[1])] *)
Definition swap_first_two (v : list Z) (v0 v1 : Z) : list Z :=
  <[1%nat := v0]> (<[0%nat := v1]> v).

(** The local [weights_layout] of [get_convolution_primitive_descriptor]
    when the memory descriptors are built from it; [prim] is
    [impl_params.typed_desc<convolution>()]. *)
Definition get_convolution_primitive_descriptor_weights_layout
    (impl_params : kernel_impl_params) (prim : convolution) : outcome layout :=
  let* input_layout := get_input_layout impl_params 0 in
  let* weights_layout := get_input_layout impl_params 1 in
  let grouped_weights :=
    format.is_grouped (format weights_layout) || grouped_weights_shape prim in
  if grouped_weights && (get_rank input_layout =? get_rank weights_layout)%N then
    let tensor := get_tensor weights_layout in
    let* s0 := vector_at (spatial tensor) 0 in
    let* weights_layout :=
      (if (s0 =? 1)%Z then
         let* s1 := vector_at (spatial tensor) 1 in
         if negb (s1 =? 1)%Z then
           Returns (set_tensor weights_layout
                      (set_spatial tensor (swap_first_two (spatial tensor) s0 s1)))
         else Returns weights_layout
       else Returns weights_layout) in
    Returns (set_format weights_layout
               (format.get_default_format
                  (size_t_add (get_rank weights_layout) 1) true true))
  else Returns weights_layout.

End Descriptor.
End onednn.

(** ** Binding the arguments of a kernel *)

(** [kernel_arguments_data], with the members that the modelled code
    writes; [M] is the type of the memory handles.  A default-constructed
    value has no inputs, no outputs and null handles. *)
Module kernel_arguments_data.

Record t (M : Type) : Type := {
  inputs : list M;
  outputs : list M;
  output : option M;
  slope : option M
}.

Arguments inputs {M} t.
Arguments outputs {M} t.
Arguments output {M} t.
Arguments slope {M} t.

Definition empty {M : Type} : t M :=
  {| inputs := []; outputs := []; output := None; slope := None |}.

Definition push_back_input {M} (args : t M) (m : M) : t M :=
  {| inputs := inputs args ++ [m]; outputs := outputs args;
     output := output args; slope := slope args |}.

Definition set_outputs {M} (args : t M) (o : list M) : t M :=
  {| inputs := inputs args; outputs := o;
     output := output args; slope := slope args |}.

Definition set_output {M} (args : t M) (m : M) : t M :=
  {| inputs := inputs args; outputs := outputs args;
     output := Some m; slope := slope args |}.

Definition set_slope {M} (args : t M) (m : M) : t M :=
  {| inputs := inputs args; outputs := outputs args;
     output := output args; slope := Some m |}.

End kernel_arguments_data.

(** [for (i = from; i < from + n; i++) args.inputs.push_back(get(i))] *)
Fixpoint push_back_memory {M} (get : N -> outcome M) (from : N) (n : nat)
    (args : kernel_arguments_data.t M) : outcome (kernel_arguments_data.t M) :=
  match n with
  | O => Returns args
  | S n' =>
      let* m := get from in
      push_back_memory get (from + 1)%N n' (kernel_arguments_data.push_back_input args m)
  end.

(** The memory of an optional input, when it is present. *)
Definition optional_memory {M} (present : bool) (m : M) : list M :=
  if present then [m] else [].

(** The instance of a non_max_suppression node at run time: the memory of
    its inputs, the presence tests and the memory of each optional input,
    and the output memory. *)
Module non_max_suppression_inst.

Record instance (M : Type) : Type := {
  inputs_memory : list M;
  has_num_select_per_class : bool;
  num_select_per_class_mem : M;
  has_iou_threshold : bool;
  iou_threshold_mem : M;
  has_score_threshold : bool;
  score_threshold_mem : M;
  has_soft_nms_sigma : bool;
  soft_nms_sigma_mem : M;
  has_second_output : bool;
  second_output_mem : M;
  has_third_output : bool;
  third_output_mem : M;
  output_memory_ptr : M
}.

Arguments inputs_memory {M} i.
Arguments has_num_select_per_class {M} i.
Arguments num_select_per_class_mem {M} i.
Arguments has_iou_threshold {M} i.
Arguments iou_threshold_mem {M} i.
Arguments has_score_threshold {M} i.
Arguments score_threshold_mem {M} i.
Arguments has_soft_nms_sigma {M} i.
Arguments soft_nms_sigma_mem {M} i.
Arguments has_second_output {M} i.
Arguments second_output_mem {M} i.
Arguments has_third_output {M} i.
Arguments third_output_mem {M} i.
Arguments output_memory_ptr {M} i.

Definition inputs_memory_count {M} (i : instance M) : N :=
  N.of_nat (length (inputs_memory i)).

Definition input_memory_ptr {M} (i : instance M) (idx : N) : outcome M :=
  vector_at (inputs_memory i) idx.

(** [non_max_suppression_gpu::get_arguments] *)
Definition get_arguments {M} (instance : instance M)
  : outcome (kernel_arguments_data.t M) :=
  let args := kernel_arguments_data.empty in
  let* args := push_back_memory (input_memory_ptr instance) 0
                 (N.to_nat (inputs_memory_count instance)) args in
  let args :=
    if has_num_select_per_class instance
    then kernel_arguments_data.push_back_input args (num_select_per_class_mem instance)
    else args in
  let args :=
    if has_iou_threshold instance
    then kernel_arguments_data.push_back_input args (iou_threshold_mem instance)
    else args in
  let args :=
    if has_score_threshold instance
    then kernel_arguments_data.push_back_input args (score_threshold_mem instance)
    else args in
  let args :=
    if has_soft_nms_sigma instance
    then kernel_arguments_data.push_back_input args (soft_nms_sigma_mem instance)
    else args in
  let args := kernel_arguments_data.set_output args (output_memory_ptr instance) in
  let args :=
    if has_second_output instance
    then kernel_arguments_data.push_back_input args (second_output_mem instance)
    else args in
  let args :=
    if has_third_output instance
    then kernel_arguments_data.push_back_input args (third_output_mem instance)
    else args in
  Returns args.

(** The instance mirrors the node it was created from. *)
Definition mirrors `{KernelSelectorHelper} {M} (instance : instance M)
    (arg : non_max_suppression.node) : Prop :=
  has_num_select_per_class instance = non_max_suppression.has_num_select_per_class arg /\
  has_iou_threshold instance = non_max_suppression.has_iou_threshold arg /\
  has_score_threshold instance = non_max_suppression.has_score_threshold arg /\
  has_soft_nms_sigma instance = non_max_suppression.has_soft_nms_sigma arg /\
  has_second_output instance = non_max_suppression.has_second_output arg /\
  has_third_output instance = non_max_suppression.has_third_output arg.

End non_max_suppression_inst.

(** The instance of a quantize node at run time. *)
Module quantize_inst.
Section Instance.
Context `{KernelSelectorHelper}.

Record instance (M : Type) : Type := {
  node : quantize.node;
  (** [node.get_dependencies().size()] *)
  dependencies_size : N;
  inputs_memory : list M;
  dependencies_memory : list M;
  output_memory_ptr : M
}.

Arguments node {M} i.
Arguments dependencies_size {M} i.
Arguments inputs_memory {M} i.
Arguments dependencies_memory {M} i.
Arguments output_memory_ptr {M} i.

Definition inputs_memory_count {M} (i : instance M) : N :=
  N.of_nat (length (inputs_memory i)).

Definition input_memory_ptr {M} (i : instance M) (idx : N) : outcome M :=
  vector_at (inputs_memory i) idx.

Definition dep_memory_ptr {M} (i : instance M) (idx : N) : outcome M :=
  vector_at (dependencies_memory i) idx.

(** [quantize_impl::get_arguments] *)
Definition get_arguments {M} (instance : instance M)
  : outcome (kernel_arguments_data.t M) :=
  let args := kernel_arguments_data.empty in
  let* args := push_back_memory (input_memory_ptr instance) 0
                 (N.to_nat (inputs_memory_count instance)) args in
  let* args :=
    (if quantize.get_scale_shift_opt (node instance) then
       if (dependencies_size instance =? 9)%N then
         let* m5 := dep_memory_ptr instance 5 in
         let* m6 := dep_memory_ptr instance 6 in
         let* m7 := dep_memory_ptr instance 7 in
         let* m8 := dep_memory_ptr instance 8 in
         Returns (kernel_arguments_data.push_back_input
                    (kernel_arguments_data.push_back_input
                       (kernel_arguments_data.push_back_input
                          (kernel_arguments_data.push_back_input args m5) m6) m7) m8)
       else Returns args
     else Returns args) in
  Returns (kernel_arguments_data.set_outputs args [output_memory_ptr instance]).

End Instance.

Arguments node {H M} i.
Arguments dependencies_size {H M} i.
Arguments inputs_memory {H M} i.
Arguments dependencies_memory {H M} i.
Arguments output_memory_ptr {H M} i.

End quantize_inst.

(** [activation_impl::get_arguments]; [parent_get_arguments] is the
    binding done by the base class and [slope_memory] the accessor of the
    instance. *)
Module activation_inst.
Section Instance.
Context `{KernelSelectorHelper} {M I : Type}.
Variable parent_get_arguments : I -> Z -> kernel_arguments_data.t M.
Variable slope_memory : I -> M.

Definition get_arguments (this : activation_impl.impl) (instance : I) (split : Z)
  : kernel_arguments_data.t M :=
  let args := parent_get_arguments instance split in
  if activation_impl._is_parameterized this
  then kernel_arguments_data.set_slope args (slope_memory instance)
  else args.

End Instance.
End activation_inst.

(** ** Dilation and padding of the oneDNN convolution descriptor *)

(** The result of an [int64_t] (respectively [int]) operation: the exact
    value when it is representable; signed overflow has no defined
    behaviour. *)
Definition int64_result (z : Z) : outcome Z :=
  if ((- 2 ^ 63 <=? z) && (z <? 2 ^ 63))%Z then Returns z else Undefined.

Definition int_result (z : Z) : outcome Z :=
  if ((- 2 ^ 31 <=? z) && (z <? 2 ^ 31))%Z then Returns z else Undefined.

(** [static_cast<int>] of a [size_t]. *)
Definition to_int (n : N) : Z :=
  let z := (Z.of_N n mod 2 ^ 32)%Z in
  if (z <? 2 ^ 31)%Z then z else (z - 2 ^ 32)%Z.

Module onednn_descriptor.

(** The vectors that the loop of [get_convolution_primitive_descriptor]
    updates. *)
Record dims_state : Type := {
  dilation : list Z;
  pad_r : list Z
}.

(** The loop that the source announces as [adjust_conv_dilation_pad]:
    [input_dims], [output_dims] and [weights_dims] are [get_dims()] of the
    three memory descriptors; [i] is the loop counter and [n] the number
    of iterations left. *)
Fixpoint adjust_conv_dilation_pad_from (stride pad_l : list Z)
    (input_dims output_dims weights_dims : list Z) (grouped_weights : bool)
    (i : N) (n : nat) (st : dims_state) : outcome dims_state :=
  match n with
  | O => Returns st
  | S n' =>
      let* d := vector_at (dilation st) i in
      let* d := int64_result (d - 1) in
      let dilation' := <[N.to_nat i := d]> (dilation st) in
      let* weights_offset :=
        int_result ((if grouped_weights then 3 else 2) + to_int i) in
      let* os := vector_at output_dims (size_t_add 2 i) in
      let* is' := vector_at input_dims (size_t_add 2 i) in
      let* ks := vector_at weights_dims (to_size_t weights_offset) in
      let* ks1 := int64_result (ks - 1) in
      let* d1 := int64_result (d + 1) in
      let* prod := int64_result (ks1 * d1) in
      let* kernel_range := int64_result (1 + prod) in
      let* os1 := int64_result (os - 1) in
      let* s := vector_at stride i in
      let* a := int64_result (os1 * s) in
      let* b := int64_result (a - is') in
      let* c := int64_result (b + kernel_range) in
      let* pl := vector_at pad_l i in
      let* r := int64_result (c - pl) in
      if (i <? N.of_nat (length (pad_r st)))%N then
        adjust_conv_dilation_pad_from stride pad_l input_dims output_dims
          weights_dims grouped_weights (i + 1)%N n'
          {| dilation := dilation'; pad_r := <[N.to_nat i := r]> (pad_r st) |}
      else Undefined
  end.

(** What one pass of the loop body establishes at position [j]: [d] is
    the dilation read, [d'] the dilation written and [r] the right padding
    written. *)
Definition adjusted (stride pad_l input_dims output_dims weights_dims : list Z)
    (grouped_weights : bool) (j : nat) (d d' r : Z) : Prop :=
  exists os is' ks s pl,
    output_dims !! (2 + j)%nat = Some os /\
    input_dims !! (2 + j)%nat = Some is' /\
    weights_dims !! ((if grouped_weights then 3 else 2) + j)%nat = Some ks /\
    stride !! j = Some s /\ pad_l !! j = Some pl /\
    d' = (d - 1)%Z /\
    ((os - 1) * s = is' + pl + r - (1 + (ks - 1) * d))%Z.

(** The vectors start as copies of the attributes of the primitive:
    [pad_l] and [pad_r] are both copies of [prim->pad]. *)
Definition adjust_conv_dilation_pad (stride dilation pad : list Z)
    (input_dims output_dims weights_dims : list Z) (grouped_weights : bool)
  : outcome dims_state :=
  adjust_conv_dilation_pad_from stride pad input_dims output_dims weights_dims
    grouped_weights 0 (length dilation) {| dilation := dilation; pad_r := pad |}.

End onednn_descriptor.

(** ** The cache guard

    [CacheGuard] serialises the work on one cache entry across threads.
    Threads interleave at the atomic operations of the source: the parts
    of [get_hash_lock] and [check_for_remove] that run under
    [m_tableMutex], the decrement of the atomic counter, and the lock and
    unlock of the mutex of an item.  A state holds the table, the live
    counters and locked mutexes by item, and every [CacheGuardEntry]
    created so far with the point its owner has reached.

    [std::mutex::lock] can throw [std::system_error].  The source plans
    for it: the constructor does not lock for exception-safe
    considerations, and when [perform_lock] throws inside [get_hash_lock]
    the entry [res] is destroyed.  The destructor then runs its three
    statements on an entry that never locked. *)

Module cache_guard.

(** The life of one [CacheGuardEntry]: constructed inside [get_hash_lock]
    ([Created]); then either returned to the caller after [perform_lock]
    ([Locked]) or left to its destructor because [perform_lock] threw
    ([Failed]); then the three statements of the destructor.  After the
    decrement the entry is [Decremented] when it had locked and
    [FailedDecremented] when it had not: both are about to run
    [m_mutex->unlock()]. *)
Inductive guard : Type :=
| Created (m_hash : string) (item : nat)
| Locked (m_hash : string) (item : nat)
| Failed (m_hash : string) (item : nat)
| Decremented (m_hash : string) (item : nat)
| FailedDecremented (m_hash : string) (item : nat)
| Unlocked (m_hash : string)
| Gone.

(** Modelled from the spec: [cache_guard.hpp] is not part of the sources.
    Per sections 1 and 9 the guard is a per-key mutex table with
    reference-counted lifetime: an item of [m_table] owns a mutex, shared
    with the entries created from it, and a reference counter that starts
    at 0.  Items are told apart by a number; [counters] holds the counter
    of every item that is in the table (the storage that [m_refCount]
    refers to), and [locked] the owner of every locked mutex. *)
Record state : Type := {
  m_table : gmap string nat;
  counters : gmap nat Z;
  locked : gmap nat nat;
  next_item : nat;
  guards : list guard
}.

Definition initial : state :=
  {| m_table := ∅; counters := ∅; locked := ∅; next_item := 0; guards := [] |}.

(** [perform_lock] has two outcomes: it returns with the mutex locked, or
    [m_mutex->lock()] throws and the mutex is not locked. *)
Inductive action : Type :=
| get_hash_lock_enter (hash : string)
| perform_lock (g : nat)
| perform_lock_throws (g : nat)
| release_count (g : nat)
| release_mutex (g : nat)
| check_for_remove (g : nat).

(** [auto& data = m_table[hash]]: the item of [hash], created when the
    table has none. *)
Definition table_item (s : state) (hash : string) : nat * state :=
  match m_table s !! hash with
  | Some item => (item, s)
  | None =>
      (next_item s,
       {| m_table := <[hash := next_item s]> (m_table s);
          counters := <[next_item s := 0%Z]> (counters s);
          locked := locked s;
          next_item := S (next_item s);
          guards := guards s |})
  end.

(** [m_refCount--], the first statement of the destructor; [after] is the
    point the entry has reached once the counter is decremented. *)
Definition decrement (s : state) (g item : nat) (after : guard)
  : option (outcome state) :=
  match counters s !! item with
  | Some c =>
      Some (Returns {| m_table := m_table s;
                       counters := <[item := (c - 1)%Z]> (counters s);
                       locked := locked s;
                       next_item := next_item s;
                       guards := <[g := after]> (guards s) |})
  | None => Some Undefined
  end.

(** [m_mutex->unlock()], the second statement of the destructor:
    [std::mutex::unlock] has defined behaviour only when the caller holds
    the mutex. *)
Definition unlock (s : state) (g : nat) (hash : string) (item : nat)
  : option (outcome state) :=
  match locked s !! item with
  | Some owner =>
      if Nat.eqb owner g then
        Some (Returns {| m_table := m_table s;
                         counters := counters s;
                         locked := delete item (locked s);
                         next_item := next_item s;
                         guards := <[g := Unlocked hash]> (guards s) |})
      else Some Undefined
  | None => Some Undefined
  end.

(** One atomic operation.  [None]: the operation cannot run now (the
    mutex is taken, or the entry is not at that point).  [Undefined]: it
    would use a counter that was destroyed or unlock a mutex it does not
    hold. *)
Definition exec (a : action) (s : state) : option (outcome state) :=
  match a with
  | get_hash_lock_enter hash =>
      let '(item, s) := table_item s hash in
      match counters s !! item with
      | Some c =>
          Some (Returns {| m_table := m_table s;
                           counters := <[item := (c + 1)%Z]> (counters s);
                           locked := locked s;
                           next_item := next_item s;
                           guards := guards s ++ [Created hash item] |})
      | None => Some Undefined
      end
  | perform_lock g =>
      match guards s !! g with
      | Some (Created hash item) =>
          match locked s !! item with
          | None =>
              Some (Returns {| m_table := m_table s;
                               counters := counters s;
                               locked := <[item := g]> (locked s);
                               next_item := next_item s;
                               guards := <[g := Locked hash item]> (guards s) |})
          | Some _ => None
          end
      | _ => None
      end
  | perform_lock_throws g =>
      match guards s !! g with
      | Some (Created hash item) =>
          Some (Returns {| m_table := m_table s;
                           counters := counters s;
                           locked := locked s;
                           next_item := next_item s;
                           guards := <[g := Failed hash item]> (guards s) |})
      | _ => None
      end
  | release_count g =>
      match guards s !! g with
      | Some (Locked hash item) => decrement s g item (Decremented hash item)
      | Some (Failed hash item) => decrement s g item (FailedDecremented hash item)
      | _ => None
      end
  | release_mutex g =>
      match guards s !! g with
      | Some (Decremented hash item) => unlock s g hash item
      | Some (FailedDecremented hash item) => unlock s g hash item
      | _ => None
      end
  | check_for_remove g =>
      match guards s !! g with
      | Some (Unlocked hash) =>
          match m_table s !! hash with
          | Some item =>
              match counters s !! item with
              | Some c =>
                  if (c =? 0)%Z then
                    Some (Returns {| m_table := delete hash (m_table s);
                                     counters := delete item (counters s);
                                     locked := locked s;
                                     next_item := next_item s;
                                     guards := <[g := Gone]> (guards s) |})
                  else
                    Some (Returns {| m_table := m_table s;
                                     counters := counters s;
                                     locked := locked s;
                                     next_item := next_item s;
                                     guards := <[g := Gone]> (guards s) |})
              | None => Some Undefined
              end
          | None =>
              Some (Returns {| m_table := m_table s;
                               counters := counters s;
                               locked := locked s;
                               next_item := next_item s;
                               guards := <[g := Gone]> (guards s) |})
          end
      | _ => None
      end
  end.

(** The states that the threads can bring about. *)
Inductive reachable : state -> Prop :=
| reachable_initial : reachable initial
| reachable_step (s s' : state) (a : action) :
    reachable s -> exec a s = Some (Returns s') -> reachable s'.

(** The item that an entry counts for: an entry is counted from its
    construction to the decrement in its destructor. *)
Definition user_of (g : guard) : option (string * nat) :=
  match g with
  | Created h i | Locked h i | Failed h i => Some (h, i)
  | _ => None
  end.

Definition uses (item : nat) (g : guard) : bool :=
  match user_of g with
  | Some (_, i) => Nat.eqb i item
  | None => false
  end.

Fixpoint users (item : nat) (gs : list guard) : nat :=
  match gs with
  | [] => 0
  | g :: gs' => (if uses item g then 1 else 0) + users item gs'
  end.

(** The mutex that an entry holds: from the return of [perform_lock] to
    the unlock in its destructor. *)
Definition holds (g : guard) : option (string * nat) :=
  match g with
  | Locked h i | Decremented h i => Some (h, i)
  | _ => None
  end.

(** The hash for which an entry has still to run [check_for_remove]. *)
Definition pending (g : guard) : option string :=
  match g with
  | Decremented h _ | FailedDecremented h _ | Unlocked h => Some h
  | _ => None
  end.


(** What every reachable state satisfies. *)
Record invariant (s : state) : Prop := {
  table_live : forall hash item,
    m_table s !! hash = Some item ->
    is_Some (counters s !! item) /\ (item < next_item s)%nat;
  table_injective : forall h1 h2 item,
    m_table s !! h1 = Some item -> m_table s !! h2 = Some item -> h1 = h2;
  user_item : forall g st hash item,
    guards s !! g = Some st -> user_of st = Some (hash, item) ->
    m_table s !! hash = Some item;
  counter_counts : forall item c,
    counters s !! item = Some c -> c = Z.of_nat (users item (guards s));
  holder_owns : forall g st hash item,
    guards s !! g = Some st -> holds st = Some (hash, item) ->
    locked s !! item = Some g;
  owner_holds : forall item g,
    locked s !! item = Some g ->
    (item < next_item s)%nat /\
    exists st hash, guards s !! g = Some st /\ holds st = Some (hash, item);
  idle_item_pending : forall hash item,
    m_table s !! hash = Some item -> counters s !! item = Some 0%Z ->
    exists g st, guards s !! g = Some st /\ pending st = Some hash
}.

(** The operations of [actions], one after the other; [None] when one of
    them cannot run or has no defined behaviour. *)
Fixpoint run_actions (actions : list action) (s : state) : option state :=
  match actions with
  | [] => Some s
  | a :: rest =>
      match exec a s with
      | Some (Returns s') => run_actions rest s'
      | _ => None
      end
  end.

(** [get_hash_lock(hash)] followed by the destruction of the entry it
    returned, by a thread that is not interrupted; [g] is the number of
    the entry. *)
Definition lock_and_release (hash : string) (g : nat) : list action :=
  [get_hash_lock_enter hash; perform_lock g;
   release_count g; release_mutex g; check_for_remove g].

End cache_guard.

(** ** Sample collaborators

    Concrete members for the classes above, used to run the definitions on
    examples: tensor descriptions are the layouts themselves, a kernel is
    its name, and the rank of a layout is the number of extents of its
    tensor. *)

Module Sample.

Definition descriptor (order internal_order : string) : format.format_traits :=
  {| format.str := order; format.batch_num := 1; format.feature_num := 1;
     format.spatial_num := 2; format.group_num := 0; format._order := [];
     format.order := order; format.internal_order := internal_order;
     format.block_sizes := [] |}.

(** A table whose every entry is the given descriptor. *)
Definition uniform (t : format.format_traits) : format.Traits := fun _ => t.

Definition extents (l : layout) : N :=
  N.of_nat (length (batch (size l)) + length (feature (size l))
            + length (spatial (size l)) + length (group (size l))).

#[export] Instance helper : KernelSelectorHelper :=
  {| data_tensor := layout;
     default_data_tensor :=
       {| format := format.bfyx;
          size := {| batch := []; feature := []; spatial := []; group := [] |} |};
     convert_data_tensor := fun l => l;
     clKernelData := string;
     program := unit;
     optional_params := unit;
     get_default_optional_params := fun _ => tt;
     base_fields := unit;
     get_rank := extents;
     count := fun l => N.of_nat (length (spatial (size l)));
     layout_feature := fun l => hd 1%Z (feature (size l));
     float := Z;
     dim_tensor := tensor;
     convert_dim_vector := fun t => t;
     activation_primitive := unit;
     activation_func := unit;
     base_activation_params := unit;
     function := fun _ => tt;
     GetActivationAdditionalParamsNumber := fun _ => 1%N;
     convert_new_activation_func := fun _ acts => acts |}.

Definition default_base (p : kernel_impl_params)
  : base_params (@data_tensor helper) (@base_fields helper) :=
  {| inputs := take 1 (input_layouts p); outputs := [output_layout p]; fields := tt |}.

Definition empty_tensor : tensor :=
  {| batch := []; feature := []; spatial := []; group := [] |}.

Definition plain (fmt : format.type) (b f y x : Z) : layout :=
  {| format := fmt;
     size := {| batch := [b]; feature := [f]; spatial := [x; y]; group := [] |} |}.

(** The record of a non-max-suppression node before [create] extends it:
    the boxes input is in place. *)
Definition boxes_base : base_params (@data_tensor helper) (@base_fields helper) :=
  {| inputs := [plain format.bfyx 1 8 1 4]; outputs := []; fields := tt |}.

#[export] Instance defaults : @DefaultParams helper :=
  {| get_default_params_quantize := fun p =>
       {| quantize.base := default_base p;
          quantize.levels := 0;
          quantize.packed_binary_output := false;
          quantize.scale_shift_opt := false;
          quantize.has_post_scale := true;
          quantize.has_post_shift := true;
          quantize.has_pre_shift := true;
          quantize.has_clamp := true;
          quantize.has_min_clamp := true;
          quantize.has_max_clamp := true;
          quantize.per_tensor_input_range := false;
          quantize.per_tensor_input_scale := false;
          quantize.per_tensor_input_shift := false;
          quantize.per_tensor_output_range := false;
          quantize.per_tensor_output_scale := false;
          quantize.per_tensor_output_shift := false;
          quantize.in_lo := 0%Z; quantize.in_hi := 0%Z;
          quantize.in_scale := 0%Z; quantize.in_shift := 0%Z;
          quantize.out_lo := 0%Z; quantize.out_hi := 0%Z;
          quantize.out_scale := 0%Z; quantize.out_shift := 0%Z |};
     get_default_params_concatenation := fun p =>
       {| concatenation.base := default_base p;
          concatenation.params_axis := concatenation.FEATURE |};
     get_default_params_activation := fun p =>
       {| activation.base := default_base p;
          activation.activations := [];
          activation.inputActivationParams := [] |};
     get_default_params_extract_image_patches := fun p =>
       {| extract_image_patches.base := default_base p;
          extract_image_patches.params_sizes := [];
          extract_image_patches.params_strides := [];
          extract_image_patches.params_rates := [];
          extract_image_patches.params_auto_pad := "" |};
     get_default_params_space_to_batch := fun p =>
       {| space_to_batch.base := default_base p;
          space_to_batch.params_block_shape := empty_tensor;
          space_to_batch.params_pads_begin := empty_tensor;
          space_to_batch.params_pads_end := empty_tensor |};
     get_default_params_convert_color := fun p =>
       {| convert_color.base := default_base p;
          convert_color.params_input_color_format := 0%N;
          convert_color.params_output_color_format := 0%N;
          convert_color.params_mem_type := 0%N |};
     get_default_params_non_max_suppression := fun arg =>
       {| non_max_suppression.base := boxes_base;
          non_max_suppression.params_has_num_select_per_class := false;
          non_max_suppression.params_has_iou_threshold := false;
          non_max_suppression.params_has_score_threshold := false;
          non_max_suppression.params_has_soft_nms_sigma := false;
          non_max_suppression.params_has_second_output := false;
          non_max_suppression.params_has_third_output := false;
          non_max_suppression.params_sort_result_descending := false;
          non_max_suppression.box_encoding :=
            non_max_suppression.BOX_ENCODING_CORNER |} |}.

(** Two 4-D inputs concatenated along the feature axis. *)
Definition concat_inputs : kernel_impl_params :=
  {| input_layouts := [plain format.bfyx 1 3 4 4; plain format.bfyx 1 3 4 4];
     output_layout := plain format.bfyx 1 6 4 4 |}.

Definition concat_node (optimized : bool) : @concatenation.node helper :=
  {| concatenation.id := "concat";
     concatenation.get_program := tt;
     concatenation.inputs_count := 2;
     concatenation.can_be_optimized := optimized;
     concatenation.get_primitive := {| concatenation.axis := 1 |} |}.

Definition kernel (names : list string) : @kernel_data helper :=
  {| kernels := names |}.

(** A non-max-suppression node whose only optional inputs are the
    auxiliary outputs selected by the two flags. *)
Definition nms_node (second third : bool) : @non_max_suppression.node helper :=
  {| non_max_suppression.id := "nms";
     non_max_suppression.get_program := tt;
     non_max_suppression.get_primitive :=
       {| non_max_suppression.sort_result_descending := true;
          non_max_suppression.center_point_box := false |};
     non_max_suppression.input_scores := plain format.bfyx 1 2 1 8;
     non_max_suppression.has_num_select_per_class := false;
     non_max_suppression.num_select_per_class_node := plain format.bfyx 1 1 1 1;
     non_max_suppression.has_iou_threshold := false;
     non_max_suppression.iou_threshold_node := plain format.bfyx 1 1 1 2;
     non_max_suppression.has_score_threshold := false;
     non_max_suppression.score_threshold_node := plain format.bfyx 1 1 1 3;
     non_max_suppression.has_soft_nms_sigma := false;
     non_max_suppression.soft_nms_sigma_node := plain format.bfyx 1 1 1 4;
     non_max_suppression.has_second_output := second;
     non_max_suppression.second_output_node := plain format.bfyx 1 1 1 5;
     non_max_suppression.has_third_output := third;
     non_max_suppression.third_output_node := plain format.bfyx 1 1 1 6 |}.

(** A grouped convolution: a 4-D input, 4-D weights given as [y x] kernel
    extents, and the table in which no format has a group dimension. *)
Definition ungrouped_table : format.Traits := uniform (descriptor "bfyx" "bfxy").

Definition conv_inputs (kernel_y kernel_x : Z) : kernel_impl_params :=
  {| input_layouts := [plain format.bfyx 1 16 5 5;
                       plain format.bfyx 16 1 kernel_y kernel_x];
     output_layout := plain format.bfyx 1 16 3 3 |}.

Definition grouped_convolution : onednn.convolution :=
  {| onednn.grouped_weights_shape := true |}.

(** More nodes: a concatenation with a chosen axis, a quantize with five
    inputs, and activations with one slope input. *)
Definition concat_node_with_axis (a : Z) : @concatenation.node helper :=
  {| concatenation.id := "concat";
     concatenation.get_program := tt;
     concatenation.inputs_count := 2;
     concatenation.can_be_optimized := false;
     concatenation.get_primitive := {| concatenation.axis := a |} |}.

Definition quantize_node : @quantize.node helper :=
  {| quantize.id := "quantize";
     quantize.get_program := tt;
     quantize.inputs_count := 5;
     quantize.get_levels := 256;
     quantize.get_packed_binary_output := false;
     quantize.get_scale_shift_opt := true;
     quantize.get_need_post_scale := true;
     quantize.get_need_post_shift := true;
     quantize.get_need_pre_shift := true;
     quantize.get_need_clamp := true;
     quantize.get_need_min_clamp := true;
     quantize.get_need_max_clamp := true;
     quantize.get_per_tensor_input_range := true;
     quantize.get_per_tensor_input_scale := true;
     quantize.get_per_tensor_input_shift := true;
     quantize.get_per_tensor_output_range := true;
     quantize.get_per_tensor_output_scale := true;
     quantize.get_per_tensor_output_shift := true;
     quantize.get_input_lo_val := 0%Z;
     quantize.get_input_hi_val := 255%Z;
     quantize.get_input_scale_val := 1%Z;
     quantize.get_input_shift_val := 0%Z;
     quantize.get_output_lo_val := 0%Z;
     quantize.get_output_hi_val := 255%Z;
     quantize.get_output_scale_val := 1%Z;
     quantize.get_output_shift_val := 0%Z |}.

Definition quantize_inputs : kernel_impl_params :=
  {| input_layouts := [plain format.bfyx 1 3 4 4; plain format.bfyx 1 1 1 1;
                       plain format.bfyx 1 1 1 2; plain format.bfyx 1 1 1 3;
                       plain format.bfyx 1 1 1 4];
     output_layout := plain format.bfyx 1 3 4 4 |}.

Definition activation_node (parameterized : bool) : @activation.node helper :=
  {| activation.id := "activation";
     activation.get_program := tt;
     activation.is_parameterized := parameterized;
     activation.get_primitive := tt |}.

(** Nodes of the three operators whose builders read no optional input. *)
Definition extract_image_patches_node : @extract_image_patches.node helper :=
  {| extract_image_patches.id := "patches";
     extract_image_patches.get_program := tt;
     extract_image_patches.get_primitive :=
       {| extract_image_patches.sizes := [3; 3]%N;
          extract_image_patches.strides := [1; 1]%N;
          extract_image_patches.rates := [1; 1]%N;
          extract_image_patches.auto_pad := "valid" |} |}.

Definition space_to_batch_node : @space_to_batch.node helper :=
  {| space_to_batch.id := "space_to_batch";
     space_to_batch.get_program := tt;
     space_to_batch.get_primitive :=
       {| space_to_batch.block_shape := empty_tensor;
          space_to_batch.pads_begin := empty_tensor;
          space_to_batch.pads_end := empty_tensor |} |}.

Definition convert_color_node : @convert_color.node helper :=
  {| convert_color.id := "convert_color";
     convert_color.get_program := tt;
     convert_color.get_primitive :=
       {| convert_color.input_color_format := 1;
          convert_color.output_color_format := 2;
          convert_color.mem_type := 0 |} |}.


(** Defaults whose activation record already holds one activation. *)
Definition defaults_with_activation : @DefaultParams helper :=
  {| get_default_params_quantize := get_default_params_quantize;
     get_default_params_concatenation := get_default_params_concatenation;
     get_default_params_activation := fun p =>
       {| activation.base := default_base p;
          activation.activations := [tt];
          activation.inputActivationParams := [] |};
     get_default_params_extract_image_patches :=
       get_default_params_extract_image_patches;
     get_default_params_space_to_batch := get_default_params_space_to_batch;
     get_default_params_convert_color := get_default_params_convert_color;
     get_default_params_non_max_suppression :=
       get_default_params_non_max_suppression |}.

(** The run-time instance of [nms_node]: memory handles are names. *)
Definition nms_instance (second third : bool)
  : non_max_suppression_inst.instance string :=
  {| non_max_suppression_inst.inputs_memory := ["boxes"; "scores"];
     non_max_suppression_inst.has_num_select_per_class := false;
     non_max_suppression_inst.num_select_per_class_mem := "count";
     non_max_suppression_inst.has_iou_threshold := false;
     non_max_suppression_inst.iou_threshold_mem := "iou";
     non_max_suppression_inst.has_score_threshold := false;
     non_max_suppression_inst.score_threshold_mem := "score";
     non_max_suppression_inst.has_soft_nms_sigma := false;
     non_max_suppression_inst.soft_nms_sigma_mem := "sigma";
     non_max_suppression_inst.has_second_output := second;
     non_max_suppression_inst.second_output_mem := "second";
     non_max_suppression_inst.has_third_output := third;
     non_max_suppression_inst.third_output_mem := "third";
     non_max_suppression_inst.output_memory_ptr := "out" |}.

(** Two states of the cache guard: one thread holds the lock of ["blob"],
    and the same thread has destroyed its entry. *)
Definition guard_holding : cache_guard.state :=
  default cache_guard.initial
    (cache_guard.run_actions
       [cache_guard.get_hash_lock_enter "blob"; cache_guard.perform_lock 0]
       cache_guard.initial).


(** Three threads ask for the lock of ["blob"]: the first holds it, the
    second waits in [perform_lock], and [perform_lock] of the third has
    thrown; the destructor of the third entry has decremented the
    counter. *)
Definition guard_contended_actions : list cache_guard.action :=
  [cache_guard.get_hash_lock_enter "blob"; cache_guard.get_hash_lock_enter "blob";
   cache_guard.get_hash_lock_enter "blob"; cache_guard.perform_lock 0;
   cache_guard.perform_lock_throws 2; cache_guard.release_count 2].

Definition guard_contended : cache_guard.state :=
  default cache_guard.initial
    (cache_guard.run_actions guard_contended_actions cache_guard.initial).

(** The run-time instance of [quantize_node], with nine dependencies. *)
Definition quantize_instance : @quantize_inst.instance helper string :=
  {| quantize_inst.node := quantize_node;
     quantize_inst.dependencies_size := 9;
     quantize_inst.inputs_memory := ["in"; "lo"; "hi"; "olo"; "ohi"];
     quantize_inst.dependencies_memory :=
       ["in"; "lo"; "hi"; "olo"; "ohi"; "scale"; "shift"; "oscale"; "oshift"];
     quantize_inst.output_memory_ptr := "out" |}.

(** A store with one concatenation implementation. *)
Definition original : @primitive_impl helper :=
  concatenation_object
    {| concatenation_impl.parent := {| _kernel_data := kernel ["k0"; "k1"] |};
       concatenation_impl._can_be_optimized := false |}.

Definition store : gmap positive (@primitive_impl helper) :=
  {[ 1%positive := original ]}.

End Sample.

(** * Properties *)

(** ** Format descriptors *)

Section FormatFacts.
Context `{format.Traits}.

(** C5: [get_default_format] returns the documented format on each of the
    seven documented combinations of rank, weights flag and grouped flag. *)
Theorem get_default_format_documented :
  format.get_default_format 4 false false = format.bfyx /\
  format.get_default_format 5 false false = format.bfzyx /\
  format.get_default_format 6 false false = format.bfwzyx /\
  format.get_default_format 5 true true = format.goiyx /\
  format.get_default_format 6 true true = format.goizyx /\
  format.get_default_format 4 true false = format.oiyx /\
  format.get_default_format 5 true false = format.oizyx.
Proof. repeat split. Qed.

Lemma get_default_format_table :
  Forall (fun '(rank, w, g, fmt) => format.get_default_format rank w g = fmt)
         format.documented_table.
Proof. repeat constructor. Qed.

(** For data formats the grouped flag is not consulted. *)
Lemma get_default_format_data_ignores_grouped rank g :
  format.get_default_format rank false g = format.get_default_format rank false false.
Proof. reflexivity. Qed.

(** C10 (counterexample): rank 5 data with the grouped flag set is not a
    documented combination, yet the result is [bfzyx], not [bfyx]. *)
Lemma get_default_format_grouped_data_rank5 :
  format.documented 5 false true = false /\
  format.get_default_format 5 false true = format.bfzyx /\
  format.get_default_format 5 false true <> format.bfyx.
Proof. repeat split. discriminate. Qed.

(** C10 (amended): when the combination, with the grouped flag taken into
    account only for weights, is not a documented one, [get_default_format]
    returns [bfyx]. *)
Theorem get_default_format_fallback (rank : N) (is_weights is_grouped : bool) :
  format.documented rank is_weights (is_weights && is_grouped) = false ->
  format.get_default_format rank is_weights is_grouped = format.bfyx.
Proof.
  unfold format.documented, format.get_default_format; simpl.
  destruct is_weights, is_grouped; simpl;
    destruct (N.eqb_spec rank 4), (N.eqb_spec rank 5), (N.eqb_spec rank 6);
    simpl; intros Hdoc; subst; try reflexivity; try discriminate.
Qed.

Lemma get_default_format_fallback_witness :
  format.documented 7 false (false && false) = false /\
  format.get_default_format 7 false false = format.bfyx /\
  format.get_default_format 4 true true = format.bfyx /\
  format.get_default_format 3 true false = format.bfyx.
Proof.
  split; [reflexivity|].
  split; [apply (get_default_format_fallback 7 false false); reflexivity|].
  split; [apply (get_default_format_fallback 4 true true); reflexivity|].
  apply (get_default_format_fallback 3 true false); reflexivity.
Defined.

End FormatFacts.

(** ** Searching a string *)

Lemma get_chars (s : string) (i : nat) : String.get i s = chars s !! i.
Proof.
  revert i; induction s as [|a s IH]; intros [|i]; simpl; auto.
Qed.

Lemma length_chars (s : string) : length (chars s) = String.length s.
Proof. induction s; simpl; auto. Qed.

Lemma find_from_none (c : ascii) (s : string) (pos : nat) :
  find_from c s pos = None <-> c ∉ chars s.
Proof.
  revert pos; induction s as [|a s IH]; intros pos; simpl.
  - split; [intros _; apply not_elem_of_nil | reflexivity].
  - destruct (Ascii.eqb_spec a c) as [->|Hne].
    + split; [discriminate | intros Hn; exfalso; apply Hn; left].
    + rewrite IH, not_elem_of_cons. intuition congruence.
Qed.

Lemma find_from_some (c : ascii) (s : string) (pos i : nat) :
  find_from c s pos = Some i ->
  exists j, i = (pos + j)%nat /\ chars s !! j = Some c /\
            forall k, (k < j)%nat -> chars s !! k <> Some c.
Proof.
  revert pos; induction s as [|a s IH]; intros pos; simpl; [discriminate|].
  destruct (Ascii.eqb_spec a c) as [->|Hne].
  - intros [= <-]. exists 0%nat. repeat split; [lia | intros k Hk; lia].
  - intros Hf. destruct (IH _ Hf) as (j & -> & Hj & Hfirst).
    exists (S j). repeat split; [lia | exact Hj |].
    intros [|k] Hk; simpl; [congruence | apply Hfirst; lia].
Qed.

(** [find_first_of] returns [npos] or the first position of the character. *)
Lemma find_first_of_spec (s : string) (c : ascii) :
  (N.of_nat (String.length s) < npos)%N ->
  (find_first_of s c = npos <-> c ∉ chars s) /\
  (c ∈ chars s ->
   chars s !! N.to_nat (find_first_of s c) = Some c /\
   (find_first_of s c < N.of_nat (String.length s))%N /\
   forall k, (k < N.to_nat (find_first_of s c))%nat -> chars s !! k <> Some c).
Proof.
  intros Hlen. unfold find_first_of.
  destruct (find_from c s 0) as [i|] eqn:Hf.
  - destruct (find_from_some _ _ _ _ Hf) as (j & -> & Hj & Hfirst). simpl.
    assert (Hlt : (j < String.length s)%nat).
    { rewrite <- length_chars. eapply lookup_lt_Some; eauto. }
    assert (Hin : c ∈ chars s) by (eapply list_elem_of_lookup_2; eauto).
    split.
    + split; [intros Heq; lia | intros Hn; contradiction].
    + intros _. rewrite Nat2N.id. repeat split; [exact Hj | lia | exact Hfirst].
  - apply find_from_none in Hf. split; [tauto | contradiction].
Qed.

Lemma string_at_inside (s : string) (i : nat) (c : ascii) :
  chars s !! i = Some c -> string_at s (N.of_nat i) = Some c.
Proof.
  intros Hi. unfold string_at. rewrite Nat2N.id, get_chars, Hi. reflexivity.
Qed.

Section InternalToExternal.
Context `{format.Traits}.

(** C7: for a physical index whose character is [c], [internal_to_external]
    throws [std::invalid_argument] exactly when [c] does not occur in
    [order], and otherwise returns the first position of [c] in [order]. *)
Theorem internal_to_external_spec (fmt : format.type) (idx : N) (c : ascii) :
  format.representable (format.traits fmt) ->
  string_at (format.internal_order (format.traits fmt)) idx = Some c ->
  (format.internal_to_external fmt idx
     = Throws (invalid_argument
                 "Internal dimension index does not map to external index.")
   <-> c ∉ chars (format.order (format.traits fmt))) /\
  (c ∈ chars (format.order (format.traits fmt)) ->
   exists j, format.internal_to_external fmt idx = Returns j /\
             chars (format.order (format.traits fmt)) !! N.to_nat j = Some c /\
             forall k, (k < N.to_nat j)%nat ->
                       chars (format.order (format.traits fmt)) !! k <> Some c).
Proof.
  intros Hrep Hat. unfold format.internal_to_external. rewrite Hat.
  destruct (find_first_of_spec _ c Hrep) as [Hnone Hsome].
  destruct (N.eqb_spec (find_first_of (format.order (format.traits fmt)) c) npos)
    as [Heq|Hne].
  - split; [split; [intros _; apply Hnone, Heq | reflexivity] |].
    intros Hin. apply Hnone in Heq. contradiction.
  - split; [split; [discriminate | intros Hn; apply Hnone in Hn; contradiction] |].
    intros Hin. destruct (Hsome Hin) as (Hj & _ & Hfirst). eauto.
Qed.

End InternalToExternal.

Lemma internal_to_external_spec_witness :
  (format.internal_to_external
     (H := Sample.uniform (Sample.descriptor "bfyx" "bfxy")) format.bfyx 2
     = Throws (invalid_argument
                 "Internal dimension index does not map to external index.")
   <-> "x"%char ∉ chars "bfyx") /\
  ("x"%char ∈ chars "bfyx" ->
   exists j,
     format.internal_to_external
       (H := Sample.uniform (Sample.descriptor "bfyx" "bfxy")) format.bfyx 2
     = Returns j /\
     chars "bfyx" !! N.to_nat j = Some "x"%char /\
     forall k, (k < N.to_nat j)%nat -> chars "bfyx" !! k <> Some "x"%char).
Proof.
  apply (internal_to_external_spec
           (H := Sample.uniform (Sample.descriptor "bfyx" "bfxy"))
           format.bfyx 2 "x"%char).
  - vm_compute. reflexivity.
  - reflexivity.
Defined.

Example internal_to_external_bfyx_x :
  format.internal_to_external
    (H := Sample.uniform (Sample.descriptor "bfyx" "bfxy")) format.bfyx 2
  = Returns 3%N.
Proof. reflexivity. Qed.

Example internal_to_external_foreign_character :
  format.internal_to_external
    (H := Sample.uniform (Sample.descriptor "bfyx" "bfxy?")) format.bfyx 4
  = Throws (invalid_argument
              "Internal dimension index does not map to external index.").
Proof. reflexivity. Qed.

Section SubPermutation.
Context `{format.Traits}.

Lemma internal_to_external_inside (fmt : format.type) (i : nat) (c : ascii) :
  format.representable (format.traits fmt) ->
  chars (format.internal_order (format.traits fmt)) !! i = Some c ->
  c ∈ chars (format.order (format.traits fmt)) ->
  format.internal_to_external fmt (N.of_nat i)
  = Returns (find_first_of (format.order (format.traits fmt)) c).
Proof.
  intros Hrep Hi Hin. unfold format.internal_to_external.
  rewrite (string_at_inside _ _ _ Hi).
  destruct (find_first_of_spec _ c Hrep) as [Hnone _].
  destruct (N.eqb_spec (find_first_of (format.order (format.traits fmt)) c) npos)
    as [Heq|Hne]; [|reflexivity].
  apply Hnone in Heq. contradiction.
Qed.

Lemma find_first_of_inj (s : string) (c d : ascii) :
  (N.of_nat (String.length s) < npos)%N ->
  c ∈ chars s -> d ∈ chars s ->
  find_first_of s c = find_first_of s d -> c = d.
Proof.
  intros Hlen Hc Hd Heq.
  destruct (find_first_of_spec s c Hlen) as [_ Hsc].
  destruct (find_first_of_spec s d Hlen) as [_ Hsd].
  destruct (Hsc Hc) as (Hjc & _), (Hsd Hd) as (Hjd & _).
  rewrite Heq in Hjc. congruence.
Qed.

(** X15: what [internal_to_external] guarantees for any table.  For a
    descriptor that meets the sub-permutation invariant,
    [internal_to_external] succeeds on every valid physical index, the
    results are pairwise different and below [dimension], and they cover
    [[0, dimension)] exactly when [internal_order] is as long as
    [order]. *)
Theorem internal_to_external_sub_permutation (fmt : format.type) :
  format.representable (format.traits fmt) ->
  format.sub_permutation (format.traits fmt) ->
  exists js : list N,
    format.external_indices fmt = map Returns js /\
    NoDup js /\
    Forall (fun j => (j < format.dimension fmt)%N) js /\
    ((forall j, (j < format.dimension fmt)%N -> j ∈ js) <->
     String.length (format.internal_order (format.traits fmt))
     = String.length (format.order (format.traits fmt))).
Proof.
  intros Hrep [Hnodup Hsub].
  set (o := format.order (format.traits fmt)) in *.
  set (io := format.internal_order (format.traits fmt)) in *.
  rewrite Forall_forall in Hsub.
  exists (map (find_first_of o) (chars io)).
  assert (Himg : format.external_indices fmt
                 = map Returns (map (find_first_of o) (chars io))).
  { unfold format.external_indices. fold io. apply list_eq. intros i.
    rewrite !list_lookup_fmap.
    destruct (chars io !! i) as [c|] eqn:Hi; simpl.
    - assert (Hlt : (i < String.length io)%nat).
      { rewrite <- length_chars. eapply lookup_lt_Some; eauto. }
      rewrite lookup_seq_lt by exact Hlt. simpl.
      f_equal. apply internal_to_external_inside; auto.
      apply Hsub. eapply list_elem_of_lookup_2; eauto.
    - apply lookup_ge_None in Hi. rewrite length_chars in Hi.
      rewrite lookup_seq_ge by exact Hi. reflexivity. }
  assert (Hnd : NoDup (map (find_first_of o) (chars io))).
  { apply NoDup_fmap_2_strong; [|exact Hnodup].
    intros c d Hc Hd. apply find_first_of_inj; auto. }
  assert (Hrange : Forall (fun j => (j < format.dimension fmt)%N)
                          (map (find_first_of o) (chars io))).
  { rewrite Forall_fmap, Forall_forall. intros c Hc. simpl.
    destruct (find_first_of_spec o c Hrep) as [_ Hs].
    destruct (Hs (Hsub _ Hc)) as (_ & Hlt & _). exact Hlt. }
  split; [exact Himg|]. split; [exact Hnd|]. split; [exact Hrange|].
  set (all := map N.of_nat (seq 0 (String.length o))).
  assert (Hall : forall j, j ∈ all <-> (j < format.dimension fmt)%N).
  { intros j. unfold all, format.dimension. fold o.
    rewrite list_elem_of_fmap. split.
    - intros (k & -> & Hk). apply elem_of_seq in Hk. lia.
    - intros Hj. exists (N.to_nat j). split; [lia|]. apply elem_of_seq. lia. }
  assert (Hall_nd : NoDup all).
  { unfold all. apply NoDup_fmap_2; [intros a b; lia | apply NoDup_seq]. }
  assert (Hall_len : length all = String.length o).
  { unfold all. rewrite length_map, length_seq. reflexivity. }
  assert (Hjs_len : length (map (find_first_of o) (chars io)) = String.length io).
  { rewrite length_map. apply length_chars. }
  assert (Hsubm : map (find_first_of o) (chars io) ⊆+ all).
  { apply NoDup_submseteq; [exact Hnd|].
    intros j Hj. apply Hall. rewrite Forall_forall in Hrange. auto. }
  split.
  - intros Hcover.
    assert (Hsubm' : all ⊆+ map (find_first_of o) (chars io)).
    { apply NoDup_submseteq; [exact Hall_nd|].
      intros j Hj. apply Hcover, Hall, Hj. }
    apply submseteq_length in Hsubm, Hsubm'. lia.
  - intros Hlen j Hj.
    assert (Hperm : map (find_first_of o) (chars io) ≡ₚ all).
    { apply submseteq_length_Permutation; [exact Hsubm | lia]. }
    rewrite Hperm. apply Hall, Hj.
Qed.

End SubPermutation.

(** A descriptor that omits a character of [order] meets the
    sub-permutation invariant, and no physical index maps to the omitted
    position 2 of its four dimensions. *)
Example internal_to_external_omitted_dimension :
  format.sub_permutation (Sample.descriptor "bfyx" "bfx") /\
  (2 < format.dimension (H := Sample.uniform (Sample.descriptor "bfyx" "bfx"))
         format.bfyx)%N /\
  format.external_indices (H := Sample.uniform (Sample.descriptor "bfyx" "bfx"))
    format.bfyx = [Returns 0%N; Returns 1%N; Returns 3%N] /\
  Returns 2%N ∉
    format.external_indices (H := Sample.uniform (Sample.descriptor "bfyx" "bfx"))
      format.bfyx.
Proof.
  split.
  { split; simpl.
    - repeat (apply NoDup_cons; split;
              [rewrite ?elem_of_cons, elem_of_nil; intuition discriminate|]).
      apply NoDup_nil; exact I.
    - repeat (apply Forall_cons; split;
              [rewrite ?elem_of_cons; auto 10|]).
      apply Forall_nil; exact I. }
  split; [reflexivity|].
  split; [reflexivity|].
  change (format.external_indices format.bfyx)
    with [Returns 0%N; Returns 1%N; Returns 3%N].
  rewrite ?elem_of_cons, elem_of_nil. intuition discriminate.
Qed.

Lemma internal_to_external_sub_permutation_witness :
  exists js : list N,
    format.external_indices (H := Sample.uniform (Sample.descriptor "bfyx" "bfxy"))
      format.bfyx = map Returns js /\
    NoDup js /\
    Forall (fun j => (j < 4)%N) js /\
    ((forall j, (j < 4)%N -> j ∈ js) <-> 4%nat = 4%nat).
Proof.
  apply (internal_to_external_sub_permutation
           (H := Sample.uniform (Sample.descriptor "bfyx" "bfxy")) format.bfyx).
  - vm_compute. reflexivity.
  - split; simpl.
    + repeat (apply NoDup_cons; split;
              [rewrite ?elem_of_cons, elem_of_nil; intuition discriminate|]).
      apply NoDup_nil; exact I.
    + repeat (apply Forall_cons; split;
              [rewrite ?elem_of_cons; auto 10|]).
      apply Forall_nil; exact I.
Defined.

(** ** Running [create] against a selector *)

Section Dispatch.
Context `{DefaultParams}.

Lemma run_step {Req A B} (sel : Req -> list kernel_data) (c : outcome A)
    (k : A -> prog Req kernel_data B) :
  run sel (pbind (Done c) k)
  = match c with
    | Returns a => run sel (k a)
    | Throws e => ([], Throws e)
    | Undefined => ([], Undefined)
    end.
Proof. destruct c; reflexivity. Qed.

(** The tail shared by every [create]: the emptiness check followed by the
    construction from [best_kernels[0]]. *)
Lemma run_selection {Req A} (sel : Req -> list kernel_data) (req : Req)
    (node_id : string) (construct : kernel_data -> outcome A) :
  run sel
    (CallSelector req (fun best_kernels =>
       step* _ := CLDNN_ERROR_BOOL node_id "Best_kernel.empty()"
                    (vector_empty best_kernels) no_kernel_message in
       step* best := vector_at best_kernels 0 in
       Done (construct best)))
  = ([req], select_first node_id construct (sel req)).
Proof.
  simpl. destruct (sel req) as [|best rest]; reflexivity.
Qed.




End Dispatch.


(** ** concatenation *)

Section Concatenation.
Context `{DefaultParams}.

(** C9: for a concatenation that can be optimized out, [create] returns an
    implementation with empty kernel data at once: the kernel selector
    receives no request, the kernel count is not compared with the input
    count, and the result is never a failure. *)
Theorem create_optimized_out (arg : concatenation.node)
    (impl_param : kernel_impl_params) :
  concatenation.can_be_optimized arg = true ->
  concatenation_impl.create arg impl_param
  = Done (Returns {| concatenation_impl.parent :=
                       {| _kernel_data := empty_kernel_data |};
                     concatenation_impl._can_be_optimized := true |}) /\
  forall sel,
    run sel (concatenation_impl.create arg impl_param)
    = ([], Returns {| concatenation_impl.parent :=
                        {| _kernel_data := empty_kernel_data |};
                      concatenation_impl._can_be_optimized := true |}).
Proof.
  intros Hopt.
  assert (Hcreate :
            concatenation_impl.create arg impl_param
            = Done (Returns {| concatenation_impl.parent :=
                                 {| _kernel_data := empty_kernel_data |};
                               concatenation_impl._can_be_optimized := true |})).
  { unfold concatenation_impl.create, concatenation_impl.construct,
      concatenation_impl.set_node_params.
    rewrite Hopt. reflexivity. }
  split; [exact Hcreate|]. intros sel. rewrite Hcreate. reflexivity.
Qed.

(** A concatenation that is not optimized out and whose axis converts
    does consult the selector, and its constructor compares the counts. *)
Lemma construct_checks_kernel_count (arg : concatenation.node) (kd : kernel_data) :
  concatenation.can_be_optimized arg = false ->
  concatenation.inputs_count arg <> N.of_nat (length (kernels kd)) ->
  concatenation_impl.construct arg kd
  = Throws (cldnn_error (concatenation.id arg) "Input count"
              "Error - not enough kernels for concatenation").
Proof.
  intros Hopt Hne. unfold concatenation_impl.construct. rewrite Hopt. simpl.
  unfold CLDNN_ERROR_NOT_EQUAL.
  destruct (N.eqb_spec (concatenation.inputs_count arg) (N.of_nat (length (kernels kd))));
    [contradiction | reflexivity].
Qed.

End Concatenation.

Lemma create_optimized_out_witness :
  run (fun _ => [])
    (concatenation_impl.create (H0 := Sample.defaults)
       (Sample.concat_node true) Sample.concat_inputs)
  = ([], Returns {| concatenation_impl.parent :=
                      {| _kernel_data := empty_kernel_data |};
                    concatenation_impl._can_be_optimized := true |}).
Proof.
  exact (proj2 (create_optimized_out (H := Sample.helper) (H0 := Sample.defaults)
                  (Sample.concat_node true) Sample.concat_inputs eq_refl)
           (fun _ => [])).
Defined.

(** ** Axis conversion *)

(** C3 (failing input): the axis [2^32] of a rank-4 node is outside the
    rank, yet the conversion to [unsigned] turns it into 0 before the
    range check, and [convert_axis] answers [BATCH]. *)
Theorem convert_axis_truncates_axis :
  concatenation_impl.convert_axis 4294967296 4 = Returns concatenation.BATCH.
Proof. reflexivity. Qed.

Example convert_axis_rank4_last :
  concatenation_impl.convert_axis (-1) 4 = Returns concatenation.X.
Proof. reflexivity. Qed.

Example convert_axis_rank4 :
  map (fun a => concatenation_impl.convert_axis a 4) [0; 1; 2; 3]%Z
  = [Returns concatenation.BATCH; Returns concatenation.FEATURE;
     Returns concatenation.Y; Returns concatenation.X].
Proof. reflexivity. Qed.

Example convert_axis_rank4_exceeds :
  concatenation_impl.convert_axis 4 4
  = Throws (ie_exception "Concatenation axis exceeds number of dimensions").
Proof. reflexivity. Qed.

Section AxisConversion.
Local Open Scope Z_scope.

Lemma to_int64_small (rank : N) : (rank < 2 ^ 31)%N -> to_int64 rank = Z.of_N rank.
Proof.
  intros Hr. unfold to_int64.
  assert (0 <= Z.of_N rank < 2 ^ 31) by (change (2^31) with (Z.of_N (2^31)); lia).
  rewrite Z.mod_small by lia.
  destruct (Z.ltb_spec (Z.of_N rank) (2 ^ 63)); lia.
Qed.

Lemma to_unsigned_small (z : Z) : 0 <= z < 2 ^ 32 -> to_unsigned z = Z.to_N z.
Proof. intros Hz. unfold to_unsigned. rewrite Z.mod_small by lia. reflexivity. Qed.

Lemma to_unsigned_negative (z : Z) :
  - 2 ^ 32 <= z < 0 -> to_unsigned z = Z.to_N (z + 2 ^ 32).
Proof.
  intros Hz. unfold to_unsigned. f_equal.
  symmetry. apply (Z.mod_unique z (2 ^ 32) (-1)); lia.
Qed.

Lemma size_t_sub_small (a b : N) :
  (b <= a)%N -> (a < 2 ^ 64)%N -> size_t_sub a b = (a - b)%N.
Proof.
  intros Hba Ha. unfold size_t_sub, size_t_modulus.
  assert (0 <= Z.of_N a < 2 ^ 64) by (change (2^64) with (Z.of_N (2^64)); lia).
  rewrite Z.mod_small by (change (Z.of_N (2^64)) with (2^64); lia). lia.
Qed.

Lemma size_t_add_small (a b : N) :
  (a + b < 2 ^ 64)%N -> size_t_add a b = (a + b)%N.
Proof. intros H. unfold size_t_add, size_t_modulus. apply N.mod_small. exact H. Qed.

(** Inside the 32-bit range the conversion does what its error messages
    announce: a negative axis counts from the rank, a normalized axis
    outside [[0, rank)] is refused, 0 and 1 are batch and feature, and a
    spatial axis is mirrored inside the [max rank 4 - 2] spatial axes. *)
Lemma convert_axis_in_range (axis : Z) (rank : N) :
  (rank < 2 ^ 31)%N -> - 2 ^ 31 <= axis < 2 ^ 31 ->
  let n := if axis <? 0 then axis + Z.of_N rank else axis in
  let m := Z.max (Z.of_N rank) 4 + 1 - n in
  concatenation_impl.convert_axis axis rank =
  if (n <? 0) || (Z.of_N rank <=? n)
  then Throws (ie_exception "Concatenation axis exceeds number of dimensions")
  else if n =? 0 then Returns concatenation.BATCH
  else if n =? 1 then Returns concatenation.FEATURE
  else if m =? 2 then Returns concatenation.X
  else if m =? 3 then Returns concatenation.Y
  else if m =? 4 then Returns concatenation.Z
  else if m =? 5 then Returns concatenation.W
  else Throws (ie_exception ("Unsupported concatenation axis: "
                     ++ DecimalString.NilZero.string_of_int (Z.to_int axis))).
Proof.
  intros Hr Ha n m.
  assert (Hr' : 0 <= Z.of_N rank < 2 ^ 31) by (change (2^31) with (Z.of_N (2^31)); lia).
  unfold concatenation_impl.convert_axis.
  rewrite (to_int64_small rank Hr).
  assert (Hn : (if axis >=? 0 then axis else axis + Z.of_N rank) = n).
  { unfold n. destruct (Z.geb_spec axis 0), (Z.ltb_spec axis 0); lia. }
  rewrite Hn.
  assert (Hnb : - 2 ^ 31 <= n < 2 ^ 32).
  { unfold n. destruct (Z.ltb_spec axis 0); lia. }
  destruct (Z.ltb_spec n 0) as [Hneg|Hpos]; simpl orb.
  - rewrite to_unsigned_negative by lia.
    destruct (N.leb_spec rank (Z.to_N (n + 2 ^ 32))); [reflexivity | lia].
  - rewrite to_unsigned_small by lia.
    destruct (Z.leb_spec (Z.of_N rank) n) as [Hge|Hlt].
    + destruct (N.leb_spec rank (Z.to_N n)); [reflexivity | lia].
    + destruct (N.leb_spec rank (Z.to_N n)); [lia|].
      destruct (N.leb_spec 2 (Z.to_N n)) as [H2|H2].
      * rewrite Z2N.id by lia.
        rewrite (to_unsigned_small (n - 2)) by lia.
        change (2 ^ 31)%N with 2147483648%N in Hr.
        assert (Hm : Z.of_N (size_t_add (size_t_sub (size_t_sub
                       (size_t_sub (N.max rank 4) 2) (Z.to_N (n - 2))) 1) 2) = m).
        { unfold m.
          assert (HM : Z.of_N (N.max rank 4) = Z.max (Z.of_N rank) 4)
            by (destruct (N.max_spec rank 4) as [[Hc Hmx]|[Hc Hmx]]; rewrite Hmx; lia).
          assert (HM4 : (4 <= N.max rank 4 < 2147483648)%N)
            by (destruct (N.max_spec rank 4) as [[Hc Hmx]|[Hc Hmx]]; rewrite Hmx; lia).
          assert (HMr : (rank <= N.max rank 4)%N)
            by (destruct (N.max_spec rank 4) as [[Hc Hmx]|[Hc Hmx]]; rewrite Hmx; lia).
          revert HM HM4 HMr. generalize (N.max rank 4). intros M HM HM4 HMr.
          rewrite <- HM.
          rewrite (size_t_sub_small M 2)
            by (change (2 ^ 64)%N with 18446744073709551616%N; lia).
          rewrite (size_t_sub_small (M - 2) (Z.to_N (n - 2)))
            by (change (2 ^ 64)%N with 18446744073709551616%N; lia).
          rewrite (size_t_sub_small (M - 2 - Z.to_N (n - 2)) 1)
            by (change (2 ^ 64)%N with 18446744073709551616%N; lia).
          rewrite size_t_add_small
            by (change (2 ^ 64)%N with 18446744073709551616%N; lia).
          lia. }
        rewrite Hm.
        assert (Hmb : 2 <= m < 2 ^ 32) by (unfold m; lia).
        rewrite to_unsigned_small by lia.
        destruct (Z.eqb_spec n 0); [lia|]. destruct (Z.eqb_spec n 1); [lia|].
        destruct (Z.eqb_spec m 2) as [->|]; [reflexivity|].
        destruct (Z.eqb_spec m 3) as [->|]; [reflexivity|].
        destruct (Z.eqb_spec m 4) as [->|]; [reflexivity|].
        destruct (Z.eqb_spec m 5) as [->|]; [reflexivity|].
        destruct (Z.to_N m) as [|p] eqn:Hp; [lia|].
        do 3 (destruct p as [p|p|]; try lia; try reflexivity).
      * destruct (Z.eqb_spec n 0) as [->|]; [reflexivity|].
        destruct (Z.eqb_spec n 1) as [->|]; [reflexivity|]. lia.
Qed.

End AxisConversion.

(** ** Cloning implementation objects *)

Section Clone.
Context `{KernelSelectorHelper}.

Lemma copy_construct_flag (o : primitive_impl) :
  cached_flag (copy_construct o) = cached_flag o.
Proof. destruct o; reflexivity. Qed.

Lemma fresh_not_allocated (h : gmap positive primitive_impl) (this : positive)
    (o : primitive_impl) :
  h !! this = Some o -> fresh (dom h) <> this.
Proof.
  intros Hthis Heq. apply (is_fresh (dom h)). rewrite Heq.
  apply elem_of_dom. eauto.
Qed.

(** C8: [clone] allocates a new object whose flag equals the flag of the
    original at that moment; the two objects live at different addresses,
    so a member function that modifies the copy (such as
    [set_node_params]) leaves the original as it was, and one that
    modifies the original leaves the copy as it was. *)
Theorem clone_copies_flags_by_value (h : gmap positive primitive_impl)
    (this : positive) (o : primitive_impl) :
  h !! this = Some o ->
  exists h' cloned,
    clone h this = Returns (h', cloned) /\
    cloned <> this /\
    h' !! this = Some o /\
    h' !! cloned = Some (copy_construct o) /\
    cached_flag (copy_construct o) = cached_flag o /\
    (forall method h'',
        call_mutating h' cloned method = Returns h'' -> h'' !! this = Some o) /\
    (forall method h'',
        call_mutating h' this method = Returns h'' ->
        h'' !! cloned = Some (copy_construct o)).
Proof.
  intros Hthis. pose proof (fresh_not_allocated h this o Hthis) as Hfresh.
  exists (<[fresh (dom h) := copy_construct o]> h), (fresh (dom h)).
  assert (Hold : <[fresh (dom h) := copy_construct o]> h !! this = Some o)
    by (rewrite lookup_insert_ne by exact Hfresh; exact Hthis).
  assert (Hnew : <[fresh (dom h) := copy_construct o]> h !! fresh (dom h)
                 = Some (copy_construct o))
    by apply lookup_insert_eq.
  repeat split.
  - unfold clone, make_unique. rewrite Hthis. reflexivity.
  - exact Hfresh.
  - exact Hold.
  - exact Hnew.
  - apply copy_construct_flag.
  - intros method h''. unfold call_mutating. rewrite Hnew.
    destruct (method (copy_construct o)); simpl; try discriminate.
    intros [= <-]. rewrite lookup_insert_ne by exact Hfresh. exact Hold.
  - intros method h''. unfold call_mutating. rewrite Hold.
    destruct (method o); simpl; try discriminate.
    intros [= <-]. rewrite lookup_insert_ne by congruence. exact Hnew.
Qed.

(** [set_node_params] on an object of the matching type stores the flag
    of the node. *)
Lemma set_node_params_concatenation (o : concatenation_impl.impl)
    (node : concatenation.node) :
  set_node_params (concatenation_node node) (concatenation_object o)
  = Returns (concatenation_object
               {| concatenation_impl.parent := concatenation_impl.parent o;
                  concatenation_impl._can_be_optimized :=
                    concatenation.can_be_optimized node |}).
Proof. reflexivity. Qed.

Lemma set_node_params_activation (o : activation_impl.impl)
    (node : activation.node) :
  set_node_params (activation_node node) (activation_object o)
  = Returns (activation_object
               {| activation_impl.parent := activation_impl.parent o;
                  activation_impl._is_parameterized :=
                    activation.is_parameterized node |}).
Proof. reflexivity. Qed.

End Clone.

Lemma clone_copies_flags_by_value_witness :
  exists h' cloned,
    clone Sample.store 1%positive = Returns (h', cloned) /\
    cloned <> 1%positive /\
    h' !! 1%positive = Some Sample.original /\
    h' !! cloned = Some (copy_construct Sample.original) /\
    cached_flag (copy_construct Sample.original)
    = cached_flag Sample.original /\
    (forall method h'',
        call_mutating h' cloned method = Returns h'' ->
        h'' !! 1%positive = Some Sample.original) /\
    (forall method h'',
        call_mutating h' 1%positive method = Returns h'' ->
        h'' !! cloned = Some (copy_construct Sample.original)).
Proof.
  apply (clone_copies_flags_by_value (H := Sample.helper)
           Sample.store 1%positive Sample.original).
  reflexivity.
Defined.

(** Setting the flag of the clone from an optimized-out node changes the
    clone and not the original. *)
Example clone_then_set_node_params :
  match clone Sample.store 1%positive with
  | Returns (h', cloned) =>
      match call_mutating h' cloned
              (set_node_params (H := Sample.helper)
                 (concatenation_node (Sample.concat_node true))) with
      | Returns h'' =>
          (cached_flag (H := Sample.helper) <$> h'' !! 1%positive,
           cached_flag (H := Sample.helper) <$> h'' !! cloned)
      | _ => (None, None)
      end
  | _ => (None, None)
  end = (Some (Some false), Some (Some true)).
Proof. vm_compute. reflexivity. Qed.

(** ** Optional inputs of non_max_suppression *)

Section NonMaxSuppression.
Context `{DefaultParams}.

(** The tensors that [create] appends, in order. *)
Lemma create_params_inputs (arg : non_max_suppression.node) :
  inputs (non_max_suppression.base (non_max_suppression_gpu.create_params arg))
  = (inputs (non_max_suppression.base (get_default_params_non_max_suppression arg))
    ++ [convert_data_tensor (non_max_suppression.input_scores arg)]
    ++ non_max_suppression_gpu.optional_tensor (non_max_suppression.has_num_select_per_class arg)
         (non_max_suppression.num_select_per_class_node arg)
    ++ non_max_suppression_gpu.optional_tensor (non_max_suppression.has_iou_threshold arg)
         (non_max_suppression.iou_threshold_node arg)
    ++ non_max_suppression_gpu.optional_tensor (non_max_suppression.has_score_threshold arg)
         (non_max_suppression.score_threshold_node arg)
    ++ non_max_suppression_gpu.optional_tensor (non_max_suppression.has_soft_nms_sigma arg)
         (non_max_suppression.soft_nms_sigma_node arg)
    ++ non_max_suppression_gpu.optional_tensor (non_max_suppression.has_second_output arg)
         (non_max_suppression.second_output_node arg)
    ++ non_max_suppression_gpu.optional_tensor (non_max_suppression.has_second_output arg)
         (non_max_suppression.third_output_node arg))%list.
Proof.
  unfold non_max_suppression_gpu.create_params,
    non_max_suppression_gpu.optional_tensor.
  destruct (non_max_suppression.has_num_select_per_class arg),
    (non_max_suppression.has_iou_threshold arg),
    (non_max_suppression.has_score_threshold arg),
    (non_max_suppression.has_soft_nms_sigma arg),
    (non_max_suppression.has_second_output arg);
    simpl; rewrite <- ?app_assoc; reflexivity.
Qed.

(** The flags that [create] leaves in the record: the first five follow
    the capability of the same name, the sixth follows [has_second_output]. *)
Lemma create_params_flags (arg : non_max_suppression.node) :
  let before := get_default_params_non_max_suppression arg in
  let after := non_max_suppression_gpu.create_params arg in
  non_max_suppression.params_has_num_select_per_class after
  = non_max_suppression.has_num_select_per_class arg
    || non_max_suppression.params_has_num_select_per_class before /\
  non_max_suppression.params_has_iou_threshold after
  = non_max_suppression.has_iou_threshold arg
    || non_max_suppression.params_has_iou_threshold before /\
  non_max_suppression.params_has_score_threshold after
  = non_max_suppression.has_score_threshold arg
    || non_max_suppression.params_has_score_threshold before /\
  non_max_suppression.params_has_soft_nms_sigma after
  = non_max_suppression.has_soft_nms_sigma arg
    || non_max_suppression.params_has_soft_nms_sigma before /\
  non_max_suppression.params_has_second_output after
  = non_max_suppression.has_second_output arg
    || non_max_suppression.params_has_second_output before /\
  non_max_suppression.params_has_third_output after
  = non_max_suppression.has_second_output arg
    || non_max_suppression.params_has_third_output before.
Proof.
  unfold non_max_suppression_gpu.create_params.
  destruct (non_max_suppression.has_num_select_per_class arg),
    (non_max_suppression.has_iou_threshold arg),
    (non_max_suppression.has_score_threshold arg),
    (non_max_suppression.has_soft_nms_sigma arg),
    (non_max_suppression.has_second_output arg);
    simpl; repeat split.
Qed.

End NonMaxSuppression.

(** C2 (failing input): a node with a second output and no third one.  The
    record built by [create] nevertheless carries the tensor of the third
    output and has [has_third_output] set; a node with a third output and
    no second one gets neither. *)
Theorem create_params_third_output_guard :
  non_max_suppression.has_third_output (Sample.nms_node true false) = false /\
  non_max_suppression.params_has_third_output
    (non_max_suppression_gpu.create_params (H0 := Sample.defaults)
       (Sample.nms_node true false)) = true /\
  inputs (non_max_suppression.base
            (non_max_suppression_gpu.create_params (H0 := Sample.defaults)
               (Sample.nms_node true false)))
  = [Sample.plain format.bfyx 1 8 1 4;
     non_max_suppression.input_scores (Sample.nms_node true false);
     non_max_suppression.second_output_node (Sample.nms_node true false);
     non_max_suppression.third_output_node (Sample.nms_node true false)] /\
  non_max_suppression.has_third_output (Sample.nms_node false true) = true /\
  non_max_suppression.params_has_third_output
    (non_max_suppression_gpu.create_params (H0 := Sample.defaults)
       (Sample.nms_node false true)) = false /\
  inputs (non_max_suppression.base
            (non_max_suppression_gpu.create_params (H0 := Sample.defaults)
               (Sample.nms_node false true)))
  = [Sample.plain format.bfyx 1 8 1 4;
     non_max_suppression.input_scores (Sample.nms_node false true)].
Proof. repeat split. Qed.

(** ** Weights of the oneDNN convolution descriptor *)

Section ConvolutionWeights.
Context `{format.Traits} `{KernelSelectorHelper}.

(** C4 (amended): the weights layout is given the format
    [get_default_format(rank + 1, true, true)] exactly when the weights are
    grouped and have the rank of the input; under that condition the two
    leading spatial extents are swapped exactly when [spatial[0] == 1] and
    [spatial[1] != 1]; in every other case the layout is left as it is. *)
Theorem weights_layout_canonicalized (impl_params : kernel_impl_params)
    (prim : onednn.convolution) (input_layout weights_layout : layout)
    (s0 s1 : Z) :
  get_input_layout impl_params 0 = Returns input_layout ->
  get_input_layout impl_params 1 = Returns weights_layout ->
  spatial (size weights_layout) !! 0%nat = Some s0 ->
  spatial (size weights_layout) !! 1%nat = Some s1 ->
  let grouped_weights :=
    format.is_grouped (format weights_layout) || onednn.grouped_weights_shape prim in
  let same_rank := (get_rank input_layout =? get_rank weights_layout)%N in
  let degenerate := (s0 =? 1)%Z && negb (s1 =? 1)%Z in
  let swapped :=
    if degenerate
    then set_tensor weights_layout
           (set_spatial (size weights_layout)
              (onednn.swap_first_two (spatial (size weights_layout)) s0 s1))
    else weights_layout in
  onednn.get_convolution_primitive_descriptor_weights_layout impl_params prim
  = Returns (if grouped_weights && same_rank
             then set_format swapped
                    (format.get_default_format
                       (size_t_add (get_rank swapped) 1) true true)
             else weights_layout).
Proof.
  intros Hin Hw Hs0 Hs1 grouped_weights same_rank degenerate swapped.
  unfold onednn.get_convolution_primitive_descriptor_weights_layout.
  rewrite Hin, Hw. simpl obind. fold grouped_weights same_rank.
  destruct (grouped_weights && same_rank); [|reflexivity].
  unfold get_tensor, vector_at.
  change (N.to_nat 0) with 0%nat. change (N.to_nat 1) with 1%nat.
  rewrite Hs0. simpl obind. unfold swapped, degenerate.
  destruct (s0 =? 1)%Z; simpl andb; [|reflexivity].
  rewrite Hs1. simpl obind.
  destruct (s1 =? 1)%Z; reflexivity.
Qed.

End ConvolutionWeights.

(** C4 (counterexample): grouped 3x3 weights of the rank of the input do
    not show the pattern [spatial[0] == 1], [spatial[1] != 1], and their
    format is nevertheless replaced: [bfyx] becomes [goiyx]. *)
Lemma weights_layout_promoted_without_pattern :
  let weights := Sample.plain format.bfyx 16 1 3 3 in
  vector_at (input_layouts (Sample.conv_inputs 3 3)) 1 = Returns weights /\
  spatial (size weights) = [3; 3]%Z /\
  onednn.grouped_weights_shape Sample.grouped_convolution = true /\
  onednn.get_convolution_primitive_descriptor_weights_layout
    (H := Sample.ungrouped_table) (H0 := Sample.helper)
    (Sample.conv_inputs 3 3) Sample.grouped_convolution
  = Returns (set_format weights format.goiyx) /\
  format.goiyx <> format weights.
Proof. repeat split. discriminate. Qed.

Lemma weights_layout_canonicalized_witness :
  onednn.get_convolution_primitive_descriptor_weights_layout
    (H := Sample.ungrouped_table) (H0 := Sample.helper)
    (Sample.conv_inputs 3 1) Sample.grouped_convolution
  = Returns {| format := format.goiyx;
               size := {| batch := [16%Z]; feature := [1%Z];
                          spatial := [3%Z; 1%Z]; group := [] |} |}.
Proof.
  exact (weights_layout_canonicalized
           (H := Sample.ungrouped_table) (H0 := Sample.helper)
           (Sample.conv_inputs 3 1) Sample.grouped_convolution
           (Sample.plain format.bfyx 1 16 5 5) (Sample.plain format.bfyx 16 1 3 1)
           1 3 eq_refl eq_refl eq_refl eq_refl).
Defined.

(** * Further properties of the modelled code *)

(** ** Role characters and format classes *)

(** X1: a character has at most one role: no character is accepted by two
    of [is_batch_char], [is_feature_char], [is_spatial_char] and
    [is_group_char]. *)
Theorem role_characters_disjoint (c : ascii) :
  format.is_batch_char c && format.is_feature_char c = false /\
  format.is_batch_char c && format.is_spatial_char c = false /\
  format.is_batch_char c && format.is_group_char c = false /\
  format.is_feature_char c && format.is_spatial_char c = false /\
  format.is_feature_char c && format.is_group_char c = false /\
  format.is_spatial_char c && format.is_group_char c = false.
Proof.
  destruct c as [[] [] [] [] [] [] [] []]; vm_compute; repeat split.
Qed.

(** X2: whatever the rank and the flags, the format chosen by
    [get_default_format] is neither a winograd nor an image format, and
    for data (no weights) it is one of the simple data formats. *)
Theorem get_default_format_plain (rank : N) (is_weights is_grouped : bool) :
  format.is_winograd (format.get_default_format rank is_weights is_grouped) = false /\
  format.is_image (format.get_default_format rank is_weights is_grouped) = false /\
  format.is_nv12 (format.get_default_format rank is_weights is_grouped) = false /\
  format.is_simple_data_format (format.get_default_format rank false is_grouped) = true.
Proof.
  unfold format.get_default_format.
  destruct is_weights, is_grouped;
    destruct (rank =? 4)%N, (rank =? 5)%N, (rank =? 6)%N; repeat split.
Qed.

Lemma find_any_from_none (set : list ascii) (s : string) (pos : nat) :
  format.find_any_from set s pos = None <->
  forall c, c ∈ set -> c ∉ chars s.
Proof.
  revert pos; induction s as [|a s IH]; intros pos; simpl.
  - split; [intros _ c _; apply not_elem_of_nil | reflexivity].
  - destruct (existsb (Ascii.eqb a) set) eqn:Hex.
    + split; [discriminate|]. intros Hnone. exfalso.
      apply existsb_exists in Hex as (c & Hc & Heq).
      apply Ascii.eqb_eq in Heq. subst c.
      apply (Hnone a); [apply list_elem_of_In; exact Hc | left].
    + rewrite IH. split.
      * intros Hnone c Hc. rewrite not_elem_of_cons. split; [|auto].
        intros ->. apply Bool.not_true_iff_false in Hex. apply Hex.
        apply existsb_exists. exists a. split; [apply list_elem_of_In; exact Hc|].
        apply Ascii.eqb_refl.
      * intros Hnone c Hc. specialize (Hnone c Hc).
        rewrite not_elem_of_cons in Hnone. tauto.
Qed.

Lemma find_any_from_bound (set : list ascii) (s : string) (pos i : nat) :
  format.find_any_from set s pos = Some i -> (i < pos + String.length s)%nat.
Proof.
  revert pos; induction s as [|a s IH]; intros pos; simpl; [discriminate|].
  destruct (existsb (Ascii.eqb a) set).
  - intros [= <-]. lia.
  - intros Hf. apply IH in Hf. lia.
Qed.

Lemma find_first_of_set_npos (s set : string) :
  (N.of_nat (String.length s) < npos)%N ->
  format.find_first_of_set s set = npos <-> forall c, c ∈ chars set -> c ∉ chars s.
Proof.
  intros Hlen. unfold format.find_first_of_set.
  destruct (format.find_any_from (chars set) s 0) as [i|] eqn:Hf.
  - pose proof (find_any_from_bound _ _ _ _ Hf) as Hb. split.
    + intros Heq. lia.
    + intros Hnone.
      pose proof (proj2 (find_any_from_none (chars set) s 0) Hnone). congruence.
  - pose proof (proj1 (find_any_from_none _ _ _) Hf). tauto.
Qed.

Section WeightsFormat.
Context `{format.Traits}.

(** X3: [is_weights_format] holds exactly for the formats whose
    [internal_order] contains the character [o] or the character [i]. *)
Theorem is_weights_format_spec (fmt : format.type) :
  (N.of_nat (String.length (format.internal_order (format.traits fmt))) < npos)%N ->
  format.is_weights_format fmt = true <->
  "o"%char ∈ chars (format.internal_order (format.traits fmt)) \/
  "i"%char ∈ chars (format.internal_order (format.traits fmt)).
Proof.
  intros Hlen. unfold format.is_weights_format. simpl existsb.
  rewrite orb_false_r, orb_true_iff, !negb_true_iff.
  assert (Hone : forall set c, chars set = [c] ->
            (format.find_first_of_set
               (format.internal_order (format.traits fmt)) set =? npos)%N = false
            <-> c ∈ chars (format.internal_order (format.traits fmt))).
  { intros set c Hset. rewrite N.eqb_neq, (find_first_of_set_npos _ _ Hlen), Hset.
    split.
    - intros Hn.
      destruct (decide (c ∈ chars (format.internal_order (format.traits fmt))))
        as [Hin|Hout]; [exact Hin|].
      exfalso. apply Hn. intros c' Hc'. apply list_elem_of_singleton in Hc'.
      subst c'. exact Hout.
    - intros Hin Hall. apply (Hall c); [left | exact Hin]. }
  rewrite (Hone "o" "o"%char eq_refl), (Hone "i" "i"%char eq_refl). reflexivity.
Qed.

(** X4: the index one past the end of [internal_order] reads the
    terminating null character: when [order] holds no null character,
    [internal_to_external] throws [std::invalid_argument] there. *)
Theorem internal_to_external_past_the_end (fmt : format.type) :
  format.representable (format.traits fmt) ->
  Ascii.zero ∉ chars (format.order (format.traits fmt)) ->
  format.internal_to_external fmt
    (N.of_nat (String.length (format.internal_order (format.traits fmt))))
  = Throws (invalid_argument
              "Internal dimension index does not map to external index.").
Proof.
  intros Hrep Hzero. unfold format.internal_to_external, string_at.
  rewrite Nat2N.id, get_chars.
  rewrite (proj2 (lookup_ge_None _ _)) by (rewrite length_chars; lia).
  rewrite N.eqb_refl.
  destruct (find_first_of_spec _ Ascii.zero Hrep) as [Hnone _].
  apply Hnone in Hzero. rewrite Hzero, N.eqb_refl. reflexivity.
Qed.

End WeightsFormat.

Lemma is_weights_format_spec_witness :
  format.is_weights_format (H := Sample.uniform (Sample.descriptor "oiyx" "oixy"))
    format.oiyx = true <->
  "o"%char ∈ chars "oixy" \/ "i"%char ∈ chars "oixy".
Proof.
  apply (is_weights_format_spec
           (H := Sample.uniform (Sample.descriptor "oiyx" "oixy")) format.oiyx).
  vm_compute. reflexivity.
Defined.

Lemma internal_to_external_past_the_end_witness :
  format.internal_to_external
    (H := Sample.uniform (Sample.descriptor "bfyx" "bfxy")) format.bfyx 4
  = Throws (invalid_argument
              "Internal dimension index does not map to external index.").
Proof.
  apply (internal_to_external_past_the_end
           (H := Sample.uniform (Sample.descriptor "bfyx" "bfxy")) format.bfyx).
  - vm_compute. reflexivity.
  - simpl. rewrite !not_elem_of_cons. repeat split; try discriminate.
    apply not_elem_of_nil.
Defined.

(** ** More on the axis conversion *)

Section AxisFacts.
Local Open Scope Z_scope.

Lemma convert_axis_normalized (axis : Z) (rank : N) (n : Z) :
  (rank < 2 ^ 31)%N -> - 2 ^ 31 <= axis < 2 ^ 31 ->
  n = (if axis <? 0 then axis + Z.of_N rank else axis) ->
  concatenation_impl.convert_axis axis rank =
  if (n <? 0) || (Z.of_N rank <=? n)
  then Throws (ie_exception "Concatenation axis exceeds number of dimensions")
  else if n =? 0 then Returns concatenation.BATCH
  else if n =? 1 then Returns concatenation.FEATURE
  else if Z.max (Z.of_N rank) 4 + 1 - n =? 2 then Returns concatenation.X
  else if Z.max (Z.of_N rank) 4 + 1 - n =? 3 then Returns concatenation.Y
  else if Z.max (Z.of_N rank) 4 + 1 - n =? 4 then Returns concatenation.Z
  else if Z.max (Z.of_N rank) 4 + 1 - n =? 5 then Returns concatenation.W
  else Throws (ie_exception ("Unsupported concatenation axis: "
                     ++ DecimalString.NilZero.string_of_int (Z.to_int axis))).
Proof.
  intros Hr Ha ->. apply (convert_axis_in_range axis rank Hr Ha).
Qed.

Ltac axis_cases :=
  repeat match goal with
         | |- context [Z.ltb ?a ?b] => destruct (Z.ltb_spec a b)
         | |- context [Z.leb ?a ?b] => destruct (Z.leb_spec a b)
         | |- context [Z.eqb ?a ?b] => destruct (Z.eqb_spec a b)
         end;
  simpl orb; cbv iota; try lia; try reflexivity.

(** X5: inside the rank, an axis and its negative spelling [axis - rank]
    denote the same kernel axis.  Either both convert, to the same kernel
    axis, or both are refused as unsupported; the two errors then differ
    in their message, which names the axis as it was written. *)
Theorem convert_axis_negative_spelling (axis : Z) (rank : N) :
  (rank < 2 ^ 31)%N -> 0 <= axis < Z.of_N rank ->
  (exists r,
      concatenation_impl.convert_axis axis rank = Returns r /\
      concatenation_impl.convert_axis (axis - Z.of_N rank) rank = Returns r) \/
  (concatenation_impl.convert_axis axis rank
   = Throws (ie_exception ("Unsupported concatenation axis: "
                           ++ DecimalString.NilZero.string_of_int (Z.to_int axis))) /\
   concatenation_impl.convert_axis (axis - Z.of_N rank) rank
   = Throws (ie_exception ("Unsupported concatenation axis: "
                           ++ DecimalString.NilZero.string_of_int
                                (Z.to_int (axis - Z.of_N rank))))).
Proof.
  intros Hr Ha.
  assert (Hr' : Z.of_N rank < 2 ^ 31)
    by (change (2 ^ 31) with (Z.of_N (2 ^ 31)); lia).
  rewrite (convert_axis_normalized (axis - Z.of_N rank) rank axis Hr)
    by (try lia; destruct (Z.ltb_spec (axis - Z.of_N rank) 0); lia).
  rewrite (convert_axis_normalized axis rank axis Hr)
    by (try lia; destruct (Z.ltb_spec axis 0); lia).
  destruct (Z.ltb_spec axis 0); [lia|].
  destruct (Z.leb_spec (Z.of_N rank) axis); [lia|]. simpl orb. cbv iota.
  repeat match goal with
         | |- context [if ?b then _ else _] =>
             destruct b; [left; eexists; split; reflexivity|]
         end.
  right. split; reflexivity.
Qed.

(** X6: for every rank from 4 on, the last logical axis, spelled [-1] or
    [rank - 1], is the kernel axis X. *)
Theorem convert_axis_last_is_x (rank : N) :
  (4 <= rank < 2 ^ 31)%N ->
  concatenation_impl.convert_axis (-1) rank = Returns concatenation.X /\
  concatenation_impl.convert_axis (Z.of_N rank - 1) rank = Returns concatenation.X.
Proof.
  intros [H4 Hr].
  assert (Hr' : 4 <= Z.of_N rank < 2 ^ 31)
    by (change (2 ^ 31) with (Z.of_N (2 ^ 31)); lia).
  split.
  - rewrite (convert_axis_normalized (-1) rank (Z.of_N rank - 1) Hr)
      by (try lia; simpl; lia).
    axis_cases.
  - rewrite (convert_axis_normalized (Z.of_N rank - 1) rank (Z.of_N rank - 1) Hr)
      by (try lia; destruct (Z.ltb_spec (Z.of_N rank - 1) 0); lia).
    axis_cases.
Qed.

(** X7: the kernel has four spatial axes.  For a rank above 6 the spatial
    axes [2 <= axis < rank - 4] lie inside the rank and are nevertheless
    refused, with the message that names the axis. *)
Theorem convert_axis_beyond_four_spatial (axis : Z) (rank : N) :
  (rank < 2 ^ 31)%N -> 2 <= axis < Z.of_N rank - 4 ->
  concatenation_impl.convert_axis axis rank
  = Throws (ie_exception ("Unsupported concatenation axis: "
                          ++ DecimalString.NilZero.string_of_int (Z.to_int axis))).
Proof.
  intros Hr Ha.
  assert (Hr' : Z.of_N rank < 2 ^ 31)
    by (change (2 ^ 31) with (Z.of_N (2 ^ 31)); lia).
  rewrite (convert_axis_normalized axis rank axis Hr)
    by (try lia; destruct (Z.ltb_spec axis 0); lia).
  axis_cases.
Qed.

(** X8: up to rank 6 every axis inside the rank converts, and two
    different axes never convert to the same kernel axis. *)
Theorem convert_axis_injective (rank : N) (a b : Z) :
  (rank <= 6)%N -> 0 <= a < Z.of_N rank -> 0 <= b < Z.of_N rank ->
  (exists r, concatenation_impl.convert_axis a rank = Returns r) /\
  (concatenation_impl.convert_axis a rank = concatenation_impl.convert_axis b rank ->
   a = b).
Proof.
  intros Hr Ha Hb.
  assert (Hrank : rank = 1%N \/ rank = 2%N \/ rank = 3%N \/ rank = 4%N \/
                  rank = 5%N \/ rank = 6%N) by lia.
  assert (Hcases : forall x, 0 <= x < 6 ->
            x = 0 \/ x = 1 \/ x = 2 \/ x = 3 \/ x = 4 \/ x = 5) by (intros; lia).
  destruct (Hcases a ltac:(lia)) as [->|[->|[->|[->|[->| ->]]]]];
    destruct (Hcases b ltac:(lia)) as [->|[->|[->|[->|[->| ->]]]]];
    destruct Hrank as [->|[->|[->|[->|[->| ->]]]]];
    try lia;
    (split; [eexists; reflexivity | first [reflexivity | intros Heq; discriminate Heq]]).
Qed.

End AxisFacts.

Lemma convert_axis_negative_spelling_witness :
  (concatenation_impl.convert_axis 1 4 = Returns concatenation.FEATURE /\
   concatenation_impl.convert_axis (1 - 4) 4 = Returns concatenation.FEATURE) /\
  (concatenation_impl.convert_axis 2 8
   = Throws (ie_exception "Unsupported concatenation axis: 2") /\
   concatenation_impl.convert_axis (2 - 8) 8
   = Throws (ie_exception "Unsupported concatenation axis: -6")).
Proof.
  split.
  - destruct (convert_axis_negative_spelling 1 4 eq_refl ltac:(lia))
      as [(r & Hpos & Hneg)|[Hpos _]]; [|discriminate Hpos].
    injection Hpos as <-. split; [reflexivity | exact Hneg].
  - destruct (convert_axis_negative_spelling 2 8 eq_refl ltac:(lia))
      as [(r & Hpos & _)|Hthrows]; [discriminate Hpos | exact Hthrows].
Defined.

Lemma convert_axis_last_is_x_witness :
  concatenation_impl.convert_axis (-1) 5 = Returns concatenation.X /\
  concatenation_impl.convert_axis (5 - 1) 5 = Returns concatenation.X.
Proof.
  apply (convert_axis_last_is_x 5). split; [lia | reflexivity].
Defined.

Lemma convert_axis_beyond_four_spatial_witness :
  concatenation_impl.convert_axis 2 8
  = Throws (ie_exception "Unsupported concatenation axis: 2").
Proof.
  apply (convert_axis_beyond_four_spatial 2 8); [reflexivity | lia].
Defined.

Lemma convert_axis_injective_witness :
  (exists r, concatenation_impl.convert_axis 2 4 = Returns r) /\
  (concatenation_impl.convert_axis 2 4 = concatenation_impl.convert_axis 3 4 ->
   2%Z = 3%Z).
Proof.
  apply (convert_axis_injective 4 2 3); lia.
Defined.

(** ** What the builders hand to the kernel selector *)

Section Builders.
Context `{DefaultParams}.
Local Open Scope list_scope.

Lemma push_back_converted_inside (layouts : list layout) (from : N) (n : nat)
    (v : list data_tensor) :
  (N.to_nat from + n <= length layouts)%nat ->
  push_back_converted layouts from n v
  = Returns (v ++ map convert_data_tensor (take n (drop (N.to_nat from) layouts))).
Proof.
  revert from v; induction n as [|n IH]; intros from v Hlen; simpl.
  - rewrite app_nil_r. reflexivity.
  - unfold vector_at.
    destruct (lookup_lt_is_Some_2 layouts (N.to_nat from) ltac:(lia)) as [l Hl].
    rewrite Hl. simpl obind. rewrite IH by lia.
    rewrite (drop_S _ _ _ Hl). simpl.
    replace (N.to_nat (from + 1)) with (S (N.to_nat from)) by lia.
    rewrite <- app_assoc. reflexivity.
Qed.

Lemma push_back_converted_outside (layouts : list layout) (from : N) (n : nat)
    (v : list data_tensor) :
  (length layouts < N.to_nat from + n)%nat -> n <> 0%nat ->
  push_back_converted layouts from n v = Undefined.
Proof.
  revert from v; induction n as [|n IH]; intros from v Hlen Hn; [congruence|].
  simpl. unfold vector_at.
  destruct (layouts !! N.to_nat from) as [l|] eqn:Hl; [|reflexivity].
  simpl obind. apply lookup_lt_Some in Hl.
  apply IH; lia.
Qed.

Lemma assign_converted_inside (layouts : list layout) (from : N) (n : nat)
    (v : list data_tensor) :
  (N.to_nat from + n <= length layouts)%nat ->
  (N.to_nat from + n <= length v)%nat ->
  assign_converted layouts from n v
  = Returns (take (N.to_nat from) v
             ++ map convert_data_tensor (take n (drop (N.to_nat from) layouts))
             ++ drop (N.to_nat from + n) v).
Proof.
  revert from v; induction n as [|n IH]; intros from v Hlen Hv; simpl.
  - rewrite Nat.add_0_r, take_drop. reflexivity.
  - unfold vector_at.
    destruct (lookup_lt_is_Some_2 layouts (N.to_nat from) ltac:(lia)) as [l Hl].
    rewrite Hl. simpl obind.
    destruct (N.ltb_spec from (N.of_nat (length v))) as [_|Hge]; [|lia].
    rewrite IH by (rewrite ?length_insert; lia).
    replace (N.to_nat (from + 1)) with (S (N.to_nat from)) by lia.
    rewrite (drop_S _ _ _ Hl). simpl.
    rewrite (take_S_r _ _ (convert_data_tensor l))
      by (apply list_lookup_insert_eq; lia).
    rewrite take_insert_ge by lia.
    rewrite drop_insert_lt by lia.
    rewrite <- app_assoc. simpl.
    replace (S (N.to_nat from + n)) with (N.to_nat from + S n)%nat by lia.
    reflexivity.
Qed.

Lemma assign_converted_outside (layouts : list layout) (from : N) (n : nat)
    (v : list data_tensor) :
  (length layouts < N.to_nat from + n)%nat -> n <> 0%nat ->
  assign_converted layouts from n v = Undefined.
Proof.
  revert from v; induction n as [|n IH]; intros from v Hlen Hn; [congruence|].
  simpl. unfold vector_at.
  destruct (layouts !! N.to_nat from) as [l|] eqn:Hl; [|reflexivity].
  simpl obind. apply lookup_lt_Some in Hl.
  destruct (from <? N.of_nat (length v))%N; [|reflexivity].
  apply IH; lia.
Qed.

Lemma length_resize {A} (v : list A) (n : N) (d : A) :
  length (resize v n d) = N.to_nat n.
Proof.
  unfold resize. rewrite length_app, length_take, length_replicate. lia.
Qed.

End Builders.

Section BuilderFacts.
Context `{DefaultParams}.
Local Open Scope list_scope.

Ltac at_most_once :=
  intros; cbv zeta;
  repeat (rewrite run_step;
          match goal with
          | |- context [match ?c with Returns _ => _ | Throws _ => _ | Undefined => _ end] =>
              destruct c; [ | simpl; lia ..]
          end);
  rewrite run_selection; simpl; lia.

(** X9: no [create] consults the kernel selector more than once. *)
Theorem create_consults_selector_at_most_once :
  (forall sel arg impl_param,
      (length (fst (run sel (quantize_impl.create arg impl_param))) <= 1)%nat) /\
  (forall sel arg impl_param,
      (length (fst (run sel (concatenation_impl.create arg impl_param))) <= 1)%nat) /\
  (forall sel arg impl_param,
      (length (fst (run sel (activation_impl.create arg impl_param))) <= 1)%nat) /\
  (forall sel arg impl_param,
      (length (fst (run sel (extract_image_patches_impl.create arg impl_param))) <= 1)%nat) /\
  (forall sel arg impl_param,
      (length (fst (run sel (space_to_batch_impl.create arg impl_param))) <= 1)%nat) /\
  (forall sel arg impl_param,
      (length (fst (run sel (convert_color_impl.create arg impl_param))) <= 1)%nat) /\
  (forall sel arg,
      (length (fst (run sel (non_max_suppression_gpu.create arg))) <= 1)%nat).
Proof.
  repeat split.
  - unfold quantize_impl.create. at_most_once.
  - intros sel arg impl_param. unfold concatenation_impl.create.
    destruct (concatenation.can_be_optimized arg); [simpl; lia|].
    revert sel arg impl_param. at_most_once.
  - unfold activation_impl.create. at_most_once.
  - unfold extract_image_patches_impl.create. at_most_once.
  - unfold space_to_batch_impl.create. at_most_once.
  - unfold convert_color_impl.create. at_most_once.
  - unfold non_max_suppression_gpu.create. at_most_once.
Qed.

(** X10: an axis that does not convert stops the concatenation builder
    before the kernel selector is consulted: the exception of
    [convert_axis] is the outcome and the selector receives nothing. *)
Theorem create_axis_failure_precedes_selection sel (arg : concatenation.node)
    (impl_param : kernel_impl_params) (e : exception) :
  concatenation.can_be_optimized arg = false ->
  (N.to_nat (concatenation.inputs_count arg) <= length (input_layouts impl_param))%nat ->
  concatenation_impl.convert_axis
    (concatenation.axis (concatenation.get_primitive arg))
    (get_rank (output_layout impl_param)) = Throws e ->
  run sel (concatenation_impl.create arg impl_param) = ([], Throws e).
Proof.
  intros Hopt Hlen Haxis. unfold concatenation_impl.create. rewrite Hopt.
  cbv zeta. rewrite run_step.
  rewrite assign_converted_inside by (rewrite ?length_resize; simpl; lia).
  rewrite run_step, Haxis. reflexivity.
Qed.

(** X11: the request of a concatenation.  When the selector is consulted
    the node is not optimized out, [impl_param] holds a layout for each of
    the [inputs_count] inputs, the input descriptions of the request are
    exactly the conversions of those layouts (whatever the defaults held),
    the axis is the converted axis, and [kernelPerInput] is set. *)
Theorem concatenation_request sel (arg : concatenation.node)
    (impl_param : kernel_impl_params) (req : concatenation_impl.request) :
  fst (run sel (concatenation_impl.create arg impl_param)) = [req] ->
  concatenation.can_be_optimized arg = false /\
  (N.to_nat (concatenation.inputs_count arg) <= length (input_layouts impl_param))%nat /\
  inputs (concatenation.base (fst req))
  = map convert_data_tensor
      (take (N.to_nat (concatenation.inputs_count arg)) (input_layouts impl_param)) /\
  outputs (concatenation.base (fst req))
  = outputs (concatenation.base (get_default_params_concatenation impl_param)) /\
  concatenation_impl.convert_axis
    (concatenation.axis (concatenation.get_primitive arg))
    (get_rank (output_layout impl_param))
  = Returns (concatenation.params_axis (fst req)) /\
  concatenation.kernelPerInput (snd req) = true.
Proof.
  unfold concatenation_impl.create.
  destruct (concatenation.can_be_optimized arg); [intros Hq; discriminate Hq|].
  cbv zeta. rewrite run_step.
  destruct (le_lt_dec (N.to_nat (concatenation.inputs_count arg))
                      (length (input_layouts impl_param))) as [Hle|Hgt].
  - rewrite assign_converted_inside by (rewrite ?length_resize; simpl; lia).
    rewrite run_step.
    destruct (concatenation_impl.convert_axis _ _) as [a| |];
      [|intros Hq; discriminate Hq ..].
    rewrite run_selection. cbn [fst snd]. intros [= <-].
    cbn [fst snd concatenation.base concatenation.params_axis
         concatenation.kernelPerInput inputs outputs set_inputs].
    rewrite (drop_ge (resize _ _ _)) by (rewrite length_resize; lia).
    rewrite app_nil_r. repeat split; exact Hle.
  - rewrite assign_converted_outside by (simpl; lia).
    intros Hq; discriminate Hq.
Qed.

(** X12: the request of a quantize.  When the selector is consulted, the
    input descriptions are the defaults followed by the conversions of the
    layouts 1 .. [inputs_count - 1], the only output description is the
    conversion of the output layout, and [impl_param] holds a layout for
    every input that was read. *)
Theorem quantize_request sel (arg : quantize.node)
    (impl_param : kernel_impl_params) (req : quantize_impl.request) :
  fst (run sel (quantize_impl.create arg impl_param)) = [req] ->
  ((quantize.inputs_count arg <= 1)%N \/
   (N.to_nat (quantize.inputs_count arg) <= length (input_layouts impl_param))%nat) /\
  inputs (quantize.base (fst req))
  = inputs (quantize.base (get_default_params_quantize impl_param))
    ++ map convert_data_tensor
         (take (N.to_nat (quantize.inputs_count arg) - 1)
               (drop 1 (input_layouts impl_param))) /\
  outputs (quantize.base (fst req))
  = [convert_data_tensor (output_layout impl_param)] /\
  quantize.levels (fst req) = quantize.get_levels arg.
Proof.
  unfold quantize_impl.create. cbv zeta. rewrite run_step.
  destruct (le_lt_dec (1 + N.to_nat (quantize.inputs_count arg - 1))
                      (length (input_layouts impl_param))) as [Hle|Hgt].
  - rewrite push_back_converted_inside by (simpl; lia). cbv beta iota.
    rewrite run_selection. cbn [fst snd]. intros [= <-]. simpl.
    replace (N.to_nat (quantize.inputs_count arg - 1))
      with (N.to_nat (quantize.inputs_count arg) - 1)%nat by lia.
    repeat split. lia.
  - destruct (N.to_nat (quantize.inputs_count arg - 1)) as [|n] eqn:Hn.
    + cbn [push_back_converted]. cbv beta iota.
      rewrite run_selection. cbn [fst snd]. intros [= <-]. simpl.
      replace (N.to_nat (quantize.inputs_count arg) - 1)%nat with 0%nat by lia.
      simpl. rewrite app_nil_r. repeat split. left. lia.
    + rewrite push_back_converted_outside by (simpl; lia).
      cbv beta iota. intros Hq; discriminate Hq.
Qed.


(** X14: a parameterized activation whose slope layout holds fewer
    elements than [feature * params_num] fails with the error of the
    size check, and the selector is not consulted. *)
Theorem activation_slope_too_small sel (arg : activation.node)
    (impl_param : kernel_impl_params) (slope_layout : layout)
    (first : base_activation_params) :
  activation.is_parameterized arg = true ->
  input_layouts impl_param !! 1%nat = Some slope_layout ->
  convert_new_activation_func (activation.get_primitive arg)
    (activation.activations (get_default_params_activation impl_param)) !! 0%nat
  = Some first ->
  (count slope_layout
   < size_t_mul (to_size_t (layout_feature (output_layout impl_param)))
                (GetActivationAdditionalParamsNumber (function first)))%N ->
  run sel (activation_impl.create arg impl_param)
  = ([], Throws (cldnn_error (activation.id arg) "Slope layout size count"
                   "Error - not enough data inside additional params buffer")).
Proof.
  intros Hpar Hslope Hfirst Hsmall. unfold activation_impl.create. cbv zeta.
  rewrite run_step, Hpar. unfold vector_at.
  change (N.to_nat 1) with 1%nat. change (N.to_nat 0) with 0%nat.
  rewrite Hslope. simpl obind. rewrite Hfirst. simpl obind.
  unfold CLDNN_ERROR_LESS_THAN.
  destruct (N.ltb_spec (count slope_layout)
              (size_t_mul (to_size_t (layout_feature (output_layout impl_param)))
                 (GetActivationAdditionalParamsNumber (function first))));
    [reflexivity | lia].
Qed.

(** X16: the candidate chosen for a concatenation must bring one kernel
    per input.  When the best candidate does, [create] returns the
    implementation that wraps it, with the flag unset; when it does not,
    [create] fails with the error of the count check. *)
Theorem concatenation_kernel_per_input sel (arg : concatenation.node)
    (impl_param : kernel_impl_params) (req : concatenation_impl.request)
    (best : kernel_data) (others : list kernel_data) :
  fst (run sel (concatenation_impl.create arg impl_param)) = [req] ->
  sel req = best :: others ->
  snd (run sel (concatenation_impl.create arg impl_param))
  = if (concatenation.inputs_count arg =? N.of_nat (length (kernels best)))%N
    then Returns {| concatenation_impl.parent := {| _kernel_data := best |};
                    concatenation_impl._can_be_optimized := false |}
    else Throws (cldnn_error (concatenation.id arg) "Input count"
                   "Error - not enough kernels for concatenation").
Proof.
  unfold concatenation_impl.create.
  destruct (concatenation.can_be_optimized arg) eqn:Hopt;
    [intros Hq; discriminate Hq|].
  cbv zeta.
  repeat (rewrite run_step;
          match goal with
          | |- context [match ?c with Returns _ => _ | Throws _ => _ | Undefined => _ end] =>
              destruct c; [ | intros Hq; discriminate Hq ..]
          end).
  rewrite run_selection. cbn [fst snd]. intros [= <-] Hsel. rewrite Hsel.
  unfold select_first, concatenation_impl.construct,
    concatenation_impl.set_node_params, CLDNN_ERROR_NOT_EQUAL.
  rewrite Hopt. simpl.
  destruct (concatenation.inputs_count arg =? N.of_nat (length (kernels best)))%N;
    reflexivity.
Qed.

End BuilderFacts.

Lemma create_axis_failure_precedes_selection_witness :
  run (fun _ => [Sample.kernel ["k0"; "k1"]])
    (concatenation_impl.create (H0 := Sample.defaults)
       (Sample.concat_node_with_axis 4) Sample.concat_inputs)
  = ([], Throws (ie_exception "Concatenation axis exceeds number of dimensions")).
Proof.
  apply (create_axis_failure_precedes_selection
           (H := Sample.helper) (H0 := Sample.defaults)
           (fun _ => [Sample.kernel ["k0"; "k1"]])
           (Sample.concat_node_with_axis 4) Sample.concat_inputs);
    [reflexivity | simpl; lia | reflexivity].
Defined.

Lemma concatenation_request_witness :
  exists req,
    fst (run (fun _ => [])
           (concatenation_impl.create (H0 := Sample.defaults)
              (Sample.concat_node false) Sample.concat_inputs)) = [req] /\
    inputs (concatenation.base (fst req))
    = [Sample.plain format.bfyx 1 3 4 4; Sample.plain format.bfyx 1 3 4 4] /\
    concatenation.params_axis (fst req) = concatenation.FEATURE /\
    concatenation.kernelPerInput (snd req) = true.
Proof.
  eexists. split; [reflexivity|].
  destruct (concatenation_request (H := Sample.helper) (H0 := Sample.defaults)
              (fun _ => []) (Sample.concat_node false) Sample.concat_inputs
              _ eq_refl) as (_ & _ & Hin & _ & Haxis & Hper).
  split; [exact Hin|]. split; [|exact Hper].
  apply (f_equal (fun o => match o with
                           | Returns a => a
                           | _ => concatenation.FEATURE
                           end)) in Haxis.
  symmetry. exact Haxis.
Defined.

Lemma quantize_request_witness :
  exists req,
    fst (run (fun _ => [])
           (quantize_impl.create (H0 := Sample.defaults)
              Sample.quantize_node Sample.quantize_inputs)) = [req] /\
    inputs (quantize.base (fst req)) = input_layouts Sample.quantize_inputs /\
    outputs (quantize.base (fst req)) = [output_layout Sample.quantize_inputs].
Proof.
  eexists. split; [reflexivity|].
  destruct (quantize_request (H := Sample.helper) (H0 := Sample.defaults)
              (fun _ => []) Sample.quantize_node Sample.quantize_inputs
              _ eq_refl) as (_ & Hin & Hout & _).
  split; [exact Hin | exact Hout].
Defined.


Lemma activation_slope_too_small_witness :
  run (fun _ => [])
    (activation_impl.create (H0 := Sample.defaults_with_activation)
       (Sample.activation_node true) Sample.concat_inputs)
  = ([], Throws (cldnn_error "activation" "Slope layout size count"
                   "Error - not enough data inside additional params buffer")).
Proof.
  apply (activation_slope_too_small
           (H := Sample.helper) (H0 := Sample.defaults_with_activation)
           (fun _ => []) (Sample.activation_node true) Sample.concat_inputs
           (Sample.plain format.bfyx 1 3 4 4) tt);
    reflexivity.
Defined.


Lemma concatenation_kernel_per_input_witness :
  snd (run (fun _ => [Sample.kernel ["only"]])
         (concatenation_impl.create (H0 := Sample.defaults)
            (Sample.concat_node false) Sample.concat_inputs))
  = Throws (cldnn_error "concat" "Input count"
              "Error - not enough kernels for concatenation").
Proof.
  exact (concatenation_kernel_per_input
           (H := Sample.helper) (H0 := Sample.defaults)
           (fun _ => [Sample.kernel ["only"]])
           (Sample.concat_node false) Sample.concat_inputs
           _ (Sample.kernel ["only"]) [] eq_refl eq_refl).
Defined.

(** ** Argument binding *)

Lemma push_back_memory_inside {M} (mem : list M) (from : N) (n : nat)
    (args : kernel_arguments_data.t M) :
  (N.to_nat from + n <= length mem)%nat ->
  push_back_memory (vector_at mem) from n args
  = Returns {| kernel_arguments_data.inputs :=
                 (kernel_arguments_data.inputs args
                  ++ take n (drop (N.to_nat from) mem))%list;
               kernel_arguments_data.outputs := kernel_arguments_data.outputs args;
               kernel_arguments_data.output := kernel_arguments_data.output args;
               kernel_arguments_data.slope := kernel_arguments_data.slope args |}.
Proof.
  revert from args; induction n as [|n IH]; intros from args Hlen; simpl.
  - rewrite app_nil_r. destruct args; reflexivity.
  - unfold vector_at at 1.
    destruct (lookup_lt_is_Some_2 mem (N.to_nat from) ltac:(lia)) as [m Hm].
    rewrite Hm. simpl obind. rewrite IH by lia.
    rewrite (drop_S _ _ _ Hm). simpl.
    replace (N.to_nat (from + 1)) with (S (N.to_nat from)) by lia.
    rewrite <- app_assoc. reflexivity.
Qed.

(** The buffers that [get_arguments] of non_max_suppression binds: every
    input memory, then the optional buffers whose test holds, in the order
    of the tests; the call always returns. *)
Lemma get_arguments_inputs {M} (instance : non_max_suppression_inst.instance M) :
  exists args,
    non_max_suppression_inst.get_arguments instance = Returns args /\
    kernel_arguments_data.output args
    = Some (non_max_suppression_inst.output_memory_ptr instance) /\
    kernel_arguments_data.inputs args
    = (non_max_suppression_inst.inputs_memory instance
       ++ optional_memory (non_max_suppression_inst.has_num_select_per_class instance)
            (non_max_suppression_inst.num_select_per_class_mem instance)
       ++ optional_memory (non_max_suppression_inst.has_iou_threshold instance)
            (non_max_suppression_inst.iou_threshold_mem instance)
       ++ optional_memory (non_max_suppression_inst.has_score_threshold instance)
            (non_max_suppression_inst.score_threshold_mem instance)
       ++ optional_memory (non_max_suppression_inst.has_soft_nms_sigma instance)
            (non_max_suppression_inst.soft_nms_sigma_mem instance)
       ++ optional_memory (non_max_suppression_inst.has_second_output instance)
            (non_max_suppression_inst.second_output_mem instance)
       ++ optional_memory (non_max_suppression_inst.has_third_output instance)
            (non_max_suppression_inst.third_output_mem instance))%list.
Proof.
  unfold non_max_suppression_inst.get_arguments,
    non_max_suppression_inst.input_memory_ptr,
    non_max_suppression_inst.inputs_memory_count.
  rewrite push_back_memory_inside by (simpl; lia).
  rewrite Nat2N.id. change (N.to_nat 0) with 0%nat.
  rewrite drop_0, firstn_all. simpl obind.
  eexists. split; [reflexivity|].
  unfold optional_memory.
  destruct (non_max_suppression_inst.has_num_select_per_class instance),
    (non_max_suppression_inst.has_iou_threshold instance),
    (non_max_suppression_inst.has_score_threshold instance),
    (non_max_suppression_inst.has_soft_nms_sigma instance),
    (non_max_suppression_inst.has_second_output instance),
    (non_max_suppression_inst.has_third_output instance);
    simpl; rewrite <- ?app_assoc, ?app_nil_r; split; reflexivity.
Qed.

Section Binding.
Context `{DefaultParams}.

(** X17: binding against building for non_max_suppression.  For an
    instance that mirrors its node, [get_arguments] binds as many optional
    buffers as [create] described optional tensors exactly when the node
    has both auxiliary outputs or neither of them. *)
Theorem get_arguments_agrees_with_create {M}
    (instance : non_max_suppression_inst.instance M)
    (arg : non_max_suppression.node) :
  non_max_suppression_inst.mirrors instance arg ->
  exists args,
    non_max_suppression_inst.get_arguments instance = Returns args /\
    ((length (kernel_arguments_data.inputs args)
      + length (inputs (non_max_suppression.base
                          (get_default_params_non_max_suppression arg))) + 1
      = length (inputs (non_max_suppression.base
                          (non_max_suppression_gpu.create_params arg)))
        + length (non_max_suppression_inst.inputs_memory instance))%nat
     <-> non_max_suppression.has_second_output arg
         = non_max_suppression.has_third_output arg).
Proof.
  intros (H1 & H2 & H3 & H4 & H5 & H6).
  destruct (get_arguments_inputs instance) as (args & Hargs & _ & Hin).
  exists args. split; [exact Hargs|].
  rewrite Hin, create_params_inputs, H1, H2, H3, H4, H5, H6.
  unfold optional_memory, non_max_suppression_gpu.optional_tensor.
  rewrite !length_app.
  destruct (non_max_suppression.has_num_select_per_class arg),
    (non_max_suppression.has_iou_threshold arg),
    (non_max_suppression.has_score_threshold arg),
    (non_max_suppression.has_soft_nms_sigma arg),
    (non_max_suppression.has_second_output arg),
    (non_max_suppression.has_third_output arg);
    simpl; split; intros Hq; first [reflexivity | lia | discriminate Hq].
Qed.

(** The flag stored at construction decides the binding of the
    slope.  The implementation built from a node binds the slope memory of
    the instance exactly when the node is parameterized, leaves every other
    argument as the base class bound it, and its copy binds the same. *)
Theorem activation_binds_slope {M I} (parent_get_arguments : I -> Z -> kernel_arguments_data.t M)
    (slope_memory : I -> M) (arg : activation.node) (kd : kernel_data)
    (instance : I) (split : Z) :
  exists this,
    activation_impl.construct arg kd = Returns this /\
    activation_inst.get_arguments parent_get_arguments slope_memory this instance split
    = (if activation.is_parameterized arg
       then kernel_arguments_data.set_slope (parent_get_arguments instance split)
              (slope_memory instance)
       else parent_get_arguments instance split) /\
    activation_inst.get_arguments parent_get_arguments slope_memory
      (activation_impl.copy this) instance split
    = activation_inst.get_arguments parent_get_arguments slope_memory
        this instance split.
Proof.
  eexists. split; [reflexivity|]. split; reflexivity.
Qed.

End Binding.

(** ** More on [clone] *)

Section CloneFrame.
Context `{KernelSelectorHelper}.

Lemma copy_construct_same (o : primitive_impl) : copy_construct o = o.
Proof.
  destruct o as [o|o|o|o|o|o|o]; simpl; f_equal;
    try (destruct o as [kd]; reflexivity);
    destruct o as [[kd] flag]; reflexivity.
Qed.

(** X18: [clone] adds one object and disturbs nothing: the clone lives at
    an address that was free, it equals the original (kernel data and
    flag), every other address holds what it held, and the store has grown
    by exactly one object. *)
Theorem clone_frame (h : gmap positive primitive_impl) (this : positive)
    (o : primitive_impl) :
  h !! this = Some o ->
  exists h' cloned,
    clone h this = Returns (h', cloned) /\
    h !! cloned = None /\
    h' !! cloned = Some o /\
    (forall other, other <> cloned -> h' !! other = h !! other) /\
    stdpp.base.size h' = S (stdpp.base.size h).
Proof.
  intros Hthis.
  assert (Hfree : h !! fresh (dom h) = None).
  { apply not_elem_of_dom. apply is_fresh. }
  exists (<[fresh (dom h) := copy_construct o]> h), (fresh (dom h)).
  repeat split.
  - unfold clone, make_unique. rewrite Hthis. reflexivity.
  - exact Hfree.
  - rewrite lookup_insert_eq, copy_construct_same. reflexivity.
  - intros other Hother. apply lookup_insert_ne. congruence.
  - apply map_size_insert_None. exact Hfree.
Qed.

End CloneFrame.

Lemma get_arguments_agrees_with_create_witness :
  exists args,
    non_max_suppression_inst.get_arguments (Sample.nms_instance true false)
    = Returns args /\
    ((length (kernel_arguments_data.inputs args)
      + length (inputs (non_max_suppression.base
                          (get_default_params_non_max_suppression
                             (DefaultParams := Sample.defaults)
                             (Sample.nms_node true false)))) + 1
      = length (inputs (non_max_suppression.base
                          (non_max_suppression_gpu.create_params
                             (H0 := Sample.defaults) (Sample.nms_node true false))))
        + length (non_max_suppression_inst.inputs_memory
                    (Sample.nms_instance true false)))%nat
     <-> non_max_suppression.has_second_output (Sample.nms_node true false)
         = non_max_suppression.has_third_output (Sample.nms_node true false)).
Proof.
  apply (get_arguments_agrees_with_create
           (H := Sample.helper) (H0 := Sample.defaults)
           (Sample.nms_instance true false) (Sample.nms_node true false)).
  repeat split.
Defined.

Lemma clone_frame_witness :
  exists h' cloned,
    clone Sample.store 1%positive = Returns (h', cloned) /\
    Sample.store !! cloned = None /\
    h' !! cloned = Some Sample.original /\
    (forall other, other <> cloned -> h' !! other = Sample.store !! other) /\
    stdpp.base.size h' = S (stdpp.base.size Sample.store).
Proof.
  apply (clone_frame (H := Sample.helper) Sample.store 1%positive Sample.original).
  reflexivity.
Defined.

(** ** Dilation and padding of the convolution descriptor *)

Section Padding.
Local Open Scope Z_scope.

Lemma int64_result_returns (z z' : Z) : int64_result z = Returns z' -> z' = z.
Proof.
  unfold int64_result. destruct ((- 2 ^ 63 <=? z) && (z <? 2 ^ 63)); congruence.
Qed.

Lemma int_result_returns (z z' : Z) : int_result z = Returns z' -> z' = z.
Proof.
  unfold int_result. destruct ((- 2 ^ 31 <=? z) && (z <? 2 ^ 31)); congruence.
Qed.

Lemma vector_at_returns {A} (v : list A) (i : N) (a : A) :
  vector_at v i = Returns a -> v !! N.to_nat i = Some a.
Proof. unfold vector_at. destruct (v !! N.to_nat i); congruence. Qed.

Lemma to_int_small (i : N) : (i < 2 ^ 31)%N -> to_int i = Z.of_N i.
Proof.
  intros Hi. unfold to_int.
  assert (0 <= Z.of_N i < 2 ^ 31) by (change (2 ^ 31) with (Z.of_N (2 ^ 31)); lia).
  rewrite Z.mod_small by lia.
  destruct (Z.ltb_spec (Z.of_N i) (2 ^ 31)); lia.
Qed.

Lemma to_size_t_small (z : Z) : 0 <= z < 2 ^ 64 -> to_size_t z = Z.to_N z.
Proof.
  intros Hz. unfold to_size_t, size_t_modulus.
  change (Z.of_N (2 ^ 64)) with (2 ^ 64). rewrite Z.mod_small by lia. reflexivity.
Qed.

Ltac bind_step H x Hx :=
  match type of H with
  | obind ?c _ = Returns _ =>
      destruct c as [x| |] eqn:Hx; cbn [obind] in H; try discriminate H
  end.

Lemma adjust_from_spec (stride pad_l input_dims output_dims weights_dims : list Z)
    (grouped_weights : bool) (n : nat) :
  forall (i : N) (st st' : onednn_descriptor.dims_state),
    Z.of_N i + Z.of_nat n < 2 ^ 31 - 3 ->
    onednn_descriptor.adjust_conv_dilation_pad_from stride pad_l input_dims
      output_dims weights_dims grouped_weights i n st = Returns st' ->
    length (onednn_descriptor.dilation st') = length (onednn_descriptor.dilation st) /\
    length (onednn_descriptor.pad_r st') = length (onednn_descriptor.pad_r st) /\
    (forall j, (j < N.to_nat i \/ N.to_nat i + n <= j)%nat ->
       onednn_descriptor.dilation st' !! j = onednn_descriptor.dilation st !! j /\
       onednn_descriptor.pad_r st' !! j = onednn_descriptor.pad_r st !! j) /\
    (forall j, (N.to_nat i <= j < N.to_nat i + n)%nat ->
       exists d d' r,
         onednn_descriptor.dilation st !! j = Some d /\
         onednn_descriptor.dilation st' !! j = Some d' /\
         onednn_descriptor.pad_r st' !! j = Some r /\
         onednn_descriptor.adjusted stride pad_l input_dims output_dims weights_dims
           grouped_weights j d d' r).
Proof.
  induction n as [|n IH]; intros i st st' Hbound Hrun.
  - simpl in Hrun. injection Hrun as <-.
    repeat split; intros j Hj; lia.
  - cbn [onednn_descriptor.adjust_conv_dilation_pad_from] in Hrun.
    bind_step Hrun d Hd. bind_step Hrun d' Hd'.
    bind_step Hrun off Hoff. bind_step Hrun os Hos. bind_step Hrun is' His.
    bind_step Hrun ks Hks. bind_step Hrun ks1 Hks1. bind_step Hrun d1 Hd1.
    bind_step Hrun pr Hprod. bind_step Hrun kr Hkr. bind_step Hrun os1 Hos1.
    bind_step Hrun s Hs. bind_step Hrun a Ha. bind_step Hrun b Hb.
    bind_step Hrun c Hc. bind_step Hrun pl Hpl. bind_step Hrun r Hr.
    destruct (N.ltb_spec i (N.of_nat (length (onednn_descriptor.pad_r st))))
      as [Hi|Hi]; [|discriminate Hrun].
    apply int64_result_returns in Hd', Hks1, Hd1, Hprod, Hkr, Hos1, Ha, Hb, Hc, Hr.
    apply int_result_returns in Hoff.
    apply vector_at_returns in Hd, Hos, His, Hks, Hs, Hpl.
    assert (Hi31 : (i < 2 ^ 31)%N).
    { change (2 ^ 31)%N with 2147483648%N. lia. }
    rewrite (to_int_small i Hi31) in Hoff.
    assert (Hidx2 : N.to_nat (size_t_add 2 i) = (2 + N.to_nat i)%nat).
    { unfold size_t_add, size_t_modulus. rewrite N.mod_small; [lia|].
      change (2 ^ 31)%N with 2147483648%N in Hi31.
      change (2 ^ 64)%N with 18446744073709551616%N. lia. }
    rewrite Hidx2 in Hos, His.
    assert (Hidxw : N.to_nat (to_size_t off)
                    = ((if grouped_weights then 3 else 2) + N.to_nat i)%nat).
    { change (2 ^ 31)%N with 2147483648%N in Hi31.
      rewrite to_size_t_small by (subst off; destruct grouped_weights; lia).
      subst off. destruct grouped_weights; lia. }
    rewrite Hidxw in Hks.
    apply IH in Hrun; [|lia]. cbn [onednn_descriptor.dilation onednn_descriptor.pad_r] in Hrun.
    destruct Hrun as (Hlen1 & Hlen2 & Hout & Hin).
    rewrite !length_insert in *.
    split; [exact Hlen1|]. split; [exact Hlen2|]. split.
    + intros j Hj. destruct (Hout j ltac:(lia)) as [Hj1 Hj2].
      rewrite Hj1, Hj2. rewrite !list_lookup_insert_ne by lia. split; reflexivity.
    + intros j Hj. destruct (decide (j = N.to_nat i)) as [->|Hne].
      * destruct (Hout (N.to_nat i) ltac:(lia)) as [Hj1 Hj2].
        exists d, d', r. rewrite Hj1, Hj2.
        rewrite !list_lookup_insert_eq
          by (try (apply lookup_lt_Some in Hd); lia).
        repeat split; try assumption.
        unfold onednn_descriptor.adjusted.
        exists os, is', ks, s, pl. repeat split; try assumption.
        subst. ring.
      * destruct (Hin j ltac:(lia)) as (dj & dj' & rj & Hdj & Hdj' & Hrj & Hadj).
        rewrite list_lookup_insert_ne in Hdj by lia.
        exists dj, dj', rj. repeat split; assumption.
Qed.


(** X19: the right padding makes the sizes fit.  When the loop returns,
    every position [j] of the dilation holds the one-based dilation less
    one, and the right padding [r] written there satisfies
    [(os - 1) * stride = is + pad_l + r - kernel_range], where
    [kernel_range = 1 + (ks - 1) * dilation] is taken with the dilation as
    it was given; the paddings beyond the dilations are left as they were. *)
Theorem adjust_conv_dilation_pad_fits (stride dilation pad : list Z)
    (input_dims output_dims weights_dims : list Z) (grouped_weights : bool)
    (st : onednn_descriptor.dims_state) :
  Z.of_nat (length dilation) < 2 ^ 31 - 3 ->
  onednn_descriptor.adjust_conv_dilation_pad stride dilation pad input_dims
    output_dims weights_dims grouped_weights = Returns st ->
  length (onednn_descriptor.dilation st) = length dilation /\
  length (onednn_descriptor.pad_r st) = length pad /\
  (forall j, (length dilation <= j)%nat ->
     onednn_descriptor.pad_r st !! j = pad !! j) /\
  (forall j d, dilation !! j = Some d ->
     exists r os is' ks s pl,
       onednn_descriptor.dilation st !! j = Some (d - 1) /\
       onednn_descriptor.pad_r st !! j = Some r /\
       output_dims !! (2 + j)%nat = Some os /\
       input_dims !! (2 + j)%nat = Some is' /\
       weights_dims !! ((if grouped_weights then 3 else 2) + j)%nat = Some ks /\
       stride !! j = Some s /\ pad !! j = Some pl /\
       (os - 1) * s = is' + pl + r - (1 + (ks - 1) * d)).
Proof.
  intros Hbound Hrun. unfold onednn_descriptor.adjust_conv_dilation_pad in Hrun.
  apply adjust_from_spec in Hrun; [|simpl; lia].
  cbn [onednn_descriptor.dilation onednn_descriptor.pad_r] in Hrun.
  destruct Hrun as (Hlen1 & Hlen2 & Hout & Hin).
  split; [exact Hlen1|]. split; [exact Hlen2|]. split.
  - intros j Hj. apply (Hout j). simpl. lia.
  - intros j d Hd.
    destruct (Hin j) as (d0 & d' & r & Hd0 & Hd' & Hr & Hadj).
    { apply lookup_lt_Some in Hd. simpl. lia. }
    rewrite Hd in Hd0. injection Hd0 as <-.
    destruct Hadj as (os & is' & ks & s & pl & Hos & His & Hks & Hs & Hpl & -> & Heq).
    exists r, os, is', ks, s, pl. repeat split; assumption.
Qed.

End Padding.

Lemma adjust_conv_dilation_pad_fits_witness :
  onednn_descriptor.adjust_conv_dilation_pad [1; 1]%Z [1; 1]%Z [1; 1]%Z
    [1; 16; 5; 5]%Z [1; 16; 5; 5]%Z [16; 1; 1; 3; 3]%Z true
  = Returns {| onednn_descriptor.dilation := [0; 0]%Z;
               onednn_descriptor.pad_r := [1; 1]%Z |} /\
  exists r os is' ks s pl,
    [0; 0]%Z !! 1%nat = Some (1 - 1)%Z /\
    [1; 1]%Z !! 1%nat = Some r /\
    [1; 16; 5; 5]%Z !! 3%nat = Some os /\
    [1; 16; 5; 5]%Z !! 3%nat = Some is' /\
    [16; 1; 1; 3; 3]%Z !! 4%nat = Some ks /\
    [1; 1]%Z !! 1%nat = Some s /\ [1; 1]%Z !! 1%nat = Some pl /\
    ((os - 1) * s = is' + pl + r - (1 + (ks - 1) * 1))%Z.
Proof.
  split; [reflexivity|].
  exact (proj2 (proj2 (proj2
           (adjust_conv_dilation_pad_fits [1; 1]%Z [1; 1]%Z [1; 1]%Z
              [1; 16; 5; 5]%Z [1; 16; 5; 5]%Z [16; 1; 1; 3; 3]%Z true
              {| onednn_descriptor.dilation := [0; 0]%Z;
                 onednn_descriptor.pad_r := [1; 1]%Z |}
              ltac:(simpl; lia) eq_refl))) 1%nat 1%Z eq_refl).
Defined.

(** ** The canonicalized weights *)

Section CanonicalWeights.
Context `{format.Traits} `{KernelSelectorHelper}.

(** X20: what the canonicalization of grouped weights never does and
    always achieves.  The result keeps the batch, feature and group
    extents, its spatial extents are the given ones up to order, and it no
    longer shows a leading spatial extent 1 followed by an extent other
    than 1. *)
Theorem canonical_weights_not_degenerate (impl_params : kernel_impl_params)
    (prim : onednn.convolution) (input_layout weights_layout : layout)
    (s0 s1 : Z) :
  get_input_layout impl_params 0 = Returns input_layout ->
  get_input_layout impl_params 1 = Returns weights_layout ->
  spatial (size weights_layout) !! 0%nat = Some s0 ->
  spatial (size weights_layout) !! 1%nat = Some s1 ->
  (format.is_grouped (format weights_layout) || onednn.grouped_weights_shape prim)
  && (get_rank input_layout =? get_rank weights_layout)%N = true ->
  exists result t0 t1,
    onednn.get_convolution_primitive_descriptor_weights_layout impl_params prim
    = Returns result /\
    batch (size result) = batch (size weights_layout) /\
    feature (size result) = feature (size weights_layout) /\
    group (size result) = group (size weights_layout) /\
    spatial (size result) ≡ₚ spatial (size weights_layout) /\
    spatial (size result) !! 0%nat = Some t0 /\
    spatial (size result) !! 1%nat = Some t1 /\
    ~ (t0 = 1%Z /\ t1 <> 1%Z).
Proof.
  intros Hin Hw Hs0 Hs1 Hcond.
  unfold onednn.get_convolution_primitive_descriptor_weights_layout.
  rewrite Hin, Hw. simpl obind. rewrite Hcond.
  unfold get_tensor, vector_at.
  change (N.to_nat 0) with 0%nat. change (N.to_nat 1) with 1%nat.
  rewrite Hs0. simpl obind.
  destruct (spatial (size weights_layout)) as [|a [|b rest]] eqn:Hsp;
    try discriminate.
  injection Hs0 as ->. injection Hs1 as ->.
  destruct (Z.eqb_spec s0 1) as [->|Hne0].
  - simpl obind. destruct (Z.eqb_spec s1 1) as [->|Hne1]; simpl.
    + exists (set_format weights_layout
                (format.get_default_format (size_t_add (get_rank weights_layout) 1)
                   true true)), 1%Z, 1%Z.
      simpl. rewrite Hsp. repeat split; try reflexivity. intros [_ Hq]. congruence.
    + eexists _, s1, 1%Z. split; [reflexivity|]. simpl.
      repeat split; try reflexivity.
      * apply Permutation_swap.
      * intros [Hq _]. congruence.
  - simpl. eexists _, s0, s1. split; [reflexivity|]. simpl. rewrite Hsp.
    repeat split; try reflexivity. intros [Hq _]. congruence.
Qed.

End CanonicalWeights.

Lemma canonical_weights_not_degenerate_witness :
  exists result t0 t1,
    onednn.get_convolution_primitive_descriptor_weights_layout
      (H := Sample.ungrouped_table) (H0 := Sample.helper)
      (Sample.conv_inputs 3 1) Sample.grouped_convolution
    = Returns result /\
    batch (size result) = batch (size (Sample.plain format.bfyx 16 1 3 1)) /\
    feature (size result) = feature (size (Sample.plain format.bfyx 16 1 3 1)) /\
    group (size result) = group (size (Sample.plain format.bfyx 16 1 3 1)) /\
    spatial (size result) ≡ₚ spatial (size (Sample.plain format.bfyx 16 1 3 1)) /\
    spatial (size result) !! 0%nat = Some t0 /\
    spatial (size result) !! 1%nat = Some t1 /\
    ~ (t0 = 1%Z /\ t1 <> 1%Z).
Proof.
  apply (canonical_weights_not_degenerate
           (H := Sample.ungrouped_table) (H0 := Sample.helper)
           (Sample.conv_inputs 3 1) Sample.grouped_convolution
           (Sample.plain format.bfyx 1 16 5 5) (Sample.plain format.bfyx 16 1 3 1)
           1 3); reflexivity.
Defined.

(** ** The cache guard *)

Section CacheGuard.
Import cache_guard.
Local Open Scope list_scope.

Lemma users_app (item : nat) (gs : list guard) (g : guard) :
  users item (gs ++ [g]) = (users item gs + (if uses item g then 1 else 0))%nat.
Proof. induction gs as [|g' gs IH]; simpl; [lia | rewrite IH; lia]. Qed.

Lemma users_insert (item : nat) (gs : list guard) (i : nat) (old new : guard) :
  gs !! i = Some old ->
  (users item (<[i := new]> gs) + (if uses item old then 1 else 0)
   = users item gs + (if uses item new then 1 else 0))%nat.
Proof.
  revert i; induction gs as [|g gs IH]; intros [|i] Hi; simpl in *;
    try discriminate.
  - injection Hi as ->. lia.
  - specialize (IH i Hi). lia.
Qed.

Lemma users_insert_same (item : nat) (gs : list guard) (g : nat) (old new : guard) :
  gs !! g = Some old -> uses item old = uses item new ->
  users item (<[g := new]> gs) = users item gs.
Proof.
  intros Hg Hu. pose proof (users_insert item gs g old new Hg) as Hi.
  rewrite Hu in Hi. lia.
Qed.

Lemma users_positive (item : nat) (gs : list guard) (i : nat) (g : guard) :
  gs !! i = Some g -> uses item g = true -> (1 <= users item gs)%nat.
Proof.
  revert i; induction gs as [|g' gs IH]; intros [|i] Hi Hu; simpl in *;
    try discriminate.
  - injection Hi as ->. rewrite Hu. lia.
  - specialize (IH i Hi Hu). lia.
Qed.

Lemma users_none (item : nat) (gs : list guard) :
  (forall i g, gs !! i = Some g -> uses item g = false) -> users item gs = 0%nat.
Proof.
  induction gs as [|g gs IH]; intros Hall; simpl; [reflexivity|].
  rewrite (Hall 0%nat g eq_refl). rewrite IH; [reflexivity|].
  intros i g' Hi. apply (Hall (S i) g' Hi).
Qed.

Lemma uses_user (st : guard) (hash : string) (item item' : nat) :
  user_of st = Some (hash, item) -> uses item' st = Nat.eqb item item'.
Proof. unfold uses. intros ->. reflexivity. Qed.

Lemma uses_not_user (st : guard) (item : nat) :
  user_of st = None -> uses item st = false.
Proof. unfold uses. intros ->. reflexivity. Qed.

Lemma lookup_insert_guard (gs : list guard) (g g' : nat) (new st : guard) :
  <[g := new]> gs !! g' = Some st ->
  (g' = g /\ st = new) \/ (g' <> g /\ gs !! g' = Some st).
Proof.
  intros Hl. destruct (decide (g' = g)) as [->|Hne].
  - left. split; [reflexivity|].
    destruct (decide (g < length gs)%nat) as [Hlt|Hge].
    + rewrite list_lookup_insert_eq in Hl by exact Hlt. congruence.
    + rewrite list_insert_ge in Hl by lia.
      apply lookup_lt_Some in Hl. lia.
  - right. split; [exact Hne|]. rewrite list_lookup_insert_ne in Hl by congruence.
    exact Hl.
Qed.

Lemma lookup_app_guard (gs : list guard) (new st : guard) (g : nat) :
  (gs ++ [new]) !! g = Some st ->
  gs !! g = Some st \/ (g = length gs /\ st = new).
Proof.
  intros Hl. destruct (decide (g < length gs)%nat) as [Hlt|Hge].
  - left. rewrite lookup_app_l in Hl by exact Hlt. exact Hl.
  - right. rewrite lookup_app_r in Hl by lia.
    destruct (g - length gs)%nat as [|k] eqn:Hk; simpl in Hl; [|discriminate].
    split; [lia | congruence].
Qed.

Lemma invariant_initial : invariant initial.
Proof.
  split; simpl; intros;
    repeat match goal with
           | Hl : ∅ !! _ = Some _ |- _ => rewrite lookup_empty in Hl; discriminate Hl
           | Hl : [] !! _ = Some _ |- _ => rewrite lookup_nil in Hl; discriminate Hl
           end.
Qed.

Lemma exists_insert {A} (f : guard -> option A) (gs : list guard) (g : nat)
    (old new : guard) (a : A) :
  gs !! g = Some old ->
  (f old = Some a -> f new = Some a) ->
  (exists g0 st, gs !! g0 = Some st /\ f st = Some a) ->
  exists g0 st, <[g := new]> gs !! g0 = Some st /\ f st = Some a.
Proof.
  intros Hg Hkeep (g0 & st & Hg0 & Hf).
  destruct (decide (g0 = g)) as [->|Hne].
  - exists g, new. split.
    + apply list_lookup_insert_eq. eapply lookup_lt_Some; eauto.
    + apply Hkeep. congruence.
  - exists g0, st. split; [|exact Hf].
    rewrite list_lookup_insert_ne by congruence. exact Hg0.
Qed.

Lemma exists_app {A} (f : guard -> option A) (gs : list guard) (new : guard) (a : A) :
  (exists g0 st, gs !! g0 = Some st /\ f st = Some a) ->
  exists g0 st, (gs ++ [new]) !! g0 = Some st /\ f st = Some a.
Proof.
  intros (g0 & st & Hg0 & Hf). exists g0, st. split; [|exact Hf].
  rewrite lookup_app_l by (eapply lookup_lt_Some; eauto). exact Hg0.
Qed.

Lemma invariant_enter (s s' : state) (hash : string) :
  invariant s -> exec (get_hash_lock_enter hash) s = Some (Returns s') ->
  invariant s'.
Proof.
  intros [HA HC HU HN HO HW HP]. destruct s as [tbl cnt lck nxt gs].
  unfold exec, table_item; simpl in *.
  destruct (tbl !! hash) as [item|] eqn:Htbl; simpl.
  - destruct (HA _ _ Htbl) as [[c Hc] Hlt]. rewrite Hc. intros [= <-].
    split; simpl.
    + intros h it Hh. destruct (HA _ _ Hh) as [Hs Hl]. split; [|exact Hl].
      destruct (decide (item = it)) as [->|Hne].
      * rewrite lookup_insert_eq. eauto.
      * rewrite lookup_insert_ne by exact Hne. exact Hs.
    + exact HC.
    + intros g st h it Hg Hu. apply lookup_app_guard in Hg as [Hg|[_ ->]]; [eauto|].
      simpl in Hu. injection Hu as <- <-. exact Htbl.
    + intros it c' Hc'. rewrite users_app.
      rewrite (uses_user (Created hash item) hash item it eq_refl).
      destruct (decide (item = it)) as [->|Hne].
      * rewrite lookup_insert_eq in Hc'. injection Hc' as <-.
        rewrite Nat.eqb_refl. rewrite (HN _ _ Hc). lia.
      * rewrite lookup_insert_ne in Hc' by exact Hne.
        apply Nat.eqb_neq in Hne. rewrite Hne. rewrite (HN _ _ Hc'). lia.
    + intros g st h it Hg Hh. apply lookup_app_guard in Hg as [Hg|[_ ->]]; [eauto|].
      discriminate Hh.
    + intros it g Hl. destruct (HW _ _ Hl) as [Hb Hex]. split; [exact Hb|].
      destruct Hex as (st & h & Hg & Hh). exists st, h. split; [|exact Hh].
      rewrite lookup_app_l by (eapply lookup_lt_Some; eauto). exact Hg.
    + intros h it Hh Hz.
      destruct (decide (item = it)) as [->|Hne].
      * rewrite lookup_insert_eq in Hz. injection Hz as Hz.
        pose proof (HN _ _ Hc). lia.
      * rewrite lookup_insert_ne in Hz by exact Hne.
        apply exists_app. eauto.
  - rewrite lookup_insert_eq. intros [= <-].
    assert (Hfresh : forall h it, tbl !! h = Some it -> it <> nxt).
    { intros h it Hh. destruct (HA _ _ Hh). lia. }
    assert (Hnone : users nxt gs = 0%nat).
    { apply users_none. intros i g Hg. unfold uses.
      destruct (user_of g) as [[h it]|] eqn:Hu; [|reflexivity].
      apply Nat.eqb_neq. apply (Hfresh h). eapply HU; eauto. }
    split; simpl.
    + intros h it Hh. destruct (decide (hash = h)) as [->|Hne].
      * rewrite lookup_insert_eq in Hh. injection Hh as <-.
        rewrite lookup_insert_eq. split; [eauto | lia].
      * rewrite lookup_insert_ne in Hh by exact Hne.
        destruct (HA _ _ Hh) as [Hs Hl]. split; [|lia].
        rewrite !lookup_insert_ne by (apply not_eq_sym, (Hfresh h), Hh). exact Hs.
    + intros h1 h2 it H1 H2.
      destruct (decide (hash = h1)) as [<-|Hne1];
        destruct (decide (hash = h2)) as [<-|Hne2]; try reflexivity.
      * rewrite lookup_insert_eq in H1. rewrite lookup_insert_ne in H2 by exact Hne2.
        injection H1 as <-. exfalso. apply (Hfresh _ _ H2). reflexivity.
      * rewrite lookup_insert_eq in H2. rewrite lookup_insert_ne in H1 by exact Hne1.
        injection H2 as <-. exfalso. apply (Hfresh _ _ H1). reflexivity.
      * rewrite lookup_insert_ne in H1, H2 by assumption. eapply HC; eauto.
    + intros g st h it Hg Hu. apply lookup_app_guard in Hg as [Hg|[_ ->]].
      * pose proof (HU _ _ _ _ Hg Hu) as Hh.
        rewrite lookup_insert_ne by congruence. exact Hh.
      * simpl in Hu. injection Hu as <- <-. apply lookup_insert_eq.
    + intros it c' Hc'. rewrite users_app.
      rewrite (uses_user (Created hash nxt) hash nxt it eq_refl).
      destruct (decide (nxt = it)) as [<-|Hne].
      * rewrite lookup_insert_eq in Hc'. injection Hc' as <-.
        rewrite Nat.eqb_refl, Hnone. reflexivity.
      * rewrite !lookup_insert_ne in Hc' by exact Hne.
        apply Nat.eqb_neq in Hne. rewrite Hne. rewrite (HN _ _ Hc'). lia.
    + intros g st h it Hg Hh. apply lookup_app_guard in Hg as [Hg|[_ ->]]; [eauto|].
      discriminate Hh.
    + intros it g Hl. destruct (HW _ _ Hl) as [Hb Hex]. split; [lia|].
      destruct Hex as (st & h & Hg & Hh). exists st, h. split; [|exact Hh].
      rewrite lookup_app_l by (eapply lookup_lt_Some; eauto). exact Hg.
    + intros h it Hh Hz.
      destruct (decide (hash = h)) as [->|Hne].
      * rewrite lookup_insert_eq in Hh. injection Hh as <-.
        rewrite lookup_insert_eq in Hz. discriminate.
      * rewrite lookup_insert_ne in Hh by exact Hne.
        rewrite !lookup_insert_ne in Hz by (apply not_eq_sym, (Hfresh h), Hh).
        apply exists_app. eauto.
Qed.

Lemma invariant_perform_lock (s s' : state) (g : nat) :
  invariant s -> exec (perform_lock g) s = Some (Returns s') -> invariant s'.
Proof.
  intros [HA HC HU HN HO HW HP]. destruct s as [tbl cnt lck nxt gs].
  unfold exec; simpl in *.
  destruct (gs !! g) as [[h it|h it|h it|h it|h it|h|]|] eqn:Hg; try discriminate.
  destruct (lck !! it) as [owner|] eqn:Hlck; [discriminate|].
  intros [= <-].
  assert (Hlt : (g < length gs)%nat) by (eapply lookup_lt_Some; eauto).
  assert (Htbl : tbl !! h = Some it) by (eapply HU; eauto; reflexivity).
  split; simpl.
  - exact HA.
  - exact HC.
  - intros g' st h' it' Hg' Hu.
    apply lookup_insert_guard in Hg' as [[-> ->]|[_ Hg']]; [|eauto].
    simpl in Hu. injection Hu as <- <-. exact Htbl.
  - intros it' c Hc.
    rewrite (users_insert_same it' gs g _ (Locked h it) Hg eq_refl). auto.
  - intros g' st h' it' Hg' Hh.
    apply lookup_insert_guard in Hg' as [[-> ->]|[Hne Hg']].
    + simpl in Hh. injection Hh as <- <-. apply lookup_insert_eq.
    + pose proof (HO _ _ _ _ Hg' Hh) as Hown.
      rewrite lookup_insert_ne by congruence. exact Hown.
  - intros it' g' Hl. destruct (decide (it = it')) as [<-|Hne].
    + rewrite lookup_insert_eq in Hl. injection Hl as <-.
      split; [apply (HA h it Htbl)|].
      exists (Locked h it), h. split; [|reflexivity].
      apply list_lookup_insert_eq. exact Hlt.
    + rewrite lookup_insert_ne in Hl by exact Hne.
      destruct (HW _ _ Hl) as [Hb (st & h' & Hg' & Hh)]. split; [exact Hb|].
      exists st, h'. split; [|exact Hh].
      rewrite list_lookup_insert_ne; [exact Hg'|].
      intros <-. rewrite Hg in Hg'. injection Hg' as <-. discriminate Hh.
  - intros h' it' Hh Hz. eapply exists_insert; eauto; discriminate.
Qed.

Lemma invariant_perform_lock_throws (s s' : state) (g : nat) :
  invariant s -> exec (perform_lock_throws g) s = Some (Returns s') -> invariant s'.
Proof.
  intros [HA HC HU HN HO HW HP]. destruct s as [tbl cnt lck nxt gs].
  unfold exec; simpl in *.
  destruct (gs !! g) as [[h it|h it|h it|h it|h it|h|]|] eqn:Hg; try discriminate.
  intros [= <-]. split; simpl.
  - exact HA.
  - exact HC.
  - intros g' st h' it' Hg' Hu.
    apply lookup_insert_guard in Hg' as [[-> ->]|[_ Hg']]; [|eauto].
    simpl in Hu. injection Hu as <- <-. eapply HU; eauto; reflexivity.
  - intros it' c Hc.
    rewrite (users_insert_same it' gs g _ (Failed h it) Hg eq_refl). auto.
  - intros g' st h' it' Hg' Hh.
    apply lookup_insert_guard in Hg' as [[-> ->]|[Hne Hg']]; [discriminate Hh|eauto].
  - intros it' g' Hl.
    destruct (HW _ _ Hl) as [Hb (st & h' & Hg' & Hh)]. split; [exact Hb|].
    exists st, h'. split; [|exact Hh].
    rewrite list_lookup_insert_ne; [exact Hg'|].
    intros <-. rewrite Hg in Hg'. injection Hg' as <-. discriminate Hh.
  - intros h' it' Hh Hz. eapply exists_insert; eauto; discriminate.
Qed.

(** The decrement of the destructor, for an entry that is counted. *)
Lemma invariant_decrement (s s' : state) (g : nat) (old after : guard)
    (h : string) (it : nat) :
  invariant s ->
  guards s !! g = Some old -> user_of old = Some (h, it) ->
  user_of after = None -> holds after = holds old -> pending after = Some h ->
  decrement s g it after = Some (Returns s') -> invariant s'.
Proof.
  intros [HA HC HU HN HO HW HP] Hg Hold Huser Hholds Hpend.
  destruct s as [tbl cnt lck nxt gs]. unfold decrement; simpl in *.
  destruct (cnt !! it) as [c|] eqn:Hcnt; [|discriminate].
  intros [= <-].
  assert (Hlt : (g < length gs)%nat) by (eapply lookup_lt_Some; eauto).
  assert (Htbl : tbl !! h = Some it) by (eapply HU; eauto).
  split; simpl.
  - intros h' it' Hh. destruct (HA _ _ Hh) as [Hs Hl]. split; [|exact Hl].
    destruct (decide (it = it')) as [->|Hne].
    + rewrite lookup_insert_eq. eauto.
    + rewrite lookup_insert_ne by exact Hne. exact Hs.
  - exact HC.
  - intros g' st h' it' Hg' Hu.
    apply lookup_insert_guard in Hg' as [[-> ->]|[_ Hg']]; [congruence|eauto].
  - intros it' c' Hc'.
    pose proof (users_insert it' gs g old after Hg) as Hins.
    rewrite (uses_user old h it it' Hold), (uses_not_user after it' Huser) in Hins.
    destruct (decide (it = it')) as [<-|Hne].
    + rewrite lookup_insert_eq in Hc'. injection Hc' as <-.
      rewrite Nat.eqb_refl in Hins. rewrite (HN _ _ Hcnt). lia.
    + rewrite lookup_insert_ne in Hc' by exact Hne.
      apply Nat.eqb_neq in Hne. rewrite Hne in Hins.
      rewrite (HN _ _ Hc'). lia.
  - intros g' st h' it' Hg' Hh.
    apply lookup_insert_guard in Hg' as [[-> ->]|[_ Hg']]; [|eauto].
    rewrite Hholds in Hh. eauto.
  - intros it' g' Hl.
    destruct (HW _ _ Hl) as [Hb (st & h' & Hg' & Hh)]. split; [exact Hb|].
    destruct (decide (g' = g)) as [->|Hne].
    + exists after, h'. split; [apply list_lookup_insert_eq; exact Hlt|].
      rewrite Hholds. congruence.
    + exists st, h'. split; [|exact Hh].
      rewrite list_lookup_insert_ne by congruence. exact Hg'.
  - intros h' it' Hh Hz.
    destruct (decide (it = it')) as [<-|Hne].
    + assert (h' = h) as -> by (eapply HC; eauto).
      exists g, after. split; [apply list_lookup_insert_eq; exact Hlt | exact Hpend].
    + rewrite lookup_insert_ne in Hz by exact Hne.
      eapply exists_insert; eauto.
      destruct old; simpl in *; try discriminate.
Qed.

Lemma invariant_release_count (s s' : state) (g : nat) :
  invariant s -> exec (release_count g) s = Some (Returns s') -> invariant s'.
Proof.
  intros Hinv. unfold exec.
  destruct (guards s !! g) as [[h it|h it|h it|h it|h it|h|]|] eqn:Hg;
    try discriminate.
  - apply (invariant_decrement s s' g (Locked h it) (Decremented h it) h it);
      auto.
  - apply (invariant_decrement s s' g (Failed h it) (FailedDecremented h it) h it);
      auto.
Qed.

(** An entry whose [perform_lock] threw does not hold the mutex. *)
Lemma failed_not_owner (s : state) (g : nat) (h : string) (it it' : nat) :
  invariant s -> guards s !! g = Some (FailedDecremented h it) ->
  locked s !! it' <> Some g.
Proof.
  intros [HA HC HU HN HO HW HP] Hg Hl.
  destruct (HW _ _ Hl) as [_ (st & h' & Hg' & Hh)].
  rewrite Hg in Hg'. injection Hg' as <-. discriminate Hh.
Qed.

Lemma unlock_failed (s : state) (g : nat) (h : string) (it : nat) :
  invariant s -> guards s !! g = Some (FailedDecremented h it) ->
  unlock s g h it = Some Undefined.
Proof.
  intros Hinv Hg. unfold unlock.
  destruct (locked s !! it) as [owner|] eqn:Hl; [|reflexivity].
  destruct (Nat.eqb_spec owner g) as [->|Hne]; [|reflexivity].
  exfalso. eapply failed_not_owner; eauto.
Qed.

Lemma invariant_release_mutex (s s' : state) (g : nat) :
  invariant s -> exec (release_mutex g) s = Some (Returns s') -> invariant s'.
Proof.
  intros Hinv. unfold exec.
  destruct (guards s !! g) as [[h it|h it|h it|h it|h it|h|]|] eqn:Hg;
    try discriminate;
    [|rewrite (unlock_failed s g h it Hinv Hg); discriminate].
  destruct Hinv as [HA HC HU HN HO HW HP]. destruct s as [tbl cnt lck nxt gs].
  unfold unlock; simpl in *.
  destruct (lck !! it) as [owner|] eqn:Hlck; [|discriminate].
  destruct (Nat.eqb_spec owner g) as [->|Hne]; [|discriminate].
  intros [= <-]. split; simpl.
  - exact HA.
  - exact HC.
  - intros g' st h' it' Hg' Hu.
    apply lookup_insert_guard in Hg' as [[-> ->]|[_ Hg']]; [discriminate Hu|eauto].
  - intros it' c Hc.
    rewrite (users_insert_same it' gs g _ (Unlocked h) Hg eq_refl). auto.
  - intros g' st h' it' Hg' Hh.
    apply lookup_insert_guard in Hg' as [[-> ->]|[Hne Hg']]; [discriminate Hh|].
    pose proof (HO _ _ _ _ Hg' Hh) as Hown.
    rewrite lookup_delete_ne; [exact Hown|].
    intros ->. rewrite Hlck in Hown. congruence.
  - intros it' g' Hl. apply lookup_delete_Some in Hl as [Hne Hl].
    destruct (HW _ _ Hl) as [Hb (st & h' & Hg' & Hh)]. split; [exact Hb|].
    exists st, h'. split; [|exact Hh].
    rewrite list_lookup_insert_ne; [exact Hg'|].
    intros <-. rewrite Hg in Hg'. injection Hg' as <-.
    simpl in Hh. injection Hh as _ Hit. congruence.
  - intros h' it' Hh Hz. eapply exists_insert; eauto.
Qed.

Lemma invariant_check_for_remove (s s' : state) (g : nat) :
  invariant s -> exec (check_for_remove g) s = Some (Returns s') -> invariant s'.
Proof.
  intros [HA HC HU HN HO HW HP]. destruct s as [tbl cnt lck nxt gs].
  unfold exec; simpl in *.
  destruct (gs !! g) as [[h it|h it|h it|h it|h it|h|]|] eqn:Hg; try discriminate.
  assert (Husers : forall g' st h' it',
            <[g := Gone]> gs !! g' = Some st -> user_of st = Some (h', it') ->
            gs !! g' = Some st).
  { intros g' st h' it' Hg' Hu.
    apply lookup_insert_guard in Hg' as [[-> ->]|[_ Hg']]; [discriminate Hu|auto]. }
  assert (Hholders : forall g' st h' it',
            <[g := Gone]> gs !! g' = Some st -> holds st = Some (h', it') ->
            gs !! g' = Some st).
  { intros g' st h' it' Hg' Hh.
    apply lookup_insert_guard in Hg' as [[-> ->]|[_ Hg']]; [discriminate Hh|auto]. }
  assert (Howners : forall it' g',
            lck !! it' = Some g' ->
            (it' < nxt)%nat /\
            exists st h', <[g := Gone]> gs !! g' = Some st /\ holds st = Some (h', it')).
  { intros it' g' Hl.
    destruct (HW _ _ Hl) as [Hb (st & h' & Hg' & Hh)]. split; [exact Hb|].
    exists st, h'. split; [|exact Hh].
    rewrite list_lookup_insert_ne; [exact Hg'|].
    intros <-. rewrite Hg in Hg'. injection Hg' as <-. discriminate Hh. }
  assert (Hcount : forall it', users it' (<[g := Gone]> gs) = users it' gs).
  { intros it'. apply (users_insert_same it' gs g _ Gone Hg). reflexivity. }
  assert (Hpend : forall h',
            h' <> h ->
            (exists g0 st, gs !! g0 = Some st /\ pending st = Some h') ->
            exists g0 st, <[g := Gone]> gs !! g0 = Some st /\ pending st = Some h').
  { intros h' Hne (g0 & st & Hg0 & Hp).
    exists g0, st. split; [|exact Hp].
    rewrite list_lookup_insert_ne; [exact Hg0|].
    intros <-. rewrite Hg in Hg0. injection Hg0 as <-.
    simpl in Hp. congruence. }
  destruct (tbl !! h) as [it|] eqn:Htbl.
  - destruct (HA _ _ Htbl) as [[c Hc] _]. rewrite Hc.
    destruct (Z.eqb_spec c 0) as [->|Hnz]; intros [= <-]; split; simpl.
    + intros h' it' Hh. apply lookup_delete_Some in Hh as [Hne Hh].
      destruct (HA _ _ Hh) as [Hs Hl]. split; [|exact Hl].
      rewrite lookup_delete_ne; [exact Hs|].
      intros <-. apply Hne. eapply HC; eauto.
    + intros h1 h2 it' H1 H2. apply lookup_delete_Some in H1 as [_ H1].
      apply lookup_delete_Some in H2 as [_ H2]. eapply HC; eauto.
    + intros g' st h' it' Hg' Hu.
      pose proof (Husers _ _ _ _ Hg' Hu) as Hold.
      pose proof (HU _ _ _ _ Hold Hu) as Hh.
      rewrite lookup_delete_ne; [exact Hh|].
      intros <-. rewrite Htbl in Hh. injection Hh as <-.
      assert (Hpos : (1 <= users it gs)%nat).
      { eapply users_positive; eauto.
        rewrite (uses_user st h it it Hu). apply Nat.eqb_refl. }
      pose proof (HN _ _ Hc). lia.
    + intros it' c' Hc'. apply lookup_delete_Some in Hc' as [_ Hc'].
      rewrite Hcount. auto.
    + intros g' st h' it' Hg' Hh. eauto.
    + exact Howners.
    + intros h' it' Hh Hz. apply lookup_delete_Some in Hh as [Hne Hh].
      apply lookup_delete_Some in Hz as [_ Hz].
      apply Hpend; [congruence | eauto].
    + exact HA.
    + exact HC.
    + intros g' st h' it' Hg' Hu. eauto.
    + intros it' c' Hc'. rewrite Hcount. auto.
    + intros g' st h' it' Hg' Hh. eauto.
    + exact Howners.
    + intros h' it' Hh Hz. apply Hpend; [|eauto].
      intros ->. rewrite Htbl in Hh. injection Hh as <-. congruence.
  - intros [= <-]; split; simpl.
    + exact HA.
    + exact HC.
    + intros g' st h' it' Hg' Hu. eauto.
    + intros it' c' Hc'. rewrite Hcount. auto.
    + intros g' st h' it' Hg' Hh. eauto.
    + exact Howners.
    + intros h' it' Hh Hz. apply Hpend; [|eauto].
      intros ->. congruence.
Qed.

Lemma reachable_invariant (s : state) : reachable s -> invariant s.
Proof.
  induction 1 as [|s s' a _ IH Hstep]; [apply invariant_initial|].
  destruct a.
  - eapply invariant_enter; eauto.
  - eapply invariant_perform_lock; eauto.
  - eapply invariant_perform_lock_throws; eauto.
  - eapply invariant_release_count; eauto.
  - eapply invariant_release_mutex; eauto.
  - eapply invariant_check_for_remove; eauto.
Qed.

Lemma run_actions_reachable (actions : list action) (s s' : state) :
  reachable s -> run_actions actions s = Some s' -> reachable s'.
Proof.
  revert s; induction actions as [|a rest IH]; intros s Hreach Hrun; simpl in Hrun.
  - injection Hrun as <-. exact Hreach.
  - destruct (exec a s) as [[s1| |]|] eqn:Hexec; try discriminate.
    apply (IH s1); [|exact Hrun]. eapply reachable_step; eauto.
Qed.


(** X21: mutual exclusion, in every state that the threads can bring
    about, runs in which [perform_lock] threw included.  While an entry
    holds the lock of a hash (it has returned from [get_hash_lock] and
    its destruction has not begun), no other entry of that hash holds it,
    and [perform_lock] of an entry of that hash that is still waiting
    cannot return. *)
Theorem cache_guard_mutual_exclusion (s : state) (g1 : nat) (hash : string)
    (item1 : nat) :
  reachable s ->
  guards s !! g1 = Some (Locked hash item1) ->
  (forall g2 item2, guards s !! g2 = Some (Locked hash item2) -> g1 = g2) /\
  (forall g2 item2, guards s !! g2 = Some (Created hash item2) ->
                    exec (perform_lock g2) s = None).
Proof.
  intros Hreach H1. destruct (reachable_invariant s Hreach) as [_ _ HU _ HO _ _].
  pose proof (HU g1 _ hash item1 H1 eq_refl) as T1.
  pose proof (HO g1 _ hash item1 H1 eq_refl) as L1.
  split.
  - intros g2 item2 H2.
    pose proof (HU g2 _ hash item2 H2 eq_refl) as T2.
    rewrite T1 in T2. injection T2 as <-.
    pose proof (HO g2 _ hash item1 H2 eq_refl) as L2.
    congruence.
  - intros g2 item2 H2.
    pose proof (HU g2 _ hash item2 H2 eq_refl) as T2.
    rewrite T1 in T2. injection T2 as <-.
    unfold exec. rewrite H2, L1. reflexivity.
Qed.



(** X24: round trip of an uncontended lock.  From a reachable state whose
    table has no item for [hash], a thread that is not interrupted gets
    the lock at once and the destruction of its entry removes the item
    again: all five operations run, the table is the table from before,
    and nothing stays locked for the new item. *)
Theorem cache_guard_round_trip (s : state) (hash : string) :
  reachable s -> m_table s !! hash = None ->
  exists s',
    run_actions (lock_and_release hash (length (guards s))) s = Some s' /\
    m_table s' = m_table s /\
    locked s' = locked s /\
    guards s' = guards s ++ [Gone].
Proof.
  intros Hreach Hnone.
  destruct (reachable_invariant s Hreach) as [_ _ _ _ _ HW _].
  destruct s as [tbl cnt lck nxt gs]. simpl in *.
  assert (Hfree : lck !! nxt = None).
  { destruct (lck !! nxt) as [g|] eqn:Hl; [|reflexivity].
    destruct (HW _ _ Hl) as [Hb _]. lia. }
  unfold lock_and_release, run_actions, exec, table_item, decrement, unlock. simpl.
  rewrite Hnone. simpl. rewrite lookup_insert_eq. simpl.
  rewrite (list_lookup_middle gs [] (Created hash nxt) (length gs) eq_refl).
  rewrite Hfree. simpl.
  rewrite list_lookup_insert_eq by (rewrite length_app; simpl; lia).
  rewrite lookup_insert_eq. simpl.
  rewrite list_lookup_insert_eq by (rewrite !length_insert, length_app; simpl; lia).
  rewrite lookup_insert_eq, Nat.eqb_refl. simpl.
  rewrite list_lookup_insert_eq by (rewrite !length_insert, length_app; simpl; lia).
  rewrite lookup_insert_eq. simpl. rewrite lookup_insert_eq. simpl.
  eexists. split; [reflexivity|]. simpl. repeat split.
  - apply delete_insert_id. exact Hnone.
  - apply delete_insert_id. exact Hfree.
  - rewrite !list_insert_insert_eq.
    replace (length gs) with (length gs + 0)%nat by lia.
    rewrite insert_app_r. reflexivity.
Qed.

End CacheGuard.

Lemma guard_holding_reachable : cache_guard.reachable Sample.guard_holding.
Proof.
  apply (run_actions_reachable
           [cache_guard.get_hash_lock_enter "blob"; cache_guard.perform_lock 0]
           cache_guard.initial);
    [apply cache_guard.reachable_initial | reflexivity].
Qed.


Lemma guard_contended_reachable : cache_guard.reachable Sample.guard_contended.
Proof.
  apply (run_actions_reachable Sample.guard_contended_actions cache_guard.initial);
    [apply cache_guard.reachable_initial | reflexivity].
Qed.

Lemma cache_guard_mutual_exclusion_witness :
  cache_guard.guards Sample.guard_contended
  = [cache_guard.Locked "blob" 0; cache_guard.Created "blob" 0;
     cache_guard.FailedDecremented "blob" 0] /\
  (forall g2 item2,
      cache_guard.guards Sample.guard_contended !! g2
      = Some (cache_guard.Locked "blob" item2) -> 0%nat = g2) /\
  cache_guard.exec (cache_guard.perform_lock 1) Sample.guard_contended = None.
Proof.
  split; [reflexivity|].
  destruct (cache_guard_mutual_exclusion Sample.guard_contended 0 "blob" 0
              guard_contended_reachable eq_refl) as [Hone Hwait].
  split; [exact Hone | exact (Hwait 1%nat 0%nat eq_refl)].
Defined.



Lemma cache_guard_round_trip_witness :
  exists s',
    cache_guard.run_actions
      (cache_guard.lock_and_release "other"
         (length (cache_guard.guards Sample.guard_holding)))
      Sample.guard_holding = Some s' /\
    cache_guard.m_table s' = cache_guard.m_table Sample.guard_holding /\
    cache_guard.locked s' = cache_guard.locked Sample.guard_holding /\
    cache_guard.guards s'
    = (cache_guard.guards Sample.guard_holding ++ [cache_guard.Gone])%list.
Proof.
  apply (cache_guard_round_trip Sample.guard_holding "other");
    [apply guard_holding_reachable | reflexivity].
Defined.

(** ** Binding the arguments of quantize *)

Section QuantizeBinding.
Context `{KernelSelectorHelper}.

(** X25: the buffers of a quantize kernel.  [get_arguments] binds every
    input memory in order and one output; the memory of the dependencies
    5 to 8 follows the inputs, all four or none, exactly when the node
    uses the scale-shift form and has nine dependencies.  The call is
    defined as soon as those four dependencies have memory. *)
Theorem quantize_get_arguments {M} (instance : quantize_inst.instance M) :
  (quantize.get_scale_shift_opt (quantize_inst.node instance)
   && (quantize_inst.dependencies_size instance =? 9)%N = true ->
   (9 <= length (quantize_inst.dependencies_memory instance))%nat) ->
  exists args,
    quantize_inst.get_arguments instance = Returns args /\
    kernel_arguments_data.outputs args = [quantize_inst.output_memory_ptr instance] /\
    kernel_arguments_data.inputs args
    = (quantize_inst.inputs_memory instance
       ++ if quantize.get_scale_shift_opt (quantize_inst.node instance)
             && (quantize_inst.dependencies_size instance =? 9)%N
          then take 4 (drop 5 (quantize_inst.dependencies_memory instance))
          else [])%list.
Proof.
  intros Hdeps.
  unfold quantize_inst.get_arguments, quantize_inst.input_memory_ptr,
    quantize_inst.inputs_memory_count, quantize_inst.dep_memory_ptr.
  rewrite push_back_memory_inside by (simpl; lia).
  rewrite Nat2N.id. change (N.to_nat 0) with 0%nat.
  rewrite drop_0, firstn_all. simpl obind.
  destruct (quantize.get_scale_shift_opt (quantize_inst.node instance));
    [|eexists; split; [reflexivity|]; simpl; rewrite app_nil_r; split; reflexivity].
  destruct (quantize_inst.dependencies_size instance =? 9)%N;
    [|eexists; split; [reflexivity|]; simpl; rewrite app_nil_r; split; reflexivity].
  specialize (Hdeps eq_refl).
  destruct (quantize_inst.dependencies_memory instance)
    as [|d0 [|d1 [|d2 [|d3 [|d4 [|d5 [|d6 [|d7 [|d8 rest]]]]]]]]];
    simpl in Hdeps; try lia.
  eexists. split; [reflexivity|]. simpl. rewrite <- !app_assoc. split; reflexivity.
Qed.

End QuantizeBinding.

Lemma quantize_get_arguments_witness :
  exists args,
    quantize_inst.get_arguments Sample.quantize_instance = Returns args /\
    kernel_arguments_data.outputs args = ["out"] /\
    kernel_arguments_data.inputs args
    = (["in"; "lo"; "hi"; "olo"; "ohi"]
       ++ ["scale"; "shift"; "oscale"; "oshift"])%list.
Proof.
  apply (quantize_get_arguments (H := Sample.helper) Sample.quantize_instance).
  intros _. simpl. lia.
Defined.
